(** * LMRK backend: connection manager, token service and auth middleware

    A shallow embedding of the JavaScript sources

    - [src/index.js]          (the main server, [Module Index]),
    - [src/server.js]         (the earlier server variant, [Module Server]),
    - [src/unnamed/part_002]  (the [utils/auth] module, [Module Auth]),

    and the properties of the specification checked against them.

    JavaScript code that awaits the database driver is written in a small
    free monad [prog]: the synchronous statements between two [await]s
    read and write the module-level variable [globalPool]; an [await]
    suspends the caller until the driver settles the promise.  The same
    programs are run sequentially against a list of driver replies
    ([exec]) and interleaved with other callers on the event loop
    ([run_events]). *)

From Stdlib Require Import ZArith String Ascii List Bool Lia.
From Stdlib Require Import Floats.PrimFloat Numbers.Cyclic.Int63.Uint63.
From Stdlib Require Import Floats.SpecFloat Floats.FloatOps.
From stdpp Require Import base option list gmap strings.

Import ListNotations.
Local Open Scope string_scope.
Local Open Scope Z_scope.

Set Implicit Arguments.
Unset Strict Implicit.
Set Warnings "-register-all".

(** ** JavaScript values and errors *)

(** Values carried by JSON request bodies and by columns of database rows.
    Strings are sequences of code units; nested objects as field values of
    a request body are outside the model. *)
Inductive jsval : Type :=
| JUndefined
| JNull
| JBool (b : bool)
| JNum (x : float)
| JStr (s : string)
| JArr (xs : list jsval).

(** ToBoolean: [!v] is [negb (truthy v)]. *)
Definition truthy (v : jsval) : bool :=
  match v with
  | JUndefined | JNull => false
  | JBool b => b
  | JNum x => negb (PrimFloat.eqb x 0%float || PrimFloat.is_nan x)
  | JStr s => negb (String.eqb s "")
  | JArr _ => true
  end.

(** [a || b] *)
Definition js_or (a b : jsval) : jsval := if truthy a then a else b.

(** [v.length] for a non-nullish [v]; [None] stands for [undefined]. *)
Definition js_length (v : jsval) : option nat :=
  match v with
  | JStr s => Some (String.length s)
  | JArr xs => Some (List.length xs)
  | _ => None
  end.

(** [v.length > n]; a comparison with [undefined] is false. *)
Definition length_gt (v : jsval) (n : nat) : bool :=
  match js_length v with
  | Some k => Nat.ltb n k
  | None => false
  end.

(** [obj[key]] on an object used as a map. *)
Definition prop (o : gmap string jsval) (key : string) : jsval :=
  default JUndefined (o !! key).

(** [process.env[key]] is [undefined] or a string. *)
Definition getenv (env : gmap string string) (key : string) : jsval :=
  match env !! key with
  | Some s => JStr s
  | None => JUndefined
  end.

(** A thrown [Error]: its [name] and [message]. *)
Record jserror : Type := JsError { err_name : string; err_message : string }.

Definition new_Error (msg : string) : jserror := JsError "Error" msg.

(** [err.toString()]: the name alone when there is no message, the
    message alone when there is no name. *)
Definition err_toString (e : jserror) : string :=
  if String.eqb (err_name e) "" then err_message e
  else if String.eqb (err_message e) "" then err_name e
  else err_name e ++ ": " ++ err_message e.

(** The [TypeError] raised by a property access on [null]. *)
Definition null_deref (property : string) : jserror :=
  JsError "TypeError"
    ("Cannot read properties of null (reading '" ++ property ++ "')").

(** A settled promise, or the result of a call that may throw. *)
Inductive result (A : Type) : Type :=
| Fulfilled (a : A)
| Rejected (e : jserror).
Arguments Fulfilled {A} a.
Arguments Rejected {A} e.

(** [s.includes(needle)] *)
Fixpoint includes (needle s : string) : bool :=
  String.prefix needle s ||
  match s with
  | EmptyString => false
  | String _ rest => includes needle rest
  end.

(** [s.split(sep)] for a separator of one character. *)
Fixpoint split_char (sep : ascii) (s : string) : list string :=
  match s with
  | EmptyString => [EmptyString]
  | String c rest =>
      if Ascii.eqb c sep then EmptyString :: split_char sep rest
      else
        match split_char sep rest with
        | piece :: pieces => String c piece :: pieces
        | [] => [String c EmptyString]
        end
  end.

(** ** The database driver *)

(** A pool handle returned by [sql.connect]. *)
Definition handle : Type := nat.
Bind Scope nat_scope with handle.

Inductive sqltype : Type :=
| VarChar (n : option nat)
| NVarCharMax
| Decimal (precision scale : nat)
| SqlInt
| SqlDate
| SqlDateTime.

(** [request.input(name, type, value)] *)
Record sqlinput : Type :=
  SqlInput { in_name : string; in_type : sqltype; in_value : jsval }.

(** [.query(text)] or [.execute(procedure)]; SQL text is written on one
    line. *)
Inductive sqlcmd : Type :=
| Query (text : string)
| Execute (procedure : string).

Record dbrequest : Type :=
  DbRequest { rq_inputs : list sqlinput; rq_cmd : sqlcmd }.

(** [result.recordset]; [None] stands for [undefined] (a statement that
    returns no recordset). *)
Definition recordset : Type := option (list (gmap string jsval)).

(** The liveness probe: [pool.request().query("SELECT 1 as test")]. *)
Definition probe : dbrequest := DbRequest [] (Query "SELECT 1 as test").

(** What the process does to the outside world, in order. *)
Inductive effect : Type :=
| SqlConnect
| PoolOnError (h : handle)
| PoolRequest (h : handle) (r : dbrequest)
| AppListen (port : jsval).

(** ** Programs *)

Inductive prog (A : Type) : Type :=
| Ret (a : A)
| Throw (e : jserror)
| Exit (code : Z)
| GetPool (k : option handle -> prog A)
| SetPool (p : option handle) (k : prog A)
| OnError (h : handle) (k : prog A)
| Listen (port : jsval) (k : prog A)
| AwaitConnect (k : result handle -> prog A)
| AwaitRequest (h : handle) (r : dbrequest) (k : result recordset -> prog A).
Arguments Ret {A} a.
Arguments Throw {A} e.
Arguments Exit {A} code.

Fixpoint bind {A B : Type} (p : prog A) (f : A -> prog B) : prog B :=
  match p with
  | Ret a => f a
  | Throw e => Throw e
  | Exit c => Exit c
  | GetPool k => GetPool (fun g => bind (k g) f)
  | SetPool g k => SetPool g (bind k f)
  | OnError h k => OnError h (bind k f)
  | Listen port k => Listen port (bind k f)
  | AwaitConnect k => AwaitConnect (fun r => bind (k r) f)
  | AwaitRequest h r k => AwaitRequest h r (fun x => bind (k x) f)
  end.

(** [try { p } catch (err) { handler err }]; [process.exit] is not caught. *)
Fixpoint try_catch {A : Type} (p : prog A) (handler : jserror -> prog A)
  : prog A :=
  match p with
  | Ret a => Ret a
  | Throw e => handler e
  | Exit c => Exit c
  | GetPool k => GetPool (fun g => try_catch (k g) handler)
  | SetPool g k => SetPool g (try_catch k handler)
  | OnError h k => OnError h (try_catch k handler)
  | Listen port k => Listen port (try_catch k handler)
  | AwaitConnect k => AwaitConnect (fun r => try_catch (k r) handler)
  | AwaitRequest h r k => AwaitRequest h r (fun x => try_catch (k x) handler)
  end.

Declare Scope prog_scope.
Delimit Scope prog_scope with prog.
Bind Scope prog_scope with prog.
Notation "'let*' x := p 'in' k" := (bind p (fun x => k))
  (at level 10, x name, p at level 100, k at level 200) : prog_scope.
Notation "p ;; k" := (bind p (fun _ => k))
  (at level 100, k at level 200, right associativity) : prog_scope.
Local Open Scope prog_scope.

(** [globalPool] read as a value. *)
Definition get_pool : prog (option handle) := GetPool (fun g => Ret g).

(** [globalPool = v] *)
Definition set_pool (v : option handle) : prog unit := SetPool v (Ret tt).

(** [pool.<property>] on a variable holding a pool or [null]. *)
Definition deref (property : string) (pool : option handle) : prog handle :=
  match pool with
  | Some h => Ret h
  | None => Throw (null_deref property)
  end.

(** [await sql.connect(config)] *)
Definition sql_connect : prog handle :=
  AwaitConnect (fun r =>
    match r with Fulfilled h => Ret h | Rejected e => Throw e end).

(** [await pool.request()...query(...)] or [...execute(...)] *)
Definition pool_request (h : handle) (r : dbrequest) : prog recordset :=
  AwaitRequest h r (fun x =>
    match x with Fulfilled rs => Ret rs | Rejected e => Throw e end).

Definition on_error (h : handle) : prog unit := OnError h (Ret tt).

Definition app_listen (port : jsval) : prog unit := Listen port (Ret tt).

(** ** Running programs *)

(** How a call ended. *)
Inductive outcome (A : Type) : Type :=
| Returned (a : A)
| Threw (e : jserror)
| Exited (code : Z).
Arguments Returned {A} a.
Arguments Threw {A} e.
Arguments Exited {A} code.

(** A caller on the event loop: suspended at an [await], or finished. *)
Inductive task (A : Type) : Type :=
| WaitConnect (k : result handle -> prog A)
| WaitRequest (k : result recordset -> prog A)
| Done (o : outcome A).
Arguments Done {A} o.

(** One turn of the event loop: run the synchronous statements of [p] on
    the current [globalPool] up to the next [await] (whose driver call is
    issued before suspending) or to the end of the call. *)
Fixpoint advance {A : Type} (p : prog A) (g : option handle)
  : task A * option handle * list effect :=
  match p with
  | Ret a => (Done (Returned a), g, [])
  | Throw e => (Done (Threw e), g, [])
  | Exit c => (Done (Exited c), g, [])
  | GetPool k => advance (k g) g
  | SetPool g' k => advance k g'
  | OnError h k =>
      let '(t, g', tr) := advance k g in (t, g', PoolOnError h :: tr)
  | Listen port k =>
      let '(t, g', tr) := advance k g in (t, g', AppListen port :: tr)
  | AwaitConnect k => (WaitConnect k, g, [SqlConnect])
  | AwaitRequest h r k => (WaitRequest k, g, [PoolRequest h r])
  end.

(** What the driver answers to a pending call. *)
Inductive reply : Type :=
| Connected (r : result handle)
| Answered (r : result recordset).

(** The continuation of a suspended task on a reply of the right kind. *)
Definition resume {A : Type} (t : task A) (r : reply) : option (prog A) :=
  match t, r with
  | WaitConnect k, Connected x => Some (k x)
  | WaitRequest k, Answered x => Some (k x)
  | _, _ => None
  end.

(** The state of a sequential run: how the call ended ([None] while it is
    still waiting for the driver), [globalPool], the effects so far and
    the replies not consumed. *)
Record run (A : Type) : Type := Run {
  run_outcome : option (outcome A);
  run_pool : option handle;
  run_trace : list effect;
  run_rest : list reply
}.

Definition emit {A : Type} (tr : list effect) (r : run A) : run A :=
  Run (run_outcome r) (run_pool r) (tr ++ run_trace r) (run_rest r).

(** Run one call alone, the driver answering with [rs] in order: every
    [await] issues its driver call and takes the next reply. *)
Fixpoint exec {A : Type} (p : prog A) (g : option handle) (rs : list reply)
  : run A :=
  match p with
  | Ret a => Run (Some (Returned a)) g [] rs
  | Throw e => Run (Some (Threw e)) g [] rs
  | Exit c => Run (Some (Exited c)) g [] rs
  | GetPool k => exec (k g) g rs
  | SetPool g' k => exec k g' rs
  | OnError h k => emit [PoolOnError h] (exec k g rs)
  | Listen port k => emit [AppListen port] (exec k g rs)
  | AwaitConnect k =>
      match rs with
      | Connected x :: rs' => emit [SqlConnect] (exec (k x) g rs')
      | _ => Run None g [SqlConnect] rs
      end
  | AwaitRequest h r k =>
      match rs with
      | Answered x :: rs' => emit [PoolRequest h r] (exec (k x) g rs')
      | _ => Run None g [PoolRequest h r] rs
      end
  end.

(** *** Several callers on one event loop *)

Record sys (A : Type) : Type := Sys {
  sys_pool : option handle;
  sys_log : list effect;
  sys_tasks : list (task A)
}.

Definition cold {A : Type} : sys A := Sys None [] [].

Inductive event (A : Type) : Type :=
| Call (p : prog A)
| Settle (i : nat) (r : reply)
| PoolError (h : handle).
Arguments Settle {A} i r.
Arguments PoolError {A} h.

Definition has_handler (h : handle) (log : list effect) : bool :=
  existsb (fun e => match e with
                    | PoolOnError h' => Nat.eqb h h'
                    | _ => false
                    end) log.

(** A new call joins ([Call]), the driver settles the promise task [i] is
    waiting for ([Settle]), or a pool with a registered listener emits
    ["error"] ([PoolError]: the listener resets [globalPool]). *)
Definition step {A : Type} (s : sys A) (ev : event A) : option (sys A) :=
  match ev with
  | Call p =>
      let '(t, g, tr) := advance p (sys_pool s) in
      Some (Sys g (sys_log s ++ tr) (sys_tasks s ++ [t]))
  | Settle i r =>
      match sys_tasks s !! i with
      | Some t =>
          match resume t r with
          | Some p =>
              let '(t', g, tr) := advance p (sys_pool s) in
              Some (Sys g (sys_log s ++ tr) (<[i := t']> (sys_tasks s)))
          | None => None
          end
      | None => None
      end
  | PoolError h =>
      if has_handler h (sys_log s)
      then Some (Sys None (sys_log s) (sys_tasks s))
      else None
  end.

Fixpoint run_events {A : Type} (s : sys A) (evs : list (event A))
  : option (sys A) :=
  match evs with
  | [] => Some s
  | ev :: evs' =>
      match step s ev with
      | Some s' => run_events s' evs'
      | None => None
      end
  end.

Definition is_connect (e : effect) : bool :=
  match e with SqlConnect => true | _ => false end.

Definition is_request (e : effect) : bool :=
  match e with PoolRequest _ _ => true | _ => false end.

Definition is_listen (e : effect) : bool :=
  match e with AppListen _ => true | _ => false end.

(** Number of [sql.connect] calls issued. *)
Definition connect_attempts (tr : list effect) : nat :=
  List.length (List.filter is_connect tr).

(** No connection was opened and no statement was sent. *)
Definition no_database_call (tr : list effect) : bool :=
  forallb (fun e => negb (is_connect e || is_request e)) tr.

(** ** Tokens, requests and responses *)

(** The token payload used throughout: [{ userId, username, role }]. *)
Record claims : Type :=
  Claims { userId : Z; username : string; role : string }.

(** A signed payload: the claims with [iat] and [exp], in seconds. *)
Record jwt_payload : Type :=
  JwtPayload { pl_claims : claims; pl_iat : Z; pl_exp : Z }.

(** Signatures are symbolic: [HS256 key p] is the MAC of [p] under [key],
    and two MACs are equal only if key and payload are. *)
Inductive signature : Type :=
| HS256 (key : string) (signed : jwt_payload).

(** A string offered as a token: the compact serialisation of a payload
    with a signature, or any other string. *)
Inductive token : Type :=
| Opaque (s : string)
| Jws (payload : jwt_payload) (sig : signature).

#[global] Instance claims_eq_dec : EqDecision claims.
Proof. solve_decision. Defined.
#[global] Instance jwt_payload_eq_dec : EqDecision jwt_payload.
Proof. solve_decision. Defined.
#[global] Instance signature_eq_dec : EqDecision signature.
Proof. solve_decision. Defined.

(** [req.user]: a decoded token, or an object literal with the three
    claims only. *)
Inductive principal : Type :=
| Decoded (p : jwt_payload)
| Identity (c : claims).

(** An incoming request.  The Authorization header is kept as the pieces
    between its single spaces, which is what [authHeader.split(" ")]
    returns; the header [""] is [[Opaque ""]].  [body_refreshToken] is
    [req.body.refreshToken] when it is a string; when it is [None] the
    value, which is then not a string, is the entry ["refreshToken"] of
    [body]. *)
Record request : Type := Request {
  authorization : option (list token);
  body : gmap string jsval;
  body_refreshToken : option token;
  params : gmap string string;
  user : option principal
}.

Definition set_user (req : request) (u : principal) : request :=
  Request (authorization req) (body req) (body_refreshToken req)
          (params req) (Some u).

Definition set_authorization (req : request) (h : option (list token))
  : request :=
  Request h (body req) (body_refreshToken req) (params req) (user req).

(** JSON written by [res.json]. *)
Inductive json : Type :=
| JVal (v : jsval)
| JInt (z : Z)
| JTok (t : token)
| JRows (rs : list (gmap string jsval))
| JObject (fields : list (string * json)).

Record response : Type := Response { status : nat; payload : json }.

(** [res.status(code).json(obj)] and [res.json(obj)] *)
Definition send {A : Type} (code : nat) (fields : list (string * json))
  (k : response -> A) : A := k (Response code (JObject fields)).

Definition jstr (s : string) : json := JVal (JStr s).
Definition jbool (b : bool) : json := JVal (JBool b).

(** What a middleware did: answered, or called [next()]. *)
Inductive mw : Type :=
| Respond (r : response)
| Next (req : request).

(** ** [utils/auth] (src/unnamed/part_002) *)

Module Auth.

Definition dq : string := String "034"%char EmptyString.

Definition is_digit (c : ascii) : bool :=
  let n := nat_of_ascii c in (Nat.leb 48 n && Nat.leb n 57)%bool.

(** Leading decimal digits of [s], their value and the remainder. *)
Fixpoint leading_digits (acc : Z) (seen : bool) (s : string)
  : Z * bool * string :=
  match s with
  | String c rest =>
      if is_digit c
      then leading_digits (10 * acc + Z.of_nat (nat_of_ascii c - 48)) true rest
      else (acc, seen, s)
  | EmptyString => (acc, seen, s)
  end.

Definition ms_unit (u : string) : option Z :=
  if String.eqb u "" || String.eqb u "ms" then Some 1
  else if String.eqb u "s" then Some 1000
  else if String.eqb u "m" then Some 60000
  else if String.eqb u "h" then Some 3600000
  else if String.eqb u "d" then Some 86400000
  else if String.eqb u "w" then Some 604800000
  else if String.eqb u "y" then Some 31557600000
  else None.

(** The timespan strings of the [ms] package, restricted to an unsigned
    integer followed at once by an optional short lower-case unit (no unit
    means milliseconds); the result is in milliseconds.  The package reads
    more spellings (fractions, signs, long unit names), for which this
    function answers [None]; nothing below relies on a [None]. *)
Definition ms (s : string) : option Z :=
  match leading_digits 0 false s with
  | (n, true, u) =>
      match ms_unit u with
      | Some k => Some (n * k)
      | None => None
      end
  | (_, false, _) => None
  end.

(** [jwt.sign(payload, secret, { expiresIn })] at clock [now] (seconds):
    [iat = now], [exp = floor(iat + ms(expiresIn) / 1000)]. *)
Definition jwt_sign (c : claims) (secret expiresIn : string) (now : Z)
  : result token :=
  if String.eqb secret "" then
    Rejected (new_Error "secretOrPrivateKey must have a value")
  else
    match ms expiresIn with
    | Some millis =>
        let p := JwtPayload c now (now + millis / 1000) in
        Fulfilled (Jws p (HS256 secret p))
    | None =>
        Rejected (new_Error
          (dq ++ "expiresIn" ++ dq ++
           " should be a number of seconds or string representing a timespan eg: "
           ++ dq ++ "1d" ++ dq ++ ", " ++ dq ++ "20h" ++ dq ++ ", 60"))
    end.

(** [jwt.verify(token, secret)] at clock [now] (seconds), on the tokens
    [jwt_sign] above makes (HS256, carrying [exp]) and on other strings. *)
Definition jwt_verify (t : token) (secret : string) (now : Z)
  : result jwt_payload :=
  match t with
  | Opaque s =>
      if String.eqb s ""
      then Rejected (JsError "JsonWebTokenError" "jwt must be provided")
      else Rejected (JsError "JsonWebTokenError" "jwt malformed")
  | Jws p sig =>
      if decide (sig = HS256 secret p) then
        if Z.leb (pl_exp p) now
        then Rejected (JsError "TokenExpiredError" "jwt expired")
        else Fulfilled p
      else Rejected (JsError "JsonWebTokenError" "invalid signature")
  end.

(** [process.env[key] || fallback] *)
Definition env_or (env : gmap string string) (key fallback : string)
  : string :=
  match env !! key with
  | Some s => if String.eqb s "" then fallback else s
  | None => fallback
  end.

Section Config.
Variable env : gmap string string.

Definition JWT_SECRET : string :=
  env_or env "JWT_SECRET"
    "your-super-secret-jwt-key-change-this-in-production".
Definition JWT_EXPIRES_IN : string := env_or env "JWT_EXPIRES_IN" "24h".
Definition JWT_REFRESH_EXPIRES_IN : string :=
  env_or env "JWT_REFRESH_EXPIRES_IN" "7d".

Definition generateAccessToken (payload : claims) (now : Z) : result token :=
  jwt_sign payload JWT_SECRET JWT_EXPIRES_IN now.

Definition generateRefreshToken (payload : claims) (now : Z) : result token :=
  jwt_sign payload JWT_SECRET JWT_REFRESH_EXPIRES_IN now.

Definition verifyToken (t : token) (now : Z) : result jwt_payload :=
  match jwt_verify t JWT_SECRET now with
  | Fulfilled p => Fulfilled p
  | Rejected _ => Rejected (new_Error "Invalid or expired token")
  end.

(** [!token] for a string or [undefined]. *)
Definition token_missing (t : option token) : bool :=
  match t with
  | None | Some (Opaque EmptyString) => true
  | Some _ => false
  end.

(** [!req.body.refreshToken] *)
Definition refreshToken_missing (req : request) : bool :=
  match body_refreshToken req with
  | Some refreshToken => token_missing (Some refreshToken)
  | None => negb (truthy (prop (body req) "refreshToken"))
  end.

(** [authHeader && authHeader.split(" ")[1]]: a missing or empty header
    is falsy and is the value of the conjunction, rendered as [None]. *)
Definition bearer (authHeader : option (list token)) : option token :=
  match authHeader with
  | None => None
  | Some pieces =>
      if token_missing (head pieces) && Nat.leb (List.length pieces) 1
      then None
      else pieces !! 1%nat
  end.

Definition authenticateToken (req : request) (now : Z) : mw :=
  match bearer (authorization req) with
  | Some token =>
      if token_missing (Some token) then
        send 401 [("success", jbool false);
                  ("message", jstr "Access token required")] Respond
      else
        match verifyToken token now with
        | Fulfilled decoded => Next (set_user req (Decoded decoded))
        | Rejected error =>
            send 403 [("success", jbool false);
                      ("message", jstr "Invalid or expired token");
                      ("error", jstr (err_message error))] Respond
        end
  | None =>
      send 401 [("success", jbool false);
                ("message", jstr "Access token required")] Respond
  end.

Definition optionalAuthForReports (req : request) : mw :=
  Next (set_user req (Identity (Claims 1 "system" "admin"))).

Definition optionalAuth (req : request) (now : Z) : mw :=
  match bearer (authorization req) with
  | Some token =>
      if token_missing (Some token) then Next req
      else
        match verifyToken token now with
        | Fulfilled decoded => Next (set_user req (Decoded decoded))
        | Rejected _ => Next req
        end
  | None => Next req
  end.

(** The body of the [try] block of [refreshAccessToken]. *)
Definition refresh_with (refreshToken : token) (now : Z) : result response :=
  match verifyToken refreshToken now with
  | Rejected e => Rejected e
  | Fulfilled decoded =>
      match generateAccessToken
              (Claims (userId (pl_claims decoded))
                      (username (pl_claims decoded))
                      (role (pl_claims decoded))) now with
      | Rejected e => Rejected e
      | Fulfilled newAccessToken =>
          Fulfilled
            (send 200
               [("success", jbool true);
                ("message", jstr "Token refreshed successfully");
                ("data", JObject
                   [("accessToken", JTok newAccessToken);
                    ("user", JObject
                       [("userId", JInt (userId (pl_claims decoded)));
                        ("username", jstr (username (pl_claims decoded)));
                        ("role", jstr (role (pl_claims decoded)))])])] id)
      end
  end.

Definition refreshAccessToken (req : request) (now : Z) : response :=
  match body_refreshToken req with
  | Some refreshToken =>
      if token_missing (Some refreshToken) then
        send 401 [("success", jbool false);
                  ("message", jstr "Refresh token required")] id
      else
        match refresh_with refreshToken now with
        | Fulfilled r => r
        | Rejected error =>
            send 403 [("success", jbool false);
                      ("message", jstr "Invalid refresh token");
                      ("error", jstr (err_message error))] id
        end
  | None =>
      if negb (truthy (prop (body req) "refreshToken")) then
        send 401 [("success", jbool false);
                  ("message", jstr "Refresh token required")] id
      else
        (* [jwt.verify] refuses what is not a string, and [verifyToken]
           throws its own error in its place *)
        send 403 [("success", jbool false);
                  ("message", jstr "Invalid refresh token");
                  ("error",
                   jstr (err_message
                           (new_Error "Invalid or expired token")))] id
  end.

End Config.

(** [requireRole(allowedRoles)], the middleware it returns. *)
Definition principal_claims (u : principal) : claims :=
  match u with
  | Decoded p => pl_claims p
  | Identity c => c
  end.

Definition requireRole (allowedRoles : list string) (req : request) : mw :=
  match user req with
  | None =>
      send 401 [("success", jbool false);
                ("message", jstr "Authentication required")] Respond
  | Some u =>
      if negb (existsb (String.eqb (role (principal_claims u))) allowedRoles)
      then
        send 403 [("success", jbool false);
                  ("message", jstr "Insufficient permissions")] Respond
      else Next req
  end.

(** One middleware after another. *)
Definition and_then (m : mw) (next : request -> mw) : mw :=
  match m with
  | Respond r => Respond r
  | Next req => next req
  end.

End Auth.

(** ** Route plumbing shared by the servers *)

Inductive guard : Type :=
| AuthenticateToken
| OptionalAuthForReports.

Record route : Type := Route {
  rt_method : string;
  rt_path : string;
  rt_guards : list guard;
  rt_handler : request -> prog response
}.

Definition run_guard (env : gmap string string) (now : Z) (g : guard)
  (req : request) : mw :=
  match g with
  | AuthenticateToken => Auth.authenticateToken env req now
  | OptionalAuthForReports => Auth.optionalAuthForReports req
  end.

(** Express runs the middleware of a route in order; the handler runs if
    every one of them calls [next()]. *)
Fixpoint through (env : gmap string string) (now : Z) (gs : list guard)
  (handler : request -> prog response) (req : request) : prog response :=
  match gs with
  | [] => handler req
  | g :: gs' =>
      match run_guard env now g req with
      | Respond r => Ret r
      | Next req' => through env now gs' handler req'
      end
  end.

Definition serve (env : gmap string string) (now : Z) (r : route)
  (req : request) : prog response :=
  through env now (rt_guards r) (rt_handler r) req.

Definition find_route (routes : list route) (method path : string)
  : option route :=
  List.find (fun r => String.eqb (rt_method r) method &&
                      String.eqb (rt_path r) path) routes.

Definition message (msg : string) : list (string * json) :=
  [("message", jstr msg)].

(** [process.env.PORT || 4000] *)
Definition PORT (env : gmap string string) : jsval :=
  js_or (getenv env "PORT") (JNum 4000%float).

(** ** Strings, equality and numbers used by the handlers *)

(** White space and line terminators among the code units below 256. *)
Definition is_space (c : ascii) : bool :=
  let n := nat_of_ascii c in
  (Nat.leb 9 n && Nat.leb n 13) || Nat.eqb n 32 || Nat.eqb n 160.

Fixpoint trimStart (s : string) : string :=
  match s with
  | String c rest => if is_space c then trimStart rest else s
  | EmptyString => EmptyString
  end.

Fixpoint trimEnd (s : string) : string :=
  match s with
  | EmptyString => EmptyString
  | String c rest =>
      match trimEnd rest with
      | EmptyString => if is_space c then EmptyString
                       else String c EmptyString
      | rest' => String c rest'
      end
  end.

(** [s.trim()] *)
Definition trim (s : string) : string := trimEnd (trimStart s).

(** [a === b]; two arrays met here are never the same object. *)
Definition strict_eq (a b : jsval) : bool :=
  match a, b with
  | JUndefined, JUndefined => true
  | JNull, JNull => true
  | JBool x, JBool y => Bool.eqb x y
  | JNum x, JNum y => PrimFloat.eqb x y
  | JStr x, JStr y => String.eqb x y
  | _, _ => false
  end.

(** The integer a number is, if it is one. *)
Definition integer_of_float (x : float) : option Z :=
  match Prim2SF x with
  | S754_zero _ => Some 0
  | S754_finite sign m e =>
      let magnitude :=
        if Z.leb 0 e then Some (Z.pos m * 2 ^ e)
        else if Z.eqb (Z.pos m mod 2 ^ (- e)) 0
             then Some (Z.pos m / 2 ^ (- e))
             else None in
      option_map (fun z => if sign then - z else z) magnitude
  | _ => None
  end.

(** What [validateInput] returns: [null], a trimmed string, a number, or
    a [Date], kept as its time value. *)
Inductive validated : Type :=
| VNull
| VString (s : string)
| VNumber (x : float)
| VDate (time : float).

(** [!v] is [negb (validated_truthy v)]. *)
Definition validated_truthy (v : validated) : bool :=
  match v with
  | VNull => false
  | VString s => truthy (JStr s)
  | VNumber x => truthy (JNum x)
  | VDate _ => true
  end.

(** A validated value handed to [request.input]. *)
Definition bound (v : validated) : jsval :=
  match v with
  | VNull => JNull
  | VString s => JStr s
  | VNumber x => JNum x
  | VDate time => JNum time
  end.

(** [res.cookie(name, value, options)] *)
Record cookie : Type := Cookie {
  ck_name : string;
  ck_value : token;
  ck_httpOnly : bool;
  ck_secure : bool;
  ck_sameSite : string;
  ck_maxAge : Z
}.

(** What a handler wrote: a JSON document built by the handler, or a
    database row sent as it is. *)
Inductive answer : Type :=
| Json (r : response)
| Object (code : nat) (o : gmap string jsval).

Definition set_body_refreshToken (req : request) (t : option token)
  : request :=
  Request (authorization req) (body req) t (params req) (user req).

(** ** src/index.js *)

Module Index.

Definition requiredEnvVars : list string :=
  ["DB_USER"; "DB_PASSWORD"; "DB_SERVER"; "DB_NAME"].

(** The loop at the top of the file: [process.exit(1)] at the first
    variable that is unset or empty. *)
Fixpoint check_required (env : gmap string string) (vars : list string)
  : prog unit :=
  match vars with
  | [] => Ret tt
  | envVar :: rest =>
      if negb (truthy (getenv env envVar)) then Exit 1
      else check_required env rest
  end.

Definition initializeDatabase : prog (option handle) :=
  try_catch
    (let* g := get_pool in
     match g with
     | Some h => Ret (Some h)
     | None =>
         let* h := sql_connect in
         set_pool (Some h);;
         let* g1 := get_pool in
         let* p1 := deref "on" g1 in
         on_error p1;;
         let* g2 := get_pool in
         let* p2 := deref "request" g2 in
         pool_request p2 probe;;
         get_pool
     end)
    (fun err => set_pool None;; Throw err).

Definition getDbConnection : prog (option handle) :=
  let* g := get_pool in
  match g with
  | None =>
      try_catch initializeDatabase
        (fun _ => Throw (new_Error "Database connection not available"))
  | Some _ =>
      try_catch
        (let* g1 := get_pool in
         let* p1 := deref "request" g1 in
         pool_request p1 probe;;
         get_pool)
        (fun _ => set_pool None;; initializeDatabase)
  end.

Definition startServer (env : gmap string string) : prog unit :=
  try_catch
    (initializeDatabase;; app_listen (PORT env))
    (fun _ => Exit 1).

(** The script from top to bottom: the environment check, then
    [startServer()]. *)
Definition main (env : gmap string string) : prog unit :=
  check_required env requiredEnvVars;; startServer env.

(** GET /api/test/user/:username *)
Definition test_user (req : request) : prog response :=
  try_catch
    (let* pool := getDbConnection in
     let username := default "" (params req !! "username") in
     let* p := deref "request" pool in
     let* userResult :=
       pool_request p
         (DbRequest [SqlInput "username" (VarChar (Some 50%nat)) (JStr username)]
            (Query "SELECT User_Name, User_Password, User_ID, Active, Role FROM Tbl_UserMaster WHERE User_Name = @username")) in
     let* recordset := match userResult with
                       | Some rows => Ret rows
                       | None => Throw (JsError "TypeError"
                           "Cannot read properties of undefined (reading 'length')")
                       end in
     match recordset with
     | [] =>
         send 200 [("success", jbool false);
                   ("message", jstr "User not found");
                   ("username", jstr username)] Ret
     | user :: _ =>
         send 200
           [("success", jbool true);
            ("message", jstr "User found");
            ("data", JObject
               [("username", JVal (prop user "User_Name"));
                ("userId", JVal (prop user "User_ID"));
                ("active", JVal (prop user "Active"));
                ("role", JVal (prop user "Role"));
                ("passwordLength",
                   JInt (Z.of_nat (default 0%nat
                           (js_length (prop user "User_Password")))));
                ("passwordMatch",
                   jbool (match prop user "User_Password" with
                          | JStr s => String.eqb s "2255"
                          | _ => false
                          end))])] Ret
     end)
    (fun error =>
       send 500 [("success", jbool false);
                 ("message", jstr "Error fetching user");
                 ("error", jstr (err_message error))] Ret).

(** GET /api/Users *)
Definition users (req : request) : prog response :=
  try_catch
    (let* pool := getDbConnection in
     let* p := deref "request" pool in
     let* result :=
       pool_request p
         (DbRequest [] (Query "SELECT User_Name FROM User_Details_M_Tbl ")) in
     let* recordset := match result with
                       | Some rows => Ret rows
                       | None => Throw (JsError "TypeError"
                           "Cannot read properties of undefined (reading 'map')")
                       end in
     send 200
       [("users",
          JVal (JArr (List.map (fun record => prop record "User_Name")
                        recordset)))] Ret)
    (fun err =>
       send 500 (message "Failed to fetch users list from database.") Ret).

Section Handlers.
(** The built-in [parseFloat]. *)
Variable parseFloat : jsval -> float.

(** POST /api/high-value-trans *)
Definition high_value_trans (req : request) : prog response :=
  try_catch
    (let branchName := prop (body req) "branchName" in
     let section := prop (body req) "section" in
     let scheme := prop (body req) "scheme" in
     let amount1 := prop (body req) "amount1" in
     let amount2 := prop (body req) "amount2" in
     let fromDate := prop (body req) "fromDate" in
     let toDate := prop (body req) "toDate" in
     if negb (truthy branchName) then
       send 400 (message "Branch name is required") Ret
     else if negb (truthy section) then
       send 400 (message "Section is required") Ret
     else if negb (truthy scheme) then
       send 400 (message "Scheme is required") Ret
     else if negb (truthy amount1) then
       send 400 (message "Minimum amount is required") Ret
     else if negb (truthy amount2) then
       send 400 (message "Maximum amount is required") Ret
     else if negb (truthy fromDate) then
       send 400 (message "From date is required") Ret
     else if negb (truthy toDate) then
       send 400 (message "To date is required") Ret
     else if length_gt branchName 10 then
       send 400 (message "Branch name too long (max 10 characters)") Ret
     else if length_gt section 10 then
       send 400 (message "Section too long (max 10 characters)") Ret
     else if length_gt scheme 30 then
       send 400 (message "Scheme too long (max 30 characters)") Ret
     else
       let minAmountNum := parseFloat amount1 in
       let maxAmountNum := parseFloat amount2 in
       if PrimFloat.is_nan minAmountNum
          || PrimFloat.ltb minAmountNum 0%float then
         send 400
           (message "Minimum amount must be a valid positive number") Ret
       else if PrimFloat.is_nan maxAmountNum
               || PrimFloat.ltb maxAmountNum 0%float then
         send 400
           (message "Maximum amount must be a valid positive number") Ret
       else if PrimFloat.ltb maxAmountNum minAmountNum then
         send 400
           (message "Minimum amount cannot be greater than maximum amount")
           Ret
       else
         let* pool := getDbConnection in
         let* request := deref "request" pool in
         let* result :=
           pool_request request
             (DbRequest
                [SqlInput "Br_Name" (VarChar (Some 10%nat)) branchName;
                 SqlInput "Section" (VarChar (Some 10%nat)) section;
                 SqlInput "Scheme" (VarChar (Some 30%nat)) scheme;
                 SqlInput "Amount" (Decimal 18 2) (JNum (parseFloat amount1));
                 SqlInput "Amount2" (Decimal 18 2) (JNum (parseFloat amount2));
                 SqlInput "Frdate" (VarChar (Some 20%nat)) fromDate;
                 SqlInput "Todate" (VarChar (Some 20%nat)) toDate]
                (Execute "AuditHVTranRpt_Sp")) in
         send 200 [("rows", JRows (default [] result))] Ret)
    (fun err =>
       if includes "Could not find stored procedure" (err_message err) then
         send 500
           [("message",
             jstr "Stored procedure 'AuditHVTranRpt_Sp' not found in database.");
            ("error", jstr (err_message err))] Ret
       else if includes "parameter" (err_message err) then
         send 500
           [("message", jstr "Parameter mismatch in stored procedure call.");
            ("error", jstr (err_message err))] Ret
       else
         send 500
           [("message",
             jstr "Failed to fetch high value transactions report data.");
            ("error", jstr (err_message err))] Ret).

(** The routes of the file that are modelled, with their middleware. *)
Definition routes : list route :=
  [ Route "GET" "/api/test/user/:username" [] test_user;
    Route "GET" "/api/Users" [AuthenticateToken] users;
    Route "POST" "/api/high-value-trans" [OptionalAuthForReports]
      high_value_trans ].


(** The built-in [new Date(input).getTime()]. *)
Variable Date_getTime : jsval -> float.

(** [validateInput(input, type, maxLength)] *)
Definition validateInput (input : jsval) (type : string) (maxLength : nat)
  : validated :=
  if negb (truthy input) then VNull
  else if String.eqb type "string" then
    match input with
    | JStr s =>
        if Nat.leb (String.length s) maxLength then VString (trim s)
        else VNull
    | _ => VNull
    end
  else if String.eqb type "number" then
    if negb (PrimFloat.is_nan (parseFloat input))
    then VNumber (parseFloat input)
    else VNull
  else if String.eqb type "date" then
    if negb (PrimFloat.is_nan (Date_getTime input))
    then VDate (Date_getTime input)
    else VNull
  else VNull.

(** [result.recordset.<property>] *)
Definition rows_of (property : string) (result : recordset)
  : prog (list (gmap string jsval)) :=
  match result with
  | Some rows => Ret rows
  | None =>
      Throw (JsError "TypeError"
               ("Cannot read properties of undefined (reading '"
                ++ property ++ "')"))
  end.

(** POST /api/login *)
Definition login (req : request) : prog answer :=
  let username := prop (body req) "username" in
  let password := prop (body req) "password" in
  let validUsername := validateInput username "string" 50 in
  let validPassword := validateInput password "string" 100 in
  if negb (validated_truthy validUsername)
     || negb (validated_truthy validPassword) then
    send 400 (message "Valid username and password are required")
      (fun r => Ret (Json r))
  else
    try_catch
      (let* pool := getDbConnection in
       let* p := deref "request" pool in
       let* result :=
         pool_request p
           (DbRequest
              [SqlInput "username" (VarChar (Some 50%nat))
                 (bound validUsername);
               SqlInput "password" (VarChar (Some 100%nat))
                 (bound validPassword)]
              (Query "SELECT User_Name, User_Password, User_ID FROM Tbl_UserMaster WHERE User_Name = @username AND User_Password = @password")) in
       let* recordset := rows_of "length" result in
       match recordset with
       | first :: _ => Ret (Object 200 (delete "User_Password" first))
       | [] =>
           let* p2 := deref "request" pool in
           let* userCheckResult :=
             pool_request p2
               (DbRequest
                  [SqlInput "username" (VarChar (Some 50%nat))
                     (bound validUsername)]
                  (Query "SELECT User_Name, User_Password FROM Tbl_UserMaster WHERE User_Name = @username")) in
           rows_of "length" userCheckResult;;
           send 401 (message "Invalid username or password")
             (fun r => Ret (Json r))
       end)
      (fun err =>
         send 500
           [("message", jstr "Authentication error. Please try again later.");
            ("error", jstr (err_message err))]
           (fun r => Ret (Json r))).

(** POST /api/userright *)
Definition userright (req : request) : prog response :=
  try_catch
    (let user := js_or (prop (body req) "user") (prop (body req) "Users") in
     let validUser := validateInput user "string" 100 in
     if negb (validated_truthy validUser) then
       send 400 (message "A valid user is required.") Ret
     else
       let* pool := getDbConnection in
       let* request := deref "request" pool in
       let* result :=
         pool_request request
           (DbRequest [SqlInput "Userid" (VarChar None) (bound validUser)]
              (Execute "AuditUserrightRpt_Sp")) in
       send 200 [("rows", JRows (default [] result))] Ret)
    (fun err =>
       send 500 [("message", jstr "Failed to fetch report data.");
                 ("error", jstr (err_message err))] Ret).

(** POST /api/userright-transfer *)
Definition userright_transfer (req : request) : prog response :=
  try_catch
    (let user := prop (body req) "user" in
     let fromDate := prop (body req) "fromDate" in
     let toDate := prop (body req) "toDate" in
     let validUser := validateInput user "string" 10 in
     let validFromDate := validateInput fromDate "string" 20 in
     let validToDate := validateInput toDate "string" 20 in
     if negb (validated_truthy validUser) then
       send 400 (message "A valid user is required.") Ret
     else if negb (validated_truthy validFromDate)
             || negb (validated_truthy validToDate) then
       send 400 (message "Valid FromDate and ToDate are required.") Ret
     else
       let* pool := getDbConnection in
       let* request := deref "request" pool in
       let* result :=
         pool_request request
           (DbRequest
              [SqlInput "userName" (VarChar (Some 10%nat)) (bound validUser);
               SqlInput "Frdate" (VarChar (Some 20%nat)) (bound validFromDate);
               SqlInput "ToDate" (VarChar (Some 20%nat)) (bound validToDate)]
              (Execute "AuditUserrightTranRpt_sp")) in
       send 200 [("rows", JRows (default [] result))] Ret)
    (fun err =>
       send 500
         [("message",
           jstr "Failed to fetch user right transfer report data.");
          ("error", jstr (err_message err))] Ret).

(** POST /api/schemes *)
Definition schemes (req : request) : prog response :=
  let section := prop (body req) "section" in
  let validSection := validateInput section "string" 50 in
  if negb (validated_truthy validSection) then
    send 400 (message "Valid section is required") Ret
  else
    try_catch
      (let* pool := getDbConnection in
       let* p := deref "request" pool in
       let* result :=
         pool_request p
           (DbRequest
              [SqlInput "section" (VarChar (Some 50%nat))
                 (bound validSection)]
              (Query "SELECT Sch_Name FROM Gen_SchemeMaster_P_Tbl WHERE Sch_Section_Name = @section")) in
       let* recordset := rows_of "map" result in
       send 200
         [("schemes",
           JVal (JArr (List.map (fun record => prop record "Sch_Name")
                         recordset)))] Ret)
      (fun err =>
         send 500 [("message", jstr "Failed to fetch schemes from database.");
                   ("error", jstr (err_message err))] Ret).

(** GET /api/keywords; [search] is [req.query.search]. *)
Definition keywords (search : jsval) (req : request) : prog response :=
  try_catch
    (let* g := get_pool in
     if negb (bool_decide (is_Some g)) then
       Throw (new_Error "Database connection not available")
     else
       let* g1 := get_pool in
       let* request := deref "request" g1 in
       let* term :=
         if truthy search then
           match search with
           | JStr s => Ret (trim s)
           | _ => Throw (JsError "TypeError" "search.trim is not a function")
           end
         else Ret EmptyString in
       let* result :=
         pool_request request
           (if truthy search && truthy (JStr term) then
              DbRequest
                [SqlInput "SearchTerm" (VarChar (Some 255%nat))
                   (JStr ("%" ++ term ++ "%"))]
                (Query "SELECT Keyword FROM [dbo].[Document_Tbl] WHERE Keyword IS NOT NULL AND Keyword != '' AND Keyword LIKE @SearchTerm ORDER BY Keyword")
            else
              DbRequest []
                (Query "SELECT Keyword FROM [dbo].[Document_Tbl] WHERE Keyword IS NOT NULL AND Keyword != '' ORDER BY Keyword")) in
       let keywords :=
         match result with
         | Some rows => List.map (fun row => prop row "Keyword") rows
         | None => []
         end in
       send 200 [("success", jbool true);
                 ("keywords", JVal (JArr keywords));
                 ("count", JInt (Z.of_nat (List.length keywords)))] Ret)
    (fun err =>
       send 500
         [("message",
           jstr "Failed to fetch keywords. Please try again later.");
          ("error", jstr (err_message err))] Ret).

(** The validated report routes, with their middleware. *)
Definition report_routes : list route :=
  [ Route "POST" "/api/userright" [AuthenticateToken] userright;
    Route "POST" "/api/userright-transfer" [AuthenticateToken]
      userright_transfer;
    Route "POST" "/api/schemes" [] schemes ].

End Handlers.

(** *** The authentication routes of index.js *)

(** POST /api/auth/refresh; [cookie] is [req.cookies.refreshToken], a
    string or [undefined] (a cookie written as JSON, which the cookie
    parser turns into an object, is not covered).  [req'] is the request
    after [req.body.refreshToken = refreshToken]. *)
Definition auth_refresh (env : gmap string string) (cookie : option token)
  (req : request) (now : Z) : response :=
  let refreshToken :=
    if Auth.token_missing cookie then body_refreshToken req else cookie in
  let req' := set_body_refreshToken req refreshToken in
  if Auth.refreshToken_missing req' then
    send 401 [("success", jbool false);
              ("message", jstr "Refresh token required")] id
  else
    Auth.refreshAccessToken env req' now.

(** The token payload [{ userId: user.User_ID, username: user.User_Name,
    role: user.Role || "user" }] of a row that has the column types of
    [Tbl_UserMaster]: an integer [User_ID], a string [User_Name] and a
    [Role] that is a string or empty. *)
Definition token_payload (user : gmap string jsval) : option claims :=
  match prop user "User_ID", prop user "User_Name",
        js_or (prop user "Role") (JStr "user") with
  | JNum id, JStr name, JStr r =>
      option_map (fun z => Claims z name r) (integer_of_float id)
  | _, _, _ => None
  end.

(** What POST /api/auth/login wrote: the JSON document and the cookie it
    set.  [UntypedRow] marks a row whose token payload cannot be written
    as [claims]; such rows are outside the model. *)
Inductive login_answer : Type :=
| LoginAnswer (r : response) (set_cookie : option cookie)
| UntypedRow.

Definition invalid_credentials : response :=
  send 401 [("success", jbool false);
            ("message", jstr "Invalid username or password")] id.

(** POST /api/auth/login *)
Definition auth_login (env : gmap string string) (now : Z) (req : request)
  : prog login_answer :=
  let username := prop (body req) "username" in
  let password := prop (body req) "password" in
  if negb (truthy username) || negb (truthy password) then
    send 400 [("success", jbool false);
              ("message", jstr "Username and password are required")]
      (fun r => Ret (LoginAnswer r None))
  else
    try_catch
      (let* pool := getDbConnection in
       let* p := deref "request" pool in
       let* name :=
         match username with
         | JStr s => Ret (trim s)
         | _ => Throw (JsError "TypeError" "username.trim is not a function")
         end in
       let* userResult :=
         pool_request p
           (DbRequest
              [SqlInput "username" (VarChar (Some 50%nat)) (JStr name)]
              (Query "SELECT User_Name, User_Password, User_ID, Role FROM Tbl_UserMaster WHERE User_Name = @username")) in
       let* recordset :=
         match userResult with
         | Some rows => Ret rows
         | None =>
             Throw (JsError "TypeError"
                      "Cannot read properties of undefined (reading 'length')")
         end in
       match recordset with
       | [] => Ret (LoginAnswer invalid_credentials None)
       | user :: _ =>
           if negb (strict_eq password (prop user "User_Password")) then
             Ret (LoginAnswer invalid_credentials None)
           else
             match token_payload user with
             | None => Ret UntypedRow
             | Some tokenPayload =>
                 match Auth.generateAccessToken env tokenPayload now with
                 | Rejected e => Throw e
                 | Fulfilled accessToken =>
                     match Auth.generateRefreshToken env tokenPayload now with
                     | Rejected e => Throw e
                     | Fulfilled refreshToken =>
                         Ret (LoginAnswer
                                (send 200
                                   [("success", jbool true);
                                    ("message", jstr "Login successful");
                                    ("data", JObject
                                       [("accessToken", JTok accessToken);
                                        ("user", JObject
                                           [("userId",
                                             JVal (prop user "User_ID"));
                                            ("username",
                                             JVal (prop user "User_Name"));
                                            ("role",
                                             JVal (js_or (prop user "Role")
                                                     (JStr "user")))])])]
                                   id)
                                (Some (Cookie "refreshToken" refreshToken true
                                         (strict_eq (getenv env "NODE_ENV")
                                            (JStr "production"))
                                         "strict"
                                         (7 * 24 * 60 * 60 * 1000))))
                     end
                 end
             end
       end)
      (fun error =>
         send 500 [("success", jbool false);
                   ("message", jstr "Internal server error")]
           (fun r => Ret (LoginAnswer r None))).

End Index.

(** ** src/server.js *)

Module Server.

Definition initializeDatabase : prog (option handle) :=
  try_catch
    (let* g := get_pool in
     match g with
     | Some h => Ret (Some h)
     | None =>
         let* h := sql_connect in
         set_pool (Some h);;
         get_pool
     end)
    (fun err => set_pool None;; Throw err).

Definition getDbConnection : prog (option handle) :=
  let* g := get_pool in
  match g with
  | None =>
      try_catch initializeDatabase
        (fun _ => Throw (new_Error "Database connection not available"))
  | Some _ => get_pool
  end.

Definition startServer (env : gmap string string) : prog unit :=
  try_catch
    (initializeDatabase;; app_listen (PORT env))
    (fun _ => Exit 1).

(** [process.env.CORS_ORIGIN ? process.env.CORS_ORIGIN.split(',') : [...]] *)
Definition allowedOrigins (env : gmap string string) : list string :=
  match getenv env "CORS_ORIGIN" with
  | JStr s => if truthy (JStr s) then split_char ","%char s
              else ["http://localhost:5173"]
  | _ => ["http://localhost:5173"]
  end.

(** The [origin] function given to [cors]: [callback(null, true)] is
    [Fulfilled true], [callback(new Error(msg), false)] is [Rejected]. *)
Definition cors_origin (env : gmap string string) (origin : option string)
  : result bool :=
  match origin with
  | None => Fulfilled true
  | Some o =>
      if negb (truthy (JStr o)) then Fulfilled true
      else if negb (existsb (String.eqb o) (allowedOrigins env)) then
        Rejected (new_Error
          "The CORS policy for this site does not allow access from the specified Origin.")
      else Fulfilled true
  end.

(** The script from top to bottom: nothing is checked before
    [startServer()]. *)
Definition main (env : gmap string string) : prog unit := startServer env.

Section Handlers.
Variable parseFloat : jsval -> float.

(** POST /api/reports/high-value *)
Definition high_value (req : request) : prog response :=
  try_catch
    (let branchName := prop (body req) "branchName" in
     let section := prop (body req) "section" in
     let scheme := prop (body req) "scheme" in
     let minAmount := prop (body req) "minAmount" in
     let maxAmount := prop (body req) "maxAmount" in
     let fromDate := prop (body req) "fromDate" in
     let toDate := prop (body req) "toDate" in
     let* pool := getDbConnection in
     let* p := deref "request" pool in
     let* result :=
       pool_request p
         (DbRequest
            [SqlInput "Br_Name" (VarChar (Some 20%nat))
               (js_or branchName (JStr "ALL"));
             SqlInput "Section" (VarChar (Some 20%nat))
               (js_or section (JStr "DEPOSIT"));
             SqlInput "Scheme" (VarChar (Some 30%nat))
               (js_or scheme (JStr "ALL"));
             SqlInput "Amount" (Decimal 18 2)
               (JNum (parseFloat (js_or minAmount (JStr "0"))));
             SqlInput "Amount2" (Decimal 18 2)
               (JNum (parseFloat (js_or maxAmount (JStr "0"))));
             SqlInput "Frdate" SqlDate fromDate;
             SqlInput "Todate" SqlDate toDate]
            (Execute "[dbo].[AuditHVTranRpt_Sp]")) in
     send 200 [("rows", match result with
                        | Some rows => JRows rows
                        | None => JVal JUndefined
                        end)] Ret)
    (fun err =>
       send 500
         [("message",
           jstr ("Failed to fetch high value transaction report from database: "
                 ++ err_message err));
          ("error", jstr (err_message err));
          ("details", jstr (err_toString err))] Ret).

Definition routes : list route :=
  [ Route "POST" "/api/reports/high-value" [] high_value ].

End Handlers.
End Server.

(** ** Scenarios *)

(** [n] calls of [p] one after the other, each run to its end before the
    next one starts. *)
Fixpoint sequentially {A : Type} (p : prog A) (n : nat) (g : option handle)
  (rs : list reply)
  : list (option (outcome A)) * option handle * list effect :=
  match n with
  | O => ([], g, [])
  | S n' =>
      let r := exec p g rs in
      let '(os, g', tr) := sequentially p n' (run_pool r) (run_rest r) in
      (run_outcome r :: os, g', (run_trace r ++ tr)%list)
  end.

(** [n] calls made in the same turn of the event loop. *)
Definition concurrently {A : Type} (p : prog A) (n : nat) : list (event A) :=
  repeat (Call p) n.

Definition waits_for_connect {A : Type} (t : task A) : bool :=
  match t with WaitConnect _ => true | _ => false end.

Definition finished {A : Type} (t : task A) : option (outcome A) :=
  match t with Done o => Some o | _ => None end.

(** A statement answered without error. *)
Definition fine (rows : recordset) : reply := Answered (Fulfilled rows).

(** Two requests arrive during cold start; the driver opens pool 1 for
    the first and pool 2 for the second, and both test queries succeed. *)
Definition two_callers : list (event (option handle)) :=
  [ Call Index.getDbConnection;
    Call Index.getDbConnection;
    Settle 0 (Connected (Fulfilled 1%nat));
    Settle 1 (Connected (Fulfilled 2%nat));
    Settle 0 (fine (Some []));
    Settle 1 (fine (Some [])) ].

Definition connection_closed : jserror :=
  JsError "ConnectionError" "Connection is closed.".

Definition unreachable : jserror :=
  JsError "ConnectionError" "Failed to connect to 172.18.0.4:1433 in 30000ms".

(** [parseFloat] on the arguments used in the scenarios: a number (printed
    and read back, which only turns [-0] into [0]) or a string of one to
    fifteen decimal digits, on which it is exact.  Other arguments are
    outside this fragment and are sent to [NaN]. *)
Definition parseFloat_plain (v : jsval) : float :=
  match v with
  | JNum x => if PrimFloat.eqb x 0%float then 0%float else x
  | JStr s =>
      match Auth.leading_digits 0 false s with
      | (n, true, EmptyString) =>
          if Nat.leb (String.length s) 15
          then PrimFloat.of_uint63 (Uint63.of_Z n)
          else PrimFloat.nan
      | _ => PrimFloat.nan
      end
  | _ => PrimFloat.nan
  end.

(** The checks the specification asks of a high-value report request,
    on the field names of index.js: every field present, the three names
    within the lengths of the stored procedure, both amounts numbers that
    are not negative, and the minimum not above the maximum. *)
Definition missing (o : gmap string jsval) (key : string) : bool :=
  negb (truthy (prop o key)).

Definition fields_malformed (parseFloat : jsval -> float)
  (b : gmap string jsval) : bool :=
  missing b "branchName" || missing b "section" || missing b "scheme"
  || missing b "amount1" || missing b "amount2"
  || missing b "fromDate" || missing b "toDate"
  || length_gt (prop b "branchName") 10
  || length_gt (prop b "section") 10
  || length_gt (prop b "scheme") 30
  || PrimFloat.is_nan (parseFloat (prop b "amount1"))
  || PrimFloat.ltb (parseFloat (prop b "amount1")) 0%float
  || PrimFloat.is_nan (parseFloat (prop b "amount2"))
  || PrimFloat.ltb (parseFloat (prop b "amount2")) 0%float.

(** [min > max] *)
Definition amounts_inverted (parseFloat : jsval -> float)
  (b : gmap string jsval) : bool :=
  PrimFloat.ltb (parseFloat (prop b "amount2"))
    (parseFloat (prop b "amount1")).

Definition report_request_invalid (parseFloat : jsval -> float)
  (b : gmap string jsval) : bool :=
  fields_malformed parseFloat b || amounts_inverted parseFloat b.

(** The checks of POST /api/high-value-trans in the order the handler
    makes them, each with whether the body fails it and the message the
    handler sends for it. *)
Definition report_checks (parseFloat : jsval -> float)
  (b : gmap string jsval) : list (bool * string) :=
  [ (missing b "branchName", "Branch name is required");
    (missing b "section", "Section is required");
    (missing b "scheme", "Scheme is required");
    (missing b "amount1", "Minimum amount is required");
    (missing b "amount2", "Maximum amount is required");
    (missing b "fromDate", "From date is required");
    (missing b "toDate", "To date is required");
    (length_gt (prop b "branchName") 10,
     "Branch name too long (max 10 characters)");
    (length_gt (prop b "section") 10,
     "Section too long (max 10 characters)");
    (length_gt (prop b "scheme") 30,
     "Scheme too long (max 30 characters)");
    (PrimFloat.is_nan (parseFloat (prop b "amount1"))
     || PrimFloat.ltb (parseFloat (prop b "amount1")) 0%float,
     "Minimum amount must be a valid positive number");
    (PrimFloat.is_nan (parseFloat (prop b "amount2"))
     || PrimFloat.ltb (parseFloat (prop b "amount2")) 0%float,
     "Maximum amount must be a valid positive number");
    (amounts_inverted parseFloat b,
     "Minimum amount cannot be greater than maximum amount") ].

(** The message of the first check that fails, if one does. *)
Fixpoint first_failed (checks : list (bool * string)) : option string :=
  match checks with
  | [] => None
  | (failed, msg) :: rest => if failed then Some msg else first_failed rest
  end.

(** A field of the body, or [fallback] when it is missing. *)
Definition field_or (b : gmap string jsval) (key : string)
  (fallback : jsval) : jsval :=
  if missing b key then fallback else prop b key.

(** The procedure call of POST /api/reports/high-value of server.js on
    the body [b]: the fields as sent, with a fallback for each of the
    first five when it is missing. *)
Definition unchecked_call (parseFloat : jsval -> float)
  (b : gmap string jsval) : dbrequest :=
  DbRequest
    [SqlInput "Br_Name" (VarChar (Some 20%nat))
       (field_or b "branchName" (JStr "ALL"));
     SqlInput "Section" (VarChar (Some 20%nat))
       (field_or b "section" (JStr "DEPOSIT"));
     SqlInput "Scheme" (VarChar (Some 30%nat))
       (field_or b "scheme" (JStr "ALL"));
     SqlInput "Amount" (Decimal 18 2)
       (JNum (parseFloat (field_or b "minAmount" (JStr "0"))));
     SqlInput "Amount2" (Decimal 18 2)
       (JNum (parseFloat (field_or b "maxAmount" (JStr "0"))));
     SqlInput "Frdate" SqlDate (prop b "fromDate");
     SqlInput "Todate" SqlDate (prop b "toDate")]
    (Execute "[dbo].[AuditHVTranRpt_Sp]").

Definition bare_request (b : gmap string jsval) : request :=
  Request None b None ∅ None.

(** A report request for amounts from 500000 down to 100000, under the
    field names of index.js and under those of server.js. *)
Definition inverted_amounts_index : request :=
  bare_request
    (<["branchName" := JStr "MAIN"]>
     (<["section" := JStr "DEPOSIT"]>
     (<["scheme" := JStr "ALL"]>
     (<["amount1" := JNum 500000%float]>
     (<["amount2" := JNum 100000%float]>
     (<["fromDate" := JStr "2024-01-01"]>
     (<["toDate" := JStr "2024-12-31"]> ∅))))))).

Definition inverted_amounts_server : request :=
  bare_request
    (<["branchName" := JStr "MAIN"]>
     (<["section" := JStr "DEPOSIT"]>
     (<["scheme" := JStr "ALL"]>
     (<["minAmount" := JNum 500000%float]>
     (<["maxAmount" := JNum 100000%float]>
     (<["fromDate" := JStr "2024-01-01"]>
     (<["toDate" := JStr "2024-12-31"]> ∅))))))).

(** *** Tokens and environments *)

Definition alice : claims := Claims 7 "alice" "user".

Definition system_identity : principal :=
  Identity (Claims 1 "system" "admin").

(** Only the four database variables are set. *)
Definition env_database_only : gmap string string :=
  <["DB_USER" := "report_reader"]>
  (<["DB_PASSWORD" := "secret"]>
  (<["DB_SERVER" := "172.18.0.4"]>
  (<["DB_NAME" := "NEERICODE_WEB"]> ∅))).

(** [DB_NAME] is not set. *)
Definition env_without_db_name : gmap string string :=
  <["DB_USER" := "report_reader"]>
  (<["DB_PASSWORD" := "secret"]>
  (<["DB_SERVER" := "172.18.0.4"]> ∅)).

Definition env_ttl_zero : gmap string string :=
  <["JWT_EXPIRES_IN" := "0"]> (<["JWT_REFRESH_EXPIRES_IN" := "0"]> ∅).

Definition env_ttl_hour : gmap string string :=
  <["JWT_EXPIRES_IN" := "1h"]> (<["JWT_REFRESH_EXPIRES_IN" := "1h"]> ∅).

(** A deployment with a secret of its own. *)
Definition env_secret : gmap string string :=
  <["JWT_SECRET" := "k3y-of-this-deployment"]> ∅.

(** The token [jwt.sign] makes for [c] at [now] under [secret], living
    [ttl] seconds. *)
Definition signed (secret : string) (c : claims) (now ttl : Z) : token :=
  Jws (JwtPayload c now (now + ttl))
      (HS256 secret (JwtPayload c now (now + ttl))).

(** The same payload with the role rewritten after signing. *)
Definition tampered (secret : string) (c : claims) (now ttl : Z) : token :=
  Jws (JwtPayload (Claims (userId c) (username c) "admin") now (now + ttl))
      (HS256 secret (JwtPayload c now (now + ttl))).

Definition with_header (pieces : list token) : request :=
  Request (Some pieces) ∅ None ∅ None.

Definition with_refresh_token (t : token) : request :=
  Request None ∅ (Some t) ∅ None.

(** A row of [Tbl_UserMaster]. *)
Definition user_row (name password : string) : gmap string jsval :=
  <["User_Name" := JStr name]>
  (<["User_Password" := JStr password]>
  (<["User_ID" := JNum 7%float]>
  (<["Active" := JBool true]>
  (<["Role" := JStr "admin"]> ∅)))).

Definition lookup_user (name : string) : request :=
  Request None ∅ None (<["username" := name]> ∅) None.

(** *** Vocabulary for the statements about strings and bound inputs *)

(** Every character of [s] is white space. *)
Fixpoint blank (s : string) : bool :=
  match s with
  | EmptyString => true
  | String c rest => is_space c && blank rest
  end.

Definition first_char (s : string) : option ascii :=
  match s with
  | EmptyString => None
  | String c _ => Some c
  end.

Fixpoint last_char (s : string) : option ascii :=
  match s with
  | EmptyString => None
  | String c EmptyString => Some c
  | String _ rest => last_char rest
  end.

(** What the specification asks of a string field: a string of at most
    [maxLength] characters that is not blank. *)
Definition acceptable (v : jsval) (maxLength : nat) : bool :=
  match v with
  | JStr s => Nat.leb (String.length s) maxLength && negb (blank s)
  | _ => false
  end.

(** A string input is no longer than the [VarChar] it is bound to. *)
Definition input_fits (i : sqlinput) : bool :=
  match in_type i, in_value i with
  | VarChar (Some n), JStr s => Nat.leb (String.length s) n
  | VarChar (Some _), _ => false
  | _, _ => true
  end.

(** Every statement sent other than the probe binds inputs that fit. *)
Definition inputs_fit (tr : list effect) : bool :=
  forallb (fun e => match e with
                    | PoolRequest _ r => forallb input_fits (rq_inputs r)
                    | _ => true
                    end) tr.

(** Number of statements sent to a pool. *)
Definition request_count (tr : list effect) : nat :=
  List.length (List.filter is_request tr).

(** The look-up POST /api/auth/login sends for a user name. *)
Definition login_query (name : string) : dbrequest :=
  DbRequest [SqlInput "username" (VarChar (Some 50%nat)) (JStr name)]
    (Query "SELECT User_Name, User_Password, User_ID, Role FROM Tbl_UserMaster WHERE User_Name = @username").

(** The two statements GET /api/keywords can send. *)
Definition unfiltered_keywords : dbrequest :=
  DbRequest []
    (Query "SELECT Keyword FROM [dbo].[Document_Tbl] WHERE Keyword IS NOT NULL AND Keyword != '' ORDER BY Keyword").

Definition filtered_keywords (term : string) : dbrequest :=
  DbRequest
    [SqlInput "SearchTerm" (VarChar (Some 255%nat))
       (JStr ("%" ++ term ++ "%"))]
    (Query "SELECT Keyword FROM [dbo].[Document_Tbl] WHERE Keyword IS NOT NULL AND Keyword != '' AND Keyword LIKE @SearchTerm ORDER BY Keyword").

(** [s] contains no [c]. *)
Fixpoint free_of (c : ascii) (s : string) : bool :=
  match s with
  | EmptyString => true
  | String a rest => negb (Ascii.eqb a c) && free_of c rest
  end.

(** [needle] occurs in [s]. *)
Definition contains (needle s : string) : Prop :=
  exists pre post, s = (pre ++ needle ++ post)%string.

(** A report request that passes every check of index.js, and one whose
    first date is longer than its column. *)
Definition valid_amounts_index : request :=
  bare_request
    (<["amount1" := JNum 100000%float]>
     (<["amount2" := JNum 500000%float]> (body inverted_amounts_index))).

Definition long_date_index : request :=
  bare_request
    (<["fromDate" := JStr "2024-01-01T00:00:00.000000"]>
       (body valid_amounts_index)).

(** *** Vocabulary for the statements about interleaved callers *)

(** Every end [p] can come to from [globalPool = g] satisfies [post],
    whatever the driver answers at each [await] and whatever [globalPool]
    has become when the call is resumed. *)
Fixpoint always_ends {A : Type} (post : outcome A -> option handle -> Prop)
  (p : prog A) (g : option handle) : Prop :=
  match p with
  | Ret a => post (Returned a) g
  | Throw e => post (Threw e) g
  | Exit c => post (Exited c) g
  | GetPool k => always_ends post (k g) g
  | SetPool g' k => always_ends post k g'
  | OnError _ k => always_ends post k g
  | Listen _ k => always_ends post k g
  | AwaitConnect k => forall r g', always_ends post (k r) g'
  | AwaitRequest _ _ k => forall x g', always_ends post (k x) g'
  end.

(** The same for a caller on the event loop, [g] being [globalPool] at
    the end of its last turn. *)
Definition task_ends {A : Type} (post : outcome A -> option handle -> Prop)
  (t : task A) (g : option handle) : Prop :=
  match t with
  | WaitConnect k => forall r g', always_ends post (k r) g'
  | WaitRequest k => forall x g', always_ends post (k x) g'
  | Done o => post o g
  end.

Definition waiting_ends {A : Type}
  (post : outcome A -> option handle -> Prop) (t : task A) : Prop :=
  match t with
  | Done _ => True
  | _ => task_ends post t None
  end.

(** Every call made in [evs] is a call of [p]. *)
Definition calls_only {A : Type} (p : prog A) (evs : list (event A)) : Prop :=
  Forall (fun ev => match ev with Call q => q = p | _ => True end) evs.

(** The call gave back what [globalPool] holds, or threw leaving it
    empty. *)
Definition gave_globalPool (o : outcome (option handle))
  (g : option handle) : Prop :=
  match o with
  | Returned x => x = g
  | Threw _ => g = None
  | Exited _ => False
  end.

(** The call gave back a handle, the one [globalPool] holds, or threw
    "Database connection not available" leaving it empty. *)
Definition gave_handle (o : outcome (option handle))
  (g : option handle) : Prop :=
  match o with
  | Returned x => exists h, x = Some h /\ g = Some h
  | Threw e =>
      g = None /\ e = new_Error "Database connection not available"
  | Exited _ => False
  end.

(** Two requests arrive during cold start; the driver opens pool 1 for
    the first and refuses the second while the test query of the first is
    in flight. *)
Definition second_caller_refused : list (event (option handle)) :=
  [ Call Index.getDbConnection;
    Call Index.getDbConnection;
    Settle 0 (Connected (Fulfilled 1%nat));
    Settle 1 (Connected (Rejected unreachable)) ].

(** * Properties *)

Local Open Scope list_scope.

(** ** Connection manager *)

Lemma advance_acquire_cold :
  exists k, advance Index.getDbConnection None
            = (WaitConnect k, None, [SqlConnect]).
Proof. eexists. reflexivity. Qed.

Lemma concurrently_cold (n : nat) (s : sys (option handle)) :
  sys_pool s = None ->
  exists s',
    run_events s (concurrently Index.getDbConnection n) = Some s'
    /\ sys_pool s' = None
    /\ sys_log s' = sys_log s ++ repeat SqlConnect n
    /\ exists ts, sys_tasks s' = sys_tasks s ++ ts
                  /\ List.length ts = n
                  /\ forallb waits_for_connect ts = true.
Proof.
  revert s. induction n as [|n IH]; intros s Hs.
  - exists s. cbn. rewrite !app_nil_r. repeat split; auto.
    exists []. rewrite app_nil_r. auto.
  - destruct advance_acquire_cold as [k Hk].
    cbn [concurrently repeat run_events step].
    rewrite Hs, Hk.
    destruct (IH (Sys None (sys_log s ++ [SqlConnect])
                      (sys_tasks s ++ [WaitConnect k])) eq_refl)
      as (s' & Hrun & Hp & Hl & ts & Ht & Hlen & Hw).
    exists s'. split; [exact Hrun|]. split; [exact Hp|]. split.
    + rewrite Hl. cbn. rewrite <- app_assoc. reflexivity.
    + exists (WaitConnect k :: ts). cbn in *. rewrite Ht, <- app_assoc.
      repeat split; auto.
Qed.

Lemma acquire_cold_healthy (h : handle) (rows : recordset) (rs : list reply) :
  exec Index.getDbConnection None (Connected (Fulfilled h) :: fine rows :: rs)
  = Run (Some (Returned (Some h))) (Some h)
        [SqlConnect; PoolOnError h; PoolRequest h probe] rs.
Proof. reflexivity. Qed.

Lemma acquire_warm_healthy (h : handle) (rows : recordset) (rs : list reply) :
  exec Index.getDbConnection (Some h) (fine rows :: rs)
  = Run (Some (Returned (Some h))) (Some h) [PoolRequest h probe] rs.
Proof. reflexivity. Qed.

Lemma sequentially_warm (h : handle) (answers : list recordset)
  (rs : list reply) :
  sequentially Index.getDbConnection (List.length answers) (Some h)
    (List.map fine answers ++ rs)
  = (repeat (Some (Returned (Some h))) (List.length answers), Some h,
     List.map (fun _ => PoolRequest h probe) answers).
Proof.
  induction answers as [|a answers IH]; [reflexivity|].
  cbn [List.length List.map app sequentially].
  rewrite acquire_warm_healthy. cbn [run_pool run_rest run_outcome run_trace].
  rewrite IH. reflexivity.
Qed.

Lemma connect_attempts_probes (h : handle) (answers : list recordset) :
  connect_attempts (List.map (fun _ => PoolRequest h probe) answers) = 0%nat.
Proof. induction answers as [|a l IH]; [reflexivity | exact IH]. Qed.

Lemma connect_attempts_repeat (n : nat) :
  connect_attempts (repeat SqlConnect n) = n.
Proof.
  induction n as [|n IH]; [reflexivity|].
  unfold connect_attempts in *. cbn. now rewrite IH.
Qed.

(** C1 (as amended).  Calls of [getDbConnection] that run one after the
    other from a cold start, against a reachable database, open exactly one
    connection and all return its handle.  Calls made in the same turn of
    the event loop while no handle exists do not share a creation in
    flight: each of the [n] callers issues its own [sql.connect], so [n]
    attempts are made and [globalPool] is still empty when they suspend. *)
Theorem C1_connect_attempts :
  (forall (h : handle) (first : recordset) (answers : list recordset),
      sequentially Index.getDbConnection (S (List.length answers)) None
        (Connected (Fulfilled h) :: fine first :: List.map fine answers)
      = (repeat (Some (Returned (Some h))) (S (List.length answers)),
         Some h,
         [SqlConnect; PoolOnError h; PoolRequest h probe]
           ++ List.map (fun _ => PoolRequest h probe) answers)
      /\ connect_attempts
           ([SqlConnect; PoolOnError h; PoolRequest h probe]
              ++ List.map (fun _ => PoolRequest h probe) answers) = 1%nat)
  /\ (forall n : nat,
        exists s,
          run_events cold (concurrently Index.getDbConnection n) = Some s
          /\ connect_attempts (sys_log s) = n
          /\ sys_pool s = None
          /\ List.length (sys_tasks s) = n
          /\ forallb waits_for_connect (sys_tasks s) = true).
Proof.
  split.
  - intros h first answers. split.
    + cbn [sequentially].
      rewrite acquire_cold_healthy.
      cbn [run_pool run_rest run_outcome run_trace].
      pose proof (sequentially_warm h answers []) as Hw.
      rewrite app_nil_r in Hw. rewrite Hw. reflexivity.
    + unfold connect_attempts. cbn [app List.filter is_connect List.length].
      f_equal. apply connect_attempts_probes.
  - intros n.
    destruct (@concurrently_cold n cold eq_refl)
      as (s & Hrun & Hp & Hl & ts & Ht & Hlen & Hw).
    exists s. cbn [cold sys_log sys_tasks app] in Hl, Ht.
    rewrite Hl, Ht. repeat split; auto using connect_attempts_repeat.
Qed.

(** C1 (counterexample).  Two callers during cold start: two connect
    attempts are made, pool 1 is overwritten by pool 2 and never closed,
    and both callers are handed pool 2. *)
Lemma C1_two_callers_two_connects :
  (fun s => (sys_log s, sys_pool s, List.map finished (sys_tasks s)))
    <$> run_events cold two_callers
  = Some ([SqlConnect; SqlConnect;
           PoolOnError 1; PoolRequest 1 probe;
           PoolOnError 2; PoolRequest 2 probe],
          Some 2%nat,
          [Some (Returned (Some 2%nat)); Some (Returned (Some 2%nat))])
  /\ (connect_attempts ∘ @sys_log _) <$> run_events cold two_callers
     = Some 2%nat.
Proof. split; reflexivity. Qed.

(** *** Sequential runs and the event loop agree *)

Lemma emit_nil {A : Type} (r : run A) : emit [] r = r.
Proof. destruct r; reflexivity. Qed.

Lemma emit_emit {A : Type} (tr tr' : list effect) (r : run A) :
  emit tr (emit tr' r) = emit (tr ++ tr') r.
Proof. destruct r; unfold emit; cbn. now rewrite app_assoc. Qed.

(** [exec] is [advance] iterated: run to the next [await], hand the next
    reply to the suspended call, and go on. *)
Lemma exec_advance {A : Type} (p : prog A) (g : option handle)
  (rs : list reply) :
  exec p g rs =
  let '(t, g', tr) := advance p g in
  match t with
  | Done o => Run (Some o) g' tr rs
  | _ =>
      match rs with
      | r :: rs' =>
          match resume t r with
          | Some p' => emit tr (exec p' g' rs')
          | None => Run None g' tr rs
          end
      | [] => Run None g' tr rs
      end
  end.
Proof.
  revert g rs.
  induction p as [a|e|c|k IH|g0 k IH|h k IH|port k IH|k IH|h r k IH];
    intros g rs; cbn [exec advance]; auto.
  - rewrite IH. destruct (advance k g) as [[t g'] tr].
    destruct t; cbn [emit run_outcome run_pool run_trace run_rest app];
      auto; destruct rs as [|r rs']; auto;
      cbn [resume]; destruct r; auto; now rewrite emit_emit.
  - rewrite IH. destruct (advance k g) as [[t g'] tr].
    destruct t; cbn [emit run_outcome run_pool run_trace run_rest app];
      auto; destruct rs as [|r rs']; auto;
      cbn [resume]; destruct r; auto; now rewrite emit_emit.
  - destruct rs as [|[x|x] rs']; reflexivity.
  - destruct rs as [|[x|x] rs']; reflexivity.
Qed.

Lemma exec_bind {A B : Type} (p : prog A) (f : A -> prog B)
  (g : option handle) (rs : list reply) :
  exec (bind p f) g rs =
  match run_outcome (exec p g rs) with
  | Some (Returned a) =>
      emit (run_trace (exec p g rs))
        (exec (f a) (run_pool (exec p g rs)) (run_rest (exec p g rs)))
  | Some (Threw e) =>
      Run (Some (Threw e)) (run_pool (exec p g rs))
          (run_trace (exec p g rs)) (run_rest (exec p g rs))
  | Some (Exited c) =>
      Run (Some (Exited c)) (run_pool (exec p g rs))
          (run_trace (exec p g rs)) (run_rest (exec p g rs))
  | None =>
      Run None (run_pool (exec p g rs))
          (run_trace (exec p g rs)) (run_rest (exec p g rs))
  end.
Proof.
  revert g rs.
  induction p as [a|e|c|k IH|g0 k IH|h k IH|port k IH|k IH|h r k IH];
    intros g rs; cbn [bind exec run_outcome run_pool run_trace run_rest];
    auto.
  - now rewrite emit_nil.
  - rewrite IH. destruct (exec k g rs) as [[[a|e|c]|] g' tr rs'];
      cbn; auto using emit_emit.
  - rewrite IH. destruct (exec k g rs) as [[[a|e|c]|] g' tr rs'];
      cbn; auto using emit_emit.
  - destruct rs as [|[x|x] rs']; auto.
    rewrite IH. destruct (exec (k x) g rs') as [[[a|e|c]|] g' tr rs''];
      cbn; auto using emit_emit.
  - destruct rs as [|[x|x] rs']; auto.
    rewrite IH. destruct (exec (k x) g rs') as [[[a|e|c]|] g' tr rs''];
      cbn; auto using emit_emit.
Qed.

Lemma exec_try_catch {A : Type} (p : prog A) (handler : jserror -> prog A)
  (g : option handle) (rs : list reply) :
  exec (try_catch p handler) g rs =
  match run_outcome (exec p g rs) with
  | Some (Threw e) =>
      emit (run_trace (exec p g rs))
        (exec (handler e) (run_pool (exec p g rs)) (run_rest (exec p g rs)))
  | _ => exec p g rs
  end.
Proof.
  revert g rs.
  induction p as [a|e|c|k IH|g0 k IH|h k IH|port k IH|k IH|h r k IH];
    intros g rs;
    cbn [try_catch exec run_outcome run_pool run_trace run_rest]; auto.
  - now rewrite emit_nil.
  - rewrite IH. destruct (exec k g rs) as [[[a|e|c]|] g' tr rs'];
      cbn; auto using emit_emit.
  - rewrite IH. destruct (exec k g rs) as [[[a|e|c]|] g' tr rs'];
      cbn; auto using emit_emit.
  - destruct rs as [|[x|x] rs']; auto.
    rewrite IH. destruct (exec (k x) g rs') as [[[a|e|c]|] g' tr rs''];
      cbn; auto using emit_emit.
  - destruct rs as [|[x|x] rs']; auto.
    rewrite IH. destruct (exec (k x) g rs') as [[[a|e|c]|] g' tr rs''];
      cbn; auto using emit_emit.
Qed.

(** C2 (as amended).  In index.js a call of [getDbConnection] that finds a
    handle sends the probe before anything else; on a probe that succeeds
    it returns that handle; on a probe that fails it drops the handle and
    connects again before returning, handing out the fresh handle if the
    connection and its test query succeed and throwing (with [globalPool]
    left empty) if not, so that the next call starts from scratch and
    succeeds once the database answers.  In server.js [getDbConnection]
    returns an existing handle as it is: no probe is sent. *)
Theorem C2_probe_then_rebuild (h : handle) (rs : list reply) :
  (exists tr, run_trace (exec Index.getDbConnection (Some h) rs)
              = PoolRequest h probe :: tr)
  /\ (forall rows,
        exec Index.getDbConnection (Some h) (fine rows :: rs)
        = Run (Some (Returned (Some h))) (Some h) [PoolRequest h probe] rs)
  /\ (forall e h' rows,
        exec Index.getDbConnection (Some h)
          (Answered (Rejected e) :: Connected (Fulfilled h') :: fine rows
             :: rs)
        = Run (Some (Returned (Some h'))) (Some h')
              [PoolRequest h probe; SqlConnect; PoolOnError h';
               PoolRequest h' probe] rs)
  /\ (forall e e',
        exec Index.getDbConnection (Some h)
          (Answered (Rejected e) :: Connected (Rejected e') :: rs)
        = Run (Some (Threw e')) None [PoolRequest h probe; SqlConnect] rs)
  /\ (forall e h' e',
        exec Index.getDbConnection (Some h)
          (Answered (Rejected e) :: Connected (Fulfilled h')
             :: Answered (Rejected e') :: rs)
        = Run (Some (Threw e')) None
              [PoolRequest h probe; SqlConnect; PoolOnError h';
               PoolRequest h' probe] rs)
  /\ (forall h' rows,
        exec Index.getDbConnection None
          (Connected (Fulfilled h') :: fine rows :: rs)
        = Run (Some (Returned (Some h'))) (Some h')
              [SqlConnect; PoolOnError h'; PoolRequest h' probe] rs)
  /\ exec Server.getDbConnection (Some h) rs
     = Run (Some (Returned (Some h))) (Some h) [] rs.
Proof.
  split; [|repeat split; reflexivity].
  destruct rs as [|[x|[rows|e]] rs]; eexists; reflexivity.
Qed.

(** C2 (counterexample).  server.js, a handle whose connection has been
    closed: [getDbConnection] returns it without sending any statement;
    the failure that a probe would have met is never asked for. *)
Lemma C2_server_returns_unprobed_handle :
  exec Server.getDbConnection (Some 7%nat)
    [Answered (Rejected connection_closed)]
  = Run (Some (Returned (Some 7%nat))) (Some 7%nat) []
        [Answered (Rejected connection_closed)]
  /\ existsb is_request
       (run_trace (exec Server.getDbConnection (Some 7%nat)
                     [Answered (Rejected connection_closed)])) = false.
Proof. split; reflexivity. Qed.

(** The listener registered by [initializeDatabase]: once a pool has
    emitted ["error"], [globalPool] is empty and the next caller connects
    again. *)
Lemma pool_error_resets (s : sys (option handle)) (h : handle) :
  has_handler h (sys_log s) = true ->
  exists s' k,
    run_events s [PoolError h; Call Index.getDbConnection] = Some s'
    /\ sys_pool s' = None
    /\ sys_log s' = sys_log s ++ [SqlConnect]
    /\ sys_tasks s' = sys_tasks s ++ [WaitConnect k].
Proof.
  intros H. cbn [run_events step]. rewrite H.
  destruct advance_acquire_cold as [k Hk].
  cbn [sys_pool sys_log sys_tasks]. rewrite Hk.
  eexists _, k. repeat split.
Qed.

(** *** Startup *)

Lemma index_initialize_no_listen (g : option handle) (rs : list reply) :
  existsb is_listen (run_trace (exec Index.initializeDatabase g rs)) = false.
Proof.
  destruct g as [h|]; [reflexivity|].
  destruct rs as [|[[h|e]|x] rs]; try reflexivity.
  destruct rs as [|[x|[rows|e]] rs]; reflexivity.
Qed.

Lemma server_initialize_no_listen (g : option handle) (rs : list reply) :
  existsb is_listen (run_trace (exec Server.initializeDatabase g rs)) = false.
Proof.
  destruct g as [h|]; [reflexivity|].
  destruct rs as [|[[h|e]|x] rs]; reflexivity.
Qed.

(** What [startServer] does, in terms of how [initializeDatabase] ends. *)
Lemma start_after_initialize (init : prog (option handle)) (port : jsval)
  (rs : list reply) :
  (forall rs', existsb is_listen (run_trace (exec init None rs')) = false) ->
  let s := exec (try_catch (init;; app_listen port) (fun _ => Exit 1))
             None rs in
  match run_outcome (exec init None rs) with
  | Some (Returned _) =>
      run_outcome s = Some (Returned tt)
      /\ run_trace s = run_trace (exec init None rs) ++ [AppListen port]
  | Some (Threw _) =>
      run_outcome s = Some (Exited 1) /\ existsb is_listen (run_trace s) = false
  | Some (Exited c) =>
      run_outcome s = Some (Exited c) /\ existsb is_listen (run_trace s) = false
  | None =>
      run_outcome s = None /\ existsb is_listen (run_trace s) = false
  end.
Proof.
  intros Hno s. subst s.
  rewrite exec_try_catch, exec_bind.
  specialize (Hno rs).
  destruct (exec init None rs) as [[[a|e|c]|] g' tr rs'];
    cbn in *; rewrite ?app_nil_r; auto.
Qed.

(** C3.  In both servers, if the connection made at startup fails,
    [startServer] ends in [process.exit(1)] and never calls [app.listen];
    whenever [app.listen] is called, [initializeDatabase] has returned
    before it. *)
Theorem C3_fail_fast_startup (env : gmap string string) (rs : list reply) :
  (forall e,
      run_outcome (exec Index.initializeDatabase None rs) = Some (Threw e) ->
      run_outcome (exec (Index.startServer env) None rs) = Some (Exited 1)
      /\ existsb is_listen (run_trace (exec (Index.startServer env) None rs))
         = false)
  /\ (forall e,
      run_outcome (exec Server.initializeDatabase None rs) = Some (Threw e) ->
      run_outcome (exec (Server.startServer env) None rs) = Some (Exited 1)
      /\ existsb is_listen (run_trace (exec (Server.startServer env) None rs))
         = false)
  /\ (existsb is_listen (run_trace (exec (Index.startServer env) None rs))
      = true ->
      exists h,
        run_outcome (exec Index.initializeDatabase None rs)
        = Some (Returned h)
        /\ run_trace (exec (Index.startServer env) None rs)
           = run_trace (exec Index.initializeDatabase None rs)
               ++ [AppListen (PORT env)])
  /\ (existsb is_listen (run_trace (exec (Server.startServer env) None rs))
      = true ->
      exists h,
        run_outcome (exec Server.initializeDatabase None rs)
        = Some (Returned h)
        /\ run_trace (exec (Server.startServer env) None rs)
           = run_trace (exec Server.initializeDatabase None rs)
               ++ [AppListen (PORT env)]).
Proof.
  pose proof (@start_after_initialize Index.initializeDatabase (PORT env) rs
                (index_initialize_no_listen None)) as Hi.
  pose proof (@start_after_initialize Server.initializeDatabase (PORT env) rs
                (server_initialize_no_listen None)) as Hs.
  cbv zeta in Hi, Hs.
  fold (Index.startServer env) in Hi. fold (Server.startServer env) in Hs.
  split; [|split; [|split]].
  - intros e He. rewrite He in Hi. exact Hi.
  - intros e He. rewrite He in Hs. exact Hs.
  - intros Hl.
    destruct (run_outcome (exec Index.initializeDatabase None rs))
      as [[a|e|c]|]; try (destruct Hi; congruence).
    exists a. tauto.
  - intros Hl.
    destruct (run_outcome (exec Server.initializeDatabase None rs))
      as [[a|e|c]|]; try (destruct Hs; congruence).
    exists a. tauto.
Qed.

(** C3 on a database that refuses the connection, for both servers. *)
Lemma C3_fail_fast_startup_witness :
  (run_outcome (exec (Index.startServer ∅) None
                  [Connected (Rejected unreachable)]) = Some (Exited 1)
   /\ existsb is_listen
        (run_trace (exec (Index.startServer ∅) None
                      [Connected (Rejected unreachable)])) = false)
  /\ (run_outcome (exec (Server.startServer ∅) None
                     [Connected (Rejected unreachable)]) = Some (Exited 1)
      /\ existsb is_listen
           (run_trace (exec (Server.startServer ∅) None
                         [Connected (Rejected unreachable)])) = false).
Proof.
  split.
  - apply (proj1 (C3_fail_fast_startup ∅ [Connected (Rejected unreachable)])
             unreachable).
    reflexivity.
  - apply (proj1 (proj2 (C3_fail_fast_startup ∅
                           [Connected (Rejected unreachable)]))
             unreachable).
    reflexivity.
Defined.
(** ** Report requests *)

Ltac read_replies_in H :=
  repeat (cbn in H; unfold Index.rows_of in H;
          match type of H with
          | context [match ?x with _ => _ end] => is_var x; destruct x
          end);
  cbn in H.

Ltac read_replies :=
  repeat (cbn; unfold Index.rows_of;
          match goal with
          | |- context [match ?x with _ => _ end] => is_var x; destruct x
          end);
  cbn.

Ltac split_orb_false :=
  repeat match goal with
         | E : _ || _ = false |- _ =>
             apply orb_false_iff in E; destruct E
         end.

Lemma high_value_trans_inverted (parseFloat : jsval -> float) (req : request)
  (g : option handle) (rs : list reply) :
  fields_malformed parseFloat (body req) = false ->
  amounts_inverted parseFloat (body req) = true ->
  exec (Index.high_value_trans parseFloat req) g rs
  = Run (Some (Returned (Response 400 (JObject
           (message "Minimum amount cannot be greater than maximum amount")))))
        g [] rs.
Proof.
  unfold fields_malformed, amounts_inverted, missing, Index.high_value_trans.
  intros Hf Hi. split_orb_false.
  repeat match goal with
         | E : _ = false |- _ => rewrite E; clear E
         end.
  rewrite Hi. reflexivity.
Qed.

Lemma acquire_calls_database {A : Type} (k : option handle -> prog A)
  (handler : jserror -> prog A) (g : option handle) (rs : list reply) :
  no_database_call
    (run_trace (exec (try_catch (let* pool := Index.getDbConnection in k pool)
                        handler) g rs)) = false.
Proof.
  destruct g as [h|]; destruct rs as [|[x|x] rs]; reflexivity.
Qed.

Lemma high_value_trans_proceeds (parseFloat : jsval -> float) (req : request)
  (g : option handle) (rs : list reply) :
  report_request_invalid parseFloat (body req) = false ->
  no_database_call
    (run_trace (exec (Index.high_value_trans parseFloat req) g rs)) = false.
Proof.
  unfold report_request_invalid, fields_malformed, amounts_inverted, missing,
    Index.high_value_trans.
  intros H. split_orb_false.
  repeat match goal with
         | E : _ = false |- _ => rewrite E; clear E
         end.
  cbn [orb]. apply acquire_calls_database.
Qed.

Lemma server_high_value_calls_database (parseFloat : jsval -> float)
  (req : request) (g : option handle) (rs : list reply) :
  no_database_call
    (run_trace (exec (Server.high_value parseFloat req) g rs)) = false.
Proof.
  unfold Server.high_value.
  destruct g as [h|]; destruct rs as [|[x|x] rs]; reflexivity.
Qed.

Lemma high_value_trans_first_failed (parseFloat : jsval -> float)
  (req : request) (g : option handle) (rs : list reply) (msg : string) :
  first_failed (report_checks parseFloat (body req)) = Some msg ->
  exec (Index.high_value_trans parseFloat req) g rs
  = Run (Some (Returned (Response 400 (JObject (message msg))))) g [] rs.
Proof.
  unfold report_checks, amounts_inverted, missing, Index.high_value_trans.
  cbn [first_failed].
  repeat match goal with
         | |- context [first_failed []] => fail 1
         | |- (if ?b then _ else _) = _ -> _ =>
             destruct b; [intros [= <-]; reflexivity|]
         end.
  discriminate.
Qed.

Lemma invalid_first_failed (parseFloat : jsval -> float)
  (b : gmap string jsval) :
  report_request_invalid parseFloat b = true ->
  exists msg, first_failed (report_checks parseFloat b) = Some msg.
Proof.
  unfold report_request_invalid, fields_malformed, report_checks.
  cbn [first_failed]. intros H.
  repeat match goal with
         | |- exists _, (if ?c then _ else _) = _ =>
             destruct c eqn:?; [eexists; reflexivity|]
         end.
  split_orb_false.
  repeat match goal with
         | E : _ = false |- _ => rewrite E in H; clear E
         end.
  discriminate H.
Qed.

Lemma field_or_js_or (b : gmap string jsval) (key : string)
  (fallback : jsval) :
  js_or (prop b key) fallback = field_or b key fallback.
Proof.
  unfold js_or, field_or, missing. now destruct (truthy (prop b key)).
Qed.

Lemma server_high_value_trace (parseFloat : jsval -> float) (req : request)
  (g : option handle) (rs : list reply) :
  run_trace (exec (Server.high_value parseFloat req) g rs)
  = match g, rs with
    | Some h, _ => [PoolRequest h (unchecked_call parseFloat (body req))]
    | None, Connected (Fulfilled h) :: _ =>
        [SqlConnect; PoolRequest h (unchecked_call parseFloat (body req))]
    | None, _ => [SqlConnect]
    end.
Proof.
  unfold Server.high_value, unchecked_call. rewrite !field_or_js_or.
  destruct g as [h|]; read_replies; reflexivity.
Qed.

Lemma server_high_value_status (parseFloat : jsval -> float) (req : request)
  (g : option handle) (rs : list reply) (a : response) :
  run_outcome (exec (Server.high_value parseFloat req) g rs)
  = Some (Returned a) ->
  status a = 200%nat \/ status a = 500%nat.
Proof.
  unfold Server.high_value.
  destruct g as [h|]; read_replies; intros [= <-]; cbn; auto.
Qed.

(** C4 (as amended).  POST /api/high-value-trans of index.js, reached
    through its middleware: a request that fails a check (a field missing,
    a name too long, an amount that is not a non-negative number, or the
    minimum above the maximum) is answered 400 with the message of the
    first check it fails, in the order and with the texts of
    [report_checks], [globalPool] untouched, nothing sent to the driver
    and no reply consumed; a request whose only defect is minimum above
    maximum gets the message about the two amounts; a request that passes
    goes on to the database.  POST /api/reports/high-value of server.js
    has no checks: whatever the body, it never answers 400 and goes to
    the database; with a pool at hand, or as soon as the connection is
    made, it sends the procedure call with the fields as they came and a
    fallback for each missing one. *)
Theorem C4_validation_before_database (parseFloat : jsval -> float)
  (env : gmap string string) (now : Z) (r : route) (req : request)
  (g : option handle) (rs : list reply) :
  find_route (Index.routes parseFloat) "POST" "/api/high-value-trans"
  = Some r ->
  (report_request_invalid parseFloat (body req) = true ->
   exists msg,
     first_failed (report_checks parseFloat (body req)) = Some msg
     /\ exec (serve env now r req) g rs
        = Run (Some (Returned (Response 400 (JObject (message msg)))))
            g [] rs)
  /\ (forall msg,
        first_failed (report_checks parseFloat (body req)) = Some msg ->
        exec (serve env now r req) g rs
        = Run (Some (Returned (Response 400 (JObject (message msg)))))
            g [] rs)
  /\ (fields_malformed parseFloat (body req) = false ->
      amounts_inverted parseFloat (body req) = true ->
      exec (serve env now r req) g rs
      = Run (Some (Returned (Response 400 (JObject
               (message
                  "Minimum amount cannot be greater than maximum amount")))))
            g [] rs)
  /\ (report_request_invalid parseFloat (body req) = false ->
      no_database_call (run_trace (exec (serve env now r req) g rs)) = false)
  /\ no_database_call
       (run_trace (exec (Server.high_value parseFloat req) g rs)) = false
  /\ run_trace (exec (Server.high_value parseFloat req) g rs)
     = match g, rs with
       | Some h, _ => [PoolRequest h (unchecked_call parseFloat (body req))]
       | None, Connected (Fulfilled h) :: _ =>
           [SqlConnect;
            PoolRequest h (unchecked_call parseFloat (body req))]
       | None, _ => [SqlConnect]
       end
  /\ (forall a,
        run_outcome (exec (Server.high_value parseFloat req) g rs)
        = Some (Returned a) ->
        status a = 200%nat \/ status a = 500%nat).
Proof.
  intros Hr. cbn in Hr. injection Hr as <-.
  unfold serve. cbn [rt_guards rt_handler through run_guard].
  unfold Auth.optionalAuthForReports.
  set (req' := set_user req _).
  change (body req) with (body req').
  split; [|split; [|split; [|split; [|split; [|split]]]]].
  - intros Hbad. destruct (invalid_first_failed Hbad) as [msg Hmsg].
    exists msg. split; [exact Hmsg|].
    now apply high_value_trans_first_failed.
  - intros msg. apply high_value_trans_first_failed.
  - apply high_value_trans_inverted.
  - apply high_value_trans_proceeds.
  - apply server_high_value_calls_database.
  - exact (server_high_value_trace parseFloat req g rs).
  - intros a. apply server_high_value_status.
Qed.

(** C4 on the request for amounts from 500000 down to 100000. *)
Lemma C4_validation_before_database_witness :
  exec (serve ∅ 0
          (Route "POST" "/api/high-value-trans" [OptionalAuthForReports]
             (Index.high_value_trans parseFloat_plain))
          inverted_amounts_index) None []
  = Run (Some (Returned (Response 400 (JObject
           (message
              "Minimum amount cannot be greater than maximum amount")))))
        None [] [].
Proof.
  refine (proj1 (proj2 (proj2
            (@C4_validation_before_database parseFloat_plain ∅ 0
               (Route "POST" "/api/high-value-trans"
                  [OptionalAuthForReports]
                  (Index.high_value_trans parseFloat_plain))
               inverted_amounts_index None [] eq_refl))) _ _);
    vm_compute; reflexivity.
Defined.

(** C4 (counterexample).  server.js, minimum 500000 and maximum 100000,
    a live pool: the procedure is executed with both amounts as given and
    the answer is 200. *)
Lemma C4_server_executes_inverted_amounts :
  exec (Server.high_value parseFloat_plain inverted_amounts_server)
    (Some 3%nat) [fine (Some [])]
  = Run (Some (Returned (Response 200 (JObject [("rows", JRows [])]))))
        (Some 3%nat)
        [PoolRequest 3
           (DbRequest
              [SqlInput "Br_Name" (VarChar (Some 20%nat)) (JStr "MAIN");
               SqlInput "Section" (VarChar (Some 20%nat)) (JStr "DEPOSIT");
               SqlInput "Scheme" (VarChar (Some 30%nat)) (JStr "ALL");
               SqlInput "Amount" (Decimal 18 2) (JNum 500000%float);
               SqlInput "Amount2" (Decimal 18 2) (JNum 100000%float);
               SqlInput "Frdate" SqlDate (JStr "2024-01-01");
               SqlInput "Todate" SqlDate (JStr "2024-12-31")]
              (Execute "[dbo].[AuditHVTranRpt_Sp]"))]
        [].
Proof. vm_compute. reflexivity. Qed.

(** ** Token service and middleware *)

Lemma env_or_nonempty (env : gmap string string) (key fallback : string) :
  String.eqb fallback "" = false ->
  String.eqb (Auth.env_or env key fallback) "" = false.
Proof.
  intros Hf. unfold Auth.env_or.
  destruct (env !! key) as [s|]; [|exact Hf].
  destruct (String.eqb s "") eqn:E; [exact Hf | exact E].
Qed.

Lemma JWT_SECRET_nonempty (env : gmap string string) :
  String.eqb (Auth.JWT_SECRET env) "" = false.
Proof. apply env_or_nonempty. reflexivity. Qed.

Lemma jwt_sign_ok (c : claims) (secret expiresIn : string) (now millis : Z) :
  String.eqb secret "" = false ->
  Auth.ms expiresIn = Some millis ->
  Auth.jwt_sign c secret expiresIn now
  = Fulfilled (signed secret c now (millis / 1000)).
Proof.
  intros Hs Hm. unfold Auth.jwt_sign. now rewrite Hs, Hm.
Qed.

Lemma verify_signed (env : gmap string string) (c : claims)
  (now ttl later : Z) :
  Auth.verifyToken env (signed (Auth.JWT_SECRET env) c now ttl) later
  = if Z.leb (now + ttl) later
    then Rejected (new_Error "Invalid or expired token")
    else Fulfilled (JwtPayload c now (now + ttl)).
Proof.
  unfold Auth.verifyToken, Auth.jwt_verify, signed.
  destruct (decide _) as [_|Hne]; [|congruence].
  cbn [pl_exp]. now destruct (Z.leb (now + ttl) later).
Qed.

Lemma verify_rejects (env : gmap string string) (t : token) (now : Z) :
  (forall p, t = Jws p (HS256 (Auth.JWT_SECRET env) p) -> pl_exp p <= now) ->
  Auth.verifyToken env t now = Rejected (new_Error "Invalid or expired token").
Proof.
  intros H. unfold Auth.verifyToken, Auth.jwt_verify.
  destruct t as [s|p sig].
  - now destruct (String.eqb s "").
  - destruct (decide _) as [->|Hne]; [|reflexivity].
    specialize (H p eq_refl). apply Z.leb_le in H. now rewrite H.
Qed.

(** C5.  [authenticateToken]: with no Authorization header, or a header
    without a second piece, the answer is 401 "Access token required";
    with a token that is not a payload signed under the secret and still
    unexpired (any other string, a signature that does not match, an
    expiry that has passed) the answer is 403 "Invalid or expired token";
    with a token that verifies, the decoded payload becomes [req.user] and
    [next()] is called. *)
Theorem C5_required_auth (env : gmap string string) (req : request)
  (now : Z) :
  (authorization req = None ->
   Auth.authenticateToken env req now
   = Respond (Response 401 (JObject
       [("success", jbool false);
        ("message", jstr "Access token required")])))
  /\ (Auth.token_missing (Auth.bearer (authorization req)) = true ->
      Auth.authenticateToken env req now
      = Respond (Response 401 (JObject
          [("success", jbool false);
           ("message", jstr "Access token required")])))
  /\ (forall t,
        Auth.bearer (authorization req) = Some t ->
        Auth.token_missing (Some t) = false ->
        (forall p, t = Jws p (HS256 (Auth.JWT_SECRET env) p) ->
                   pl_exp p <= now) ->
        Auth.authenticateToken env req now
        = Respond (Response 403 (JObject
            [("success", jbool false);
             ("message", jstr "Invalid or expired token");
             ("error", jstr "Invalid or expired token")])))
  /\ (forall p,
        Auth.bearer (authorization req)
        = Some (Jws p (HS256 (Auth.JWT_SECRET env) p)) ->
        now < pl_exp p ->
        Auth.authenticateToken env req now = Next (set_user req (Decoded p))
        /\ user (set_user req (Decoded p)) = Some (Decoded p)).
Proof.
  unfold Auth.authenticateToken. repeat split.
  - intros ->. reflexivity.
  - destruct (Auth.bearer (authorization req)) as [t|]; [|reflexivity].
    intros ->. reflexivity.
  - intros t -> Hm Hbad. rewrite Hm.
    now rewrite (verify_rejects Hbad).
  - rewrite H. cbn [Auth.token_missing].
    unfold Auth.verifyToken, Auth.jwt_verify.
    destruct (decide _) as [_|Hne]; [|congruence].
    apply Z.leb_gt in H0. now rewrite H0.
Qed.

(** C5 on a header without token, with a garbage token, with a token
    altered after signing, and with a token that verifies. *)
Lemma C5_required_auth_witness :
  Auth.authenticateToken ∅ (with_header [Opaque "Bearer"]) 100
  = Respond (Response 401 (JObject
      [("success", jbool false);
       ("message", jstr "Access token required")]))
  /\ Auth.authenticateToken ∅
       (with_header [Opaque "Bearer"; Opaque "garbage"]) 100
     = Respond (Response 403 (JObject
         [("success", jbool false);
          ("message", jstr "Invalid or expired token");
          ("error", jstr "Invalid or expired token")]))
  /\ Auth.authenticateToken ∅
       (with_header [Opaque "Bearer";
                     tampered (Auth.JWT_SECRET ∅) alice 0 86400]) 100
     = Respond (Response 403 (JObject
         [("success", jbool false);
          ("message", jstr "Invalid or expired token");
          ("error", jstr "Invalid or expired token")]))
  /\ Auth.authenticateToken ∅
       (with_header [Opaque "Bearer";
                     signed (Auth.JWT_SECRET ∅) alice 0 86400]) 100
     = Next (set_user
               (with_header [Opaque "Bearer";
                             signed (Auth.JWT_SECRET ∅) alice 0 86400])
               (Decoded (JwtPayload alice 0 86400))).
Proof.
  split; [|split; [|split]].
  - apply (proj1 (proj2 (C5_required_auth ∅
                           (with_header [Opaque "Bearer"]) 100))).
    reflexivity.
  - apply (proj1 (proj2 (proj2 (C5_required_auth ∅
             (with_header [Opaque "Bearer"; Opaque "garbage"]) 100)))
             (Opaque "garbage")); [reflexivity | reflexivity |].
    intros p Hp. discriminate Hp.
  - apply (proj1 (proj2 (proj2 (C5_required_auth ∅
             (with_header [Opaque "Bearer";
                           tampered (Auth.JWT_SECRET ∅) alice 0 86400])
             100)))
             (tampered (Auth.JWT_SECRET ∅) alice 0 86400));
      [reflexivity | reflexivity |].
    intros p Hp. unfold tampered, alice in Hp. cbn in Hp. congruence.
  - refine (proj1 (proj2 (proj2 (proj2 (C5_required_auth ∅
             (with_header [Opaque "Bearer";
                           signed (Auth.JWT_SECRET ∅) alice 0 86400])
             100)))
             (JwtPayload alice 0 86400) _ _)); reflexivity.
Defined.

Lemma issue_access (env : gmap string string) (c : claims) (now millis : Z) :
  Auth.ms (Auth.JWT_EXPIRES_IN env) = Some millis ->
  Auth.generateAccessToken env c now
  = Fulfilled (signed (Auth.JWT_SECRET env) c now (millis / 1000)).
Proof. apply jwt_sign_ok, JWT_SECRET_nonempty. Qed.

Lemma issue_refresh (env : gmap string string) (c : claims) (now millis : Z) :
  Auth.ms (Auth.JWT_REFRESH_EXPIRES_IN env) = Some millis ->
  Auth.generateRefreshToken env c now
  = Fulfilled (signed (Auth.JWT_SECRET env) c now (millis / 1000)).
Proof. apply jwt_sign_ok, JWT_SECRET_nonempty. Qed.

Lemma verify_signed_expired (env : gmap string string) (c : claims)
  (now ttl later : Z) :
  now + ttl <= later ->
  Auth.verifyToken env (signed (Auth.JWT_SECRET env) c now ttl) later
  = Rejected (new_Error "Invalid or expired token").
Proof.
  intros H. rewrite verify_signed. apply Z.leb_le in H. now rewrite H.
Qed.

Lemma verify_signed_live (env : gmap string string) (c : claims)
  (now ttl later : Z) :
  later < now + ttl ->
  Auth.verifyToken env (signed (Auth.JWT_SECRET env) c now ttl) later
  = Fulfilled (JwtPayload c now (now + ttl)).
Proof.
  intros H. rewrite verify_signed. apply Z.leb_gt in H. now rewrite H.
Qed.

(** C6 (as amended).  [verifyToken] rejects a token from its expiry on:
    with the lifetime configured as ["0"] a token is rejected in the very
    second it was issued, with ["1h"] it is rejected two hours later; in
    general a token issued at [now] is accepted exactly while the clock is
    below [now + ms(lifetime) / 1000].  The issuing functions take the
    claims only: the lifetime is [JWT_EXPIRES_IN] for access tokens and
    [JWT_REFRESH_EXPIRES_IN] for refresh tokens, read from the environment
    with the fallbacks ["24h"] and ["7d"]. *)
Theorem C6_expiry_from_configuration (env : gmap string string) (c : claims)
  (now : Z) :
  (Auth.JWT_EXPIRES_IN env = "0" ->
   exists tok,
     Auth.generateAccessToken env c now = Fulfilled tok
     /\ Auth.verifyToken env tok now
        = Rejected (new_Error "Invalid or expired token"))
  /\ (Auth.JWT_EXPIRES_IN env = "1h" ->
      exists tok,
        Auth.generateAccessToken env c now = Fulfilled tok
        /\ Auth.verifyToken env tok (now + 7200)
           = Rejected (new_Error "Invalid or expired token"))
  /\ (Auth.JWT_REFRESH_EXPIRES_IN env = "0" ->
      exists tok,
        Auth.generateRefreshToken env c now = Fulfilled tok
        /\ Auth.verifyToken env tok now
           = Rejected (new_Error "Invalid or expired token"))
  /\ (Auth.JWT_REFRESH_EXPIRES_IN env = "1h" ->
      exists tok,
        Auth.generateRefreshToken env c now = Fulfilled tok
        /\ Auth.verifyToken env tok (now + 7200)
           = Rejected (new_Error "Invalid or expired token"))
  /\ (forall millis later,
        Auth.ms (Auth.JWT_EXPIRES_IN env) = Some millis ->
        exists tok,
          Auth.generateAccessToken env c now = Fulfilled tok
          /\ (now + millis / 1000 <= later ->
              Auth.verifyToken env tok later
              = Rejected (new_Error "Invalid or expired token"))
          /\ (later < now + millis / 1000 ->
              Auth.verifyToken env tok later
              = Fulfilled (JwtPayload c now (now + millis / 1000))))
  /\ (forall millis later,
        Auth.ms (Auth.JWT_REFRESH_EXPIRES_IN env) = Some millis ->
        exists tok,
          Auth.generateRefreshToken env c now = Fulfilled tok
          /\ (now + millis / 1000 <= later ->
              Auth.verifyToken env tok later
              = Rejected (new_Error "Invalid or expired token"))
          /\ (later < now + millis / 1000 ->
              Auth.verifyToken env tok later
              = Fulfilled (JwtPayload c now (now + millis / 1000))))
  /\ (env !! "JWT_EXPIRES_IN" = None -> Auth.JWT_EXPIRES_IN env = "24h")
  /\ (env !! "JWT_REFRESH_EXPIRES_IN" = None ->
      Auth.JWT_REFRESH_EXPIRES_IN env = "7d").
Proof.
  repeat apply conj.
  - intros E. exists (signed (Auth.JWT_SECRET env) c now (0 / 1000)). split.
    + apply issue_access. rewrite E. reflexivity.
    + apply verify_signed_expired. Z.div_mod_to_equations. lia.
  - intros E.
    exists (signed (Auth.JWT_SECRET env) c now (3600000 / 1000)). split.
    + apply issue_access. rewrite E. reflexivity.
    + apply verify_signed_expired. Z.div_mod_to_equations. lia.
  - intros E. exists (signed (Auth.JWT_SECRET env) c now (0 / 1000)). split.
    + apply issue_refresh. rewrite E. reflexivity.
    + apply verify_signed_expired. Z.div_mod_to_equations. lia.
  - intros E.
    exists (signed (Auth.JWT_SECRET env) c now (3600000 / 1000)). split.
    + apply issue_refresh. rewrite E. reflexivity.
    + apply verify_signed_expired. Z.div_mod_to_equations. lia.
  - intros millis later E. eexists. split; [apply issue_access, E|].
    split; [apply verify_signed_expired | apply verify_signed_live].
  - intros millis later E. eexists. split; [apply issue_refresh, E|].
    split; [apply verify_signed_expired | apply verify_signed_live].
  - intros E. unfold Auth.JWT_EXPIRES_IN, Auth.env_or. now rewrite E.
  - intros E. unfold Auth.JWT_REFRESH_EXPIRES_IN, Auth.env_or. now rewrite E.
Qed.

(** C6 with the lifetime set to ["0"] and to ["1h"]. *)
Lemma C6_expiry_from_configuration_witness :
  (exists tok,
      Auth.generateAccessToken env_ttl_zero alice 1000 = Fulfilled tok
      /\ Auth.verifyToken env_ttl_zero tok 1000
         = Rejected (new_Error "Invalid or expired token"))
  /\ (exists tok,
        Auth.generateAccessToken env_ttl_hour alice 1000 = Fulfilled tok
        /\ Auth.verifyToken env_ttl_hour tok (1000 + 7200)
           = Rejected (new_Error "Invalid or expired token")).
Proof.
  split.
  - apply (proj1 (C6_expiry_from_configuration env_ttl_zero alice 1000)).
    reflexivity.
  - apply (proj1 (proj2
             (C6_expiry_from_configuration env_ttl_hour alice 1000))).
    reflexivity.
Defined.

(** C6 (counterexample).  Nothing set in the environment: the caller of
    [generateAccessToken] passes the claims and gets a token of 24 hours,
    which [verifyToken] accepts two hours after it was issued. *)
Lemma C6_token_still_valid_after_two_hours :
  Auth.generateAccessToken ∅ alice 0
  = Fulfilled (signed (Auth.JWT_SECRET ∅) alice 0 86400)
  /\ Auth.verifyToken ∅ (signed (Auth.JWT_SECRET ∅) alice 0 86400) 7200
     = Fulfilled (JwtPayload alice 0 86400).
Proof. split; reflexivity. Qed.

(** C7.  [optionalAuthForReports] calls [next()] on every request with
    [req.user] set to the system identity; the Authorization header does
    not enter the result, and the handler of a route guarded by it runs
    under that identity whatever the header. *)
Theorem C7_optional_bypass (env : gmap string string) (now : Z)
  (req : request) :
  Auth.optionalAuthForReports req = Next (set_user req system_identity)
  /\ user (set_user req system_identity) = Some system_identity
  /\ (forall header,
        Auth.optionalAuthForReports (set_authorization req header)
        = Next (set_authorization (set_user req system_identity) header))
  /\ (forall method path handler header,
        serve env now (Route method path [OptionalAuthForReports] handler)
          (set_authorization req header)
        = handler (set_authorization (set_user req system_identity) header)).
Proof. repeat split. Qed.

(** C9.  A token made by [generateAccessToken] and presented to
    [refreshAccessToken] before its expiry is accepted: the answer is 200
    with a new access token for the same [userId], [username] and [role],
    issued at the time of the request.  The same holds for a token made by
    [generateRefreshToken]; when both lifetimes are configured equal the
    two functions return the same token, since the payload carries no mark
    of its kind. *)
Theorem C9_access_token_accepted_for_refresh (env : gmap string string)
  (c : claims) (issued now millis : Z) (req : request) (tok : token) :
  Auth.ms (Auth.JWT_EXPIRES_IN env) = Some millis ->
  body_refreshToken req = Some tok ->
  (Auth.generateAccessToken env c issued = Fulfilled tok ->
   now < issued + millis / 1000 ->
   Auth.generateAccessToken env c now
   = Fulfilled (signed (Auth.JWT_SECRET env) c now (millis / 1000))
   /\ Auth.refreshAccessToken env req now
      = Response 200 (JObject
          [("success", jbool true);
           ("message", jstr "Token refreshed successfully");
           ("data", JObject
              [("accessToken",
                JTok (signed (Auth.JWT_SECRET env) c now (millis / 1000)));
               ("user", JObject
                  [("userId", JInt (userId c));
                   ("username", jstr (username c));
                   ("role", jstr (role c))])])]))
  /\ (forall rmillis,
        Auth.ms (Auth.JWT_REFRESH_EXPIRES_IN env) = Some rmillis ->
        Auth.generateRefreshToken env c issued = Fulfilled tok ->
        now < issued + rmillis / 1000 ->
        Auth.refreshAccessToken env req now
        = Response 200 (JObject
            [("success", jbool true);
             ("message", jstr "Token refreshed successfully");
             ("data", JObject
                [("accessToken",
                  JTok (signed (Auth.JWT_SECRET env) c now (millis / 1000)));
                 ("user", JObject
                    [("userId", JInt (userId c));
                     ("username", jstr (username c));
                     ("role", jstr (role c))])])]))
  /\ (Auth.JWT_EXPIRES_IN env = Auth.JWT_REFRESH_EXPIRES_IN env ->
      Auth.generateAccessToken env c issued
      = Auth.generateRefreshToken env c issued).
Proof.
  intros Hms Hreq.
  assert (Hrefresh : forall ttl,
             tok = signed (Auth.JWT_SECRET env) c issued ttl ->
             now < issued + ttl ->
             Auth.refreshAccessToken env req now
             = Response 200 (JObject
                 [("success", jbool true);
                  ("message", jstr "Token refreshed successfully");
                  ("data", JObject
                     [("accessToken",
                       JTok (signed (Auth.JWT_SECRET env) c now
                               (millis / 1000)));
                      ("user", JObject
                         [("userId", JInt (userId c));
                          ("username", jstr (username c));
                          ("role", jstr (role c))])])])).
  { intros ttl -> Hlive.
    unfold Auth.refreshAccessToken, Auth.refresh_with. rewrite Hreq.
    cbn [Auth.token_missing signed].
    fold (signed (Auth.JWT_SECRET env) c issued ttl).
    rewrite (verify_signed_live env c Hlive). cbn [pl_claims].
    destruct c as [uid uname urole]. cbn [userId username role].
    rewrite (issue_access (Claims uid uname urole) now Hms).
    reflexivity. }
  repeat apply conj.
  - intros Hgen Hlive. split; [apply issue_access, Hms|].
    rewrite (issue_access c issued Hms) in Hgen.
    injection Hgen as <-. now apply Hrefresh with (ttl := millis / 1000).
  - intros rmillis Hrms Hgen Hlive.
    rewrite (issue_refresh c issued Hrms) in Hgen.
    injection Hgen as <-. now apply Hrefresh with (ttl := rmillis / 1000).
  - intros E. unfold Auth.generateAccessToken, Auth.generateRefreshToken.
    now rewrite E.
Qed.

(** C9 on an access token of 24 hours presented after one hour. *)
Lemma C9_access_token_accepted_for_refresh_witness :
  Auth.refreshAccessToken ∅
    (with_refresh_token (signed (Auth.JWT_SECRET ∅) alice 0 86400)) 3600
  = Response 200 (JObject
      [("success", jbool true);
       ("message", jstr "Token refreshed successfully");
       ("data", JObject
          [("accessToken",
            JTok (signed (Auth.JWT_SECRET ∅) alice 3600 (86400000 / 1000)));
           ("user", JObject
              [("userId", JInt 7);
               ("username", jstr "alice");
               ("role", jstr "user")])])]).
Proof.
  refine (proj2 (proj1 (@C9_access_token_accepted_for_refresh ∅ alice 0 3600
                          86400000
                          (with_refresh_token
                             (signed (Auth.JWT_SECRET ∅) alice 0 86400))
                          (signed (Auth.JWT_SECRET ∅) alice 0 86400)
                          _ _) _ _)); reflexivity.
Defined.

(** ** Configuration *)

Lemma check_required_spec (env : gmap string string) (vars : list string)
  (g : option handle) (rs : list reply) :
  exec (Index.check_required env vars) g rs
  = if forallb (fun v => truthy (getenv env v)) vars
    then Run (Some (Returned tt)) g [] rs
    else Run (Some (Exited 1)) g [] rs.
Proof.
  induction vars as [|v vars IH]; [reflexivity|].
  cbn [Index.check_required forallb].
  destruct (truthy (getenv env v)); [exact IH | reflexivity].
Qed.

(** C8 (as amended).  Of the configuration values only [DB_USER],
    [DB_PASSWORD], [DB_SERVER] and [DB_NAME] are checked, and only by
    index.js: if one of them is unset or empty the script ends in
    [process.exit(1)] before anything else happens; if all four are set it
    goes on to [startServer] whatever else is missing.  The listening
    port, the JWT secret and the two token lifetimes fall back on built-in
    values, and so do the CORS origins of server.js, which checks nothing
    and connects at once. *)
Theorem C8_only_database_variables_required (env : gmap string string)
  (g : option handle) (rs : list reply) :
  ((exists v, In v Index.requiredEnvVars /\ truthy (getenv env v) = false) ->
   exec (Index.main env) g rs = Run (Some (Exited 1)) g [] rs)
  /\ ((forall v, In v Index.requiredEnvVars -> truthy (getenv env v) = true) ->
      exec (Index.main env) g rs = exec (Index.startServer env) g rs)
  /\ (env !! "PORT" = None -> PORT env = JNum 4000%float)
  /\ (env !! "JWT_SECRET" = None ->
      Auth.JWT_SECRET env
      = "your-super-secret-jwt-key-change-this-in-production")
  /\ (env !! "JWT_EXPIRES_IN" = None -> Auth.JWT_EXPIRES_IN env = "24h")
  /\ (env !! "JWT_REFRESH_EXPIRES_IN" = None ->
      Auth.JWT_REFRESH_EXPIRES_IN env = "7d")
  /\ (env !! "CORS_ORIGIN" = None ->
      Server.allowedOrigins env = ["http://localhost:5173"])
  /\ (exists tr,
        run_trace (exec (Server.main env) None rs) = SqlConnect :: tr).
Proof.
  repeat apply conj.
  - intros (v & Hin & Hv). unfold Index.main.
    rewrite exec_bind, check_required_spec.
    destruct (forallb _ _) eqn:E; [|reflexivity].
    rewrite forallb_forall in E. rewrite (E v Hin) in Hv. discriminate.
  - intros Hall. unfold Index.main.
    rewrite exec_bind, check_required_spec.
    destruct (forallb _ _) eqn:E.
    + cbn. apply emit_nil.
    + apply not_true_iff_false in E. exfalso. apply E.
      apply forallb_forall. exact Hall.
  - intros E. unfold PORT, getenv. now rewrite E.
  - intros E. unfold Auth.JWT_SECRET, Auth.env_or. now rewrite E.
  - intros E. unfold Auth.JWT_EXPIRES_IN, Auth.env_or. now rewrite E.
  - intros E. unfold Auth.JWT_REFRESH_EXPIRES_IN, Auth.env_or. now rewrite E.
  - intros E. unfold Server.allowedOrigins, getenv. now rewrite E.
  - destruct rs as [|[x|x] rs]; eexists; reflexivity.
Qed.

(** C8 without [DB_NAME], and with the four variables set. *)
Lemma C8_only_database_variables_required_witness :
  exec (Index.main env_without_db_name) None [] = Run (Some (Exited 1)) None [] []
  /\ exec (Index.main env_database_only) None [Connected (Rejected unreachable)]
     = exec (Index.startServer env_database_only) None
         [Connected (Rejected unreachable)].
Proof.
  split.
  - apply (proj1 (C8_only_database_variables_required
                    env_without_db_name None [])).
    exists "DB_NAME". split; [cbn; tauto | reflexivity].
  - apply (proj1 (proj2 (C8_only_database_variables_required
                           env_database_only None
                           [Connected (Rejected unreachable)]))).
    intros v [<-|[<-|[<-|[<-|[]]]]]; reflexivity.
Defined.

(** C8 (counterexample).  Only the four database variables are set; no
    port, no JWT secret, no lifetimes, no CORS origins.  The script does
    not fail: it connects, listens on 4000 and signs tokens with the
    built-in secret. *)
Lemma C8_starts_without_port_or_jwt_secret :
  exec (Index.main env_database_only) None
    [Connected (Fulfilled 1%nat); fine (Some [])]
  = Run (Some (Returned tt)) (Some 1%nat)
        [SqlConnect; PoolOnError 1; PoolRequest 1 probe;
         AppListen (JNum 4000%float)] []
  /\ Auth.JWT_SECRET env_database_only
     = "your-super-secret-jwt-key-change-this-in-production"
  /\ Auth.JWT_EXPIRES_IN env_database_only = "24h"
  /\ Auth.JWT_REFRESH_EXPIRES_IN env_database_only = "7d".
Proof. repeat split; vm_compute; reflexivity. Qed.

(** ** The user look-up route *)

(** For contrast, GET /api/Users sits behind [authenticateToken]: without
    a header the answer is 401 and the handler does not run. *)
Lemma users_route_requires_token (parseFloat : jsval -> float)
  (env : gmap string string) (now : Z) (r : route) (req : request)
  (g : option handle) (rs : list reply) :
  find_route (Index.routes parseFloat) "GET" "/api/Users" = Some r ->
  authorization req = None ->
  exec (serve env now r req) g rs
  = Run (Some (Returned (Response 401 (JObject
           [("success", jbool false);
            ("message", jstr "Access token required")])))) g [] rs.
Proof.
  intros Hr Hh. cbn in Hr. injection Hr as <-.
  unfold serve. cbn [rt_guards rt_handler through run_guard].
  unfold Auth.authenticateToken. rewrite Hh. reflexivity.
Qed.

(** C10.  GET /api/test/user/:username has no middleware in front of it,
    so a request without any credential reaches the handler; whenever the
    connection is obtained and the query returns a row for the user, the
    answer is 200 and carries [passwordLength], the length of the stored
    password, and [passwordMatch], whether the stored password is the
    string "2255". *)
Theorem C10_test_user_discloses_password (parseFloat : jsval -> float)
  (env : gmap string string) (now : Z) (r : route) (req : request)
  (g g' : option handle) (rs rs' : list reply) (h : handle)
  (tr : list effect) (u : gmap string jsval)
  (more : list (gmap string jsval)) (password : string) :
  find_route (Index.routes parseFloat) "GET" "/api/test/user/:username"
  = Some r ->
  exec Index.getDbConnection g rs
  = Run (Some (Returned (Some h))) g' tr (fine (Some (u :: more)) :: rs') ->
  u !! "User_Password" = Some (JStr password) ->
  rt_guards r = []
  /\ exec (serve env now r req) g rs
     = Run (Some (Returned (Response 200 (JObject
              [("success", jbool true);
               ("message", jstr "User found");
               ("data", JObject
                  [("username", JVal (prop u "User_Name"));
                   ("userId", JVal (prop u "User_ID"));
                   ("active", JVal (prop u "Active"));
                   ("role", JVal (prop u "Role"));
                   ("passwordLength",
                    JInt (Z.of_nat (String.length password)));
                   ("passwordMatch",
                    jbool (String.eqb password "2255"))])]))))
           g'
           (tr ++ [PoolRequest h
                     (DbRequest
                        [SqlInput "username" (VarChar (Some 50%nat))
                           (JStr (default "" (params req !! "username")))]
                        (Query "SELECT User_Name, User_Password, User_ID, Active, Role FROM Tbl_UserMaster WHERE User_Name = @username"))])
           rs'.
Proof.
  intros Hr Hacq Hpw. cbn in Hr. injection Hr as <-.
  split; [reflexivity|].
  unfold serve. cbn [rt_guards rt_handler through].
  unfold Index.test_user.
  assert (Hp : prop u "User_Password" = JStr password)
    by (unfold prop; now rewrite Hpw).
  rewrite exec_try_catch, exec_bind, Hacq.
  cbn -[prop]. rewrite Hp. reflexivity.
Qed.

(** C10 on a live pool and a user whose stored password is "2255". *)
Lemma C10_test_user_discloses_password_witness :
  exec (serve ∅ 0
          (Route "GET" "/api/test/user/:username" [] Index.test_user)
          (lookup_user "alice"))
    (Some 1%nat) [fine (Some []); fine (Some [user_row "alice" "2255"])]
  = Run (Some (Returned (Response 200 (JObject
           [("success", jbool true);
            ("message", jstr "User found");
            ("data", JObject
               [("username", JVal (prop (user_row "alice" "2255") "User_Name"));
                ("userId", JVal (prop (user_row "alice" "2255") "User_ID"));
                ("active", JVal (prop (user_row "alice" "2255") "Active"));
                ("role", JVal (prop (user_row "alice" "2255") "Role"));
                ("passwordLength", JInt (Z.of_nat (String.length "2255")));
                ("passwordMatch", jbool (String.eqb "2255" "2255"))])]))))
        (Some 1%nat)
        ([PoolRequest 1 probe]
           ++ [PoolRequest 1
                 (DbRequest
                    [SqlInput "username" (VarChar (Some 50%nat))
                       (JStr (default ""
                                (params (lookup_user "alice") !! "username")))]
                    (Query "SELECT User_Name, User_Password, User_ID, Active, Role FROM Tbl_UserMaster WHERE User_Name = @username"))])
        [].
Proof.
  refine (proj2 (@C10_test_user_discloses_password parseFloat_plain ∅ 0
                   (Route "GET" "/api/test/user/:username" [] Index.test_user)
                   (lookup_user "alice") (Some 1%nat) (Some 1%nat)
                   [fine (Some []); fine (Some [user_row "alice" "2255"])] []
                   1%nat [PoolRequest 1 probe] (user_row "alice" "2255") []
                   "2255" _ _ _)); reflexivity.
Defined.

(** * Further properties of the code *)

(** ** [validateInput] and [trim] *)

Lemma trimStart_length (s : string) :
  (String.length (trimStart s) <= String.length s)%nat.
Proof.
  induction s as [|c s IH]; cbn; [lia|].
  destruct (is_space c); cbn; lia.
Qed.

Lemma trimEnd_length (s : string) :
  (String.length (trimEnd s) <= String.length s)%nat.
Proof.
  induction s as [|c s IH]; cbn; [lia|].
  destruct (trimEnd s); [destruct (is_space c)|]; cbn in *; lia.
Qed.

Lemma trim_length (s : string) :
  (String.length (trim s) <= String.length s)%nat.
Proof.
  unfold trim. pose proof (trimEnd_length (trimStart s)).
  pose proof (trimStart_length s). lia.
Qed.

Lemma trimStart_first (s : string) (c : ascii) :
  first_char (trimStart s) = Some c -> is_space c = false.
Proof.
  induction s as [|a s IH]; cbn; [discriminate|].
  destruct (is_space a) eqn:E; [exact IH|].
  cbn. intros [= <-]. exact E.
Qed.

Lemma trimEnd_first (s : string) (c : ascii) :
  first_char (trimEnd s) = Some c -> first_char s = Some c.
Proof.
  destruct s as [|a s]; cbn; [discriminate|].
  destruct (trimEnd s); [destruct (is_space a)|]; cbn; auto; discriminate.
Qed.

Lemma trimEnd_last (s : string) (c : ascii) :
  last_char (trimEnd s) = Some c -> is_space c = false.
Proof.
  induction s as [|a s IH]; cbn; [discriminate|].
  destruct (trimEnd s) as [|b r] eqn:E.
  - destruct (is_space a) eqn:Ea; cbn; [discriminate|].
    intros [= <-]. exact Ea.
  - cbn [last_char]. exact IH.
Qed.

Lemma trimEnd_blank (s : string) :
  trimEnd s = EmptyString <-> blank s = true.
Proof.
  induction s as [|a s IH]; cbn; [tauto|].
  destruct (trimEnd s) as [|b r] eqn:E.
  - destruct (is_space a); cbn.
    + split; intros _; [now apply IH | reflexivity].
    + split; discriminate.
  - split; [discriminate|].
    intros H. apply andb_true_iff in H as [_ H].
    apply IH in H. discriminate.
Qed.

Lemma trimStart_blank (s : string) : blank (trimStart s) = blank s.
Proof.
  induction s as [|a s IH]; cbn; [reflexivity|].
  destruct (is_space a) eqn:E; cbn; [exact IH | now rewrite E].
Qed.

Lemma trim_blank (s : string) : trim s = EmptyString <-> blank s = true.
Proof. unfold trim. rewrite trimEnd_blank. now rewrite trimStart_blank. Qed.

Lemma trimEnd_idempotent (s : string) : trimEnd (trimEnd s) = trimEnd s.
Proof.
  induction s as [|a s IH]; cbn; [reflexivity|].
  destruct (trimEnd s) as [|b r] eqn:E.
  - destruct (is_space a) eqn:Ea; cbn; [reflexivity | now rewrite Ea].
  - cbn [trimEnd]. cbn [trimEnd] in IH. rewrite IH. reflexivity.
Qed.

Lemma trimStart_fixed (s : string) :
  (forall c, first_char s = Some c -> is_space c = false) ->
  trimStart s = s.
Proof.
  destruct s as [|a s]; cbn; [reflexivity|].
  intros H. now rewrite (H a eq_refl).
Qed.

Lemma trim_idempotent (s : string) : trim (trim s) = trim s.
Proof.
  unfold trim at 1.
  rewrite trimStart_fixed.
  - apply trimEnd_idempotent.
  - intros c Hc. unfold trim in Hc.
    apply trimEnd_first in Hc. now apply trimStart_first in Hc.
Qed.

Lemma truthy_string (s : string) :
  truthy (JStr s) = true <-> s <> EmptyString.
Proof.
  cbn. destruct (String.eqb_spec s ""); cbn; split; congruence.
Qed.

Section ValidateInput.
Variables (parseFloat Date_getTime : jsval -> float).

Lemma validateInput_string_inv (input : jsval)
  (maxLength : nat) (s : string) :
  Index.validateInput parseFloat Date_getTime input "string" maxLength
  = VString s ->
  exists s0,
    input = JStr s0
    /\ s = trim s0
    /\ (String.length s0 <= maxLength)%nat
    /\ (String.length s <= maxLength)%nat
    /\ (forall c, first_char s = Some c -> is_space c = false)
    /\ (forall c, last_char s = Some c -> is_space c = false).
Proof.
  unfold Index.validateInput.
  destruct (truthy input); cbn [negb]; [|discriminate].
  cbn [String.eqb Ascii.eqb Bool.eqb andb].
  destruct input as [| |b|x|s0|xs]; try discriminate.
  destruct (Nat.leb_spec (String.length s0) maxLength) as [Hle|Hgt];
    [|discriminate].
  intros [= <-]. exists s0. repeat split; auto.
  - pose proof (trim_length s0). lia.
  - intros c Hc. unfold trim in Hc.
    apply trimEnd_first in Hc. now apply trimStart_first in Hc.
  - intros c Hc. unfold trim in Hc. now apply trimEnd_last in Hc.
Qed.

Lemma validated_truthy_acceptable (input : jsval) (maxLength : nat) :
  validated_truthy
    (Index.validateInput parseFloat Date_getTime input "string" maxLength)
  = acceptable input maxLength.
Proof.
  unfold Index.validateInput, acceptable.
  destruct input as [| |b|x|s0|xs]; cbn [truthy negb validated_truthy];
    try reflexivity.
  - destruct b; reflexivity.
  - destruct (negb _); reflexivity.
  - destruct (String.eqb_spec s0 "") as [->|Hne]; cbn [negb].
    + reflexivity.
    + cbn [String.eqb Ascii.eqb Bool.eqb andb].
      destruct (Nat.leb (String.length s0) maxLength); cbn [andb];
        [|reflexivity].
      cbn [validated_truthy truthy].
      destruct (blank s0) eqn:Hb.
      * apply trim_blank in Hb. now rewrite Hb.
      * destruct (String.eqb_spec (trim s0) "") as [He|He]; [|reflexivity].
        apply trim_blank in He. congruence.
Qed.

(** X1.  A string that [validateInput] lets through is the trimmed
    input: it came from a string of at most [maxLength] characters, is
    itself no longer than [maxLength], and neither starts nor ends with
    white space. *)
Theorem validateInput_string_trimmed_and_bounded (input : jsval)
  (maxLength : nat) (s : string) :
  Index.validateInput parseFloat Date_getTime input "string" maxLength
  = VString s ->
  exists s0,
    input = JStr s0
    /\ s = trim s0
    /\ (String.length s0 <= maxLength)%nat
    /\ (String.length s <= maxLength)%nat
    /\ (forall c, first_char s = Some c -> is_space c = false)
    /\ (forall c, last_char s = Some c -> is_space c = false).
Proof. apply validateInput_string_inv. Qed.

(** X2.  A caller that tests [!validateInput(input, "string", max)]
    accepts exactly the strings of at most [max] characters that are not
    blank: other types, the empty string, a string of white space only,
    and a string longer than [max] (even if its trimmed form would fit)
    are all refused. *)
Theorem validateInput_accepts_exactly (input : jsval) (maxLength : nat) :
  validated_truthy
    (Index.validateInput parseFloat Date_getTime input "string" maxLength)
  = acceptable input maxLength.
Proof. apply validated_truthy_acceptable. Qed.

(** X3.  Validating a value that has been validated changes nothing:
    [validateInput] is idempotent on what it accepts. *)
Theorem validateInput_idempotent (input : jsval) (maxLength : nat) :
  validated_truthy
    (Index.validateInput parseFloat Date_getTime input "string" maxLength)
  = true ->
  Index.validateInput parseFloat Date_getTime
    (bound (Index.validateInput parseFloat Date_getTime input "string"
              maxLength))
    "string" maxLength
  = Index.validateInput parseFloat Date_getTime input "string" maxLength.
Proof.
  intros Ht.
  destruct (Index.validateInput parseFloat Date_getTime input "string"
              maxLength) as [|s|x|t] eqn:E;
    try (unfold Index.validateInput in E;
         destruct (negb (truthy input)); [discriminate|];
         cbn [String.eqb Ascii.eqb Bool.eqb andb] in E;
         destruct input; try discriminate;
         destruct (Nat.leb _ _); discriminate).
  destruct (validateInput_string_inv E)
    as (s0 & -> & -> & Hle0 & Hle & _).
  cbn [bound validated_truthy] in *.
  unfold Index.validateInput. rewrite Ht. cbn [negb].
  cbn [String.eqb Ascii.eqb Bool.eqb andb].
  apply Nat.leb_le in Hle. rewrite Hle. now rewrite trim_idempotent.
Qed.

End ValidateInput.

Lemma validateInput_idempotent_witness :
  Index.validateInput parseFloat_plain parseFloat_plain
    (bound (Index.validateInput parseFloat_plain parseFloat_plain
              (JStr "  alice ") "string" 50))
    "string" 50
  = Index.validateInput parseFloat_plain parseFloat_plain
      (JStr "  alice ") "string" 50.
Proof.
  apply (@validateInput_idempotent parseFloat_plain parseFloat_plain
           (JStr "  alice ") 50).
  reflexivity.
Defined.

Lemma validateInput_string_trimmed_and_bounded_witness :
  exists s0,
    JStr "  alice " = JStr s0
    /\ "alice" = trim s0
    /\ (String.length s0 <= 50)%nat
    /\ (String.length "alice" <= 50)%nat
    /\ (forall c, first_char "alice" = Some c -> is_space c = false)
    /\ (forall c, last_char "alice" = Some c -> is_space c = false).
Proof.
  apply (@validateInput_string_trimmed_and_bounded parseFloat_plain
           parseFloat_plain (JStr "  alice ") 50 "alice").
  reflexivity.
Defined.

(** ** POST /api/login of index.js *)

(** Case analysis on what the driver answers, as far as the call reads. *)
Section Login.
Variables (parseFloat Date_getTime : jsval -> float).

Lemma validateInput_string_cases (input : jsval) (maxLength : nat) :
  Index.validateInput parseFloat Date_getTime input "string" maxLength = VNull
  \/ exists s,
       Index.validateInput parseFloat Date_getTime input "string" maxLength
       = VString s
       /\ (String.length s <= maxLength)%nat.
Proof.
  destruct (Index.validateInput parseFloat Date_getTime input "string"
              maxLength) as [|s|x|t] eqn:E; auto.
  - right. exists s. split; [reflexivity|].
    now destruct (validateInput_string_inv E)
      as (s0 & _ & _ & _ & H & _).
  - unfold Index.validateInput in E.
    destruct (negb (truthy input)); [discriminate|].
    cbn [String.eqb Ascii.eqb Bool.eqb andb] in E.
    destruct input; try discriminate. destruct (Nat.leb _ _); discriminate.
  - unfold Index.validateInput in E.
    destruct (negb (truthy input)); [discriminate|].
    cbn [String.eqb Ascii.eqb Bool.eqb andb] in E.
    destruct input; try discriminate. destruct (Nat.leb _ _); discriminate.
Qed.

(** X4.  Whatever the request and whatever the database answers, a row
    that POST /api/login sends back carries no [User_Password]: the only
    row object it writes is the first row of the result with that column
    removed, with status 200. *)
Theorem login_never_returns_password (req : request) (g : option handle)
  (rs : list reply) (code : nat) (o : gmap string jsval) :
  run_outcome (exec (Index.login parseFloat Date_getTime req) g rs)
  = Some (Returned (Object code o)) ->
  code = 200%nat /\ o !! "User_Password" = None.
Proof.
  unfold Index.login.
  destruct (_ || _); [discriminate|].
  generalize (bound (Index.validateInput parseFloat Date_getTime
                       (prop (body req) "username") "string" 50)).
  generalize (bound (Index.validateInput parseFloat Date_getTime
                       (prop (body req) "password") "string" 100)).
  intros vp vu H.
  destruct g as [h|]; read_replies_in H; try discriminate;
    injection H as <- <-; (split; [reflexivity | apply lookup_delete_eq]).
Qed.

(** X5.  POST /api/login answers 400 without touching the database
    exactly when the user name is not an acceptable string of at most 50
    characters or the password not one of at most 100; otherwise its
    first act is a database call. *)
Theorem login_validates_before_database (req : request) (g : option handle)
  (rs : list reply) :
  (acceptable (prop (body req) "username") 50
   && acceptable (prop (body req) "password") 100 = false ->
   exec (Index.login parseFloat Date_getTime req) g rs
   = Run (Some (Returned (Json (Response 400 (JObject
            (message "Valid username and password are required"))))))
         g [] rs)
  /\ (acceptable (prop (body req) "username") 50
      && acceptable (prop (body req) "password") 100 = true ->
      no_database_call
        (run_trace (exec (Index.login parseFloat Date_getTime req) g rs))
      = false).
Proof.
  unfold Index.login.
  rewrite <- !(validated_truthy_acceptable parseFloat Date_getTime).
  rewrite <- negb_andb.
  split; intros ->; cbn [negb]; [reflexivity|].
  apply acquire_calls_database.
Qed.

(** X6.  A user name and password that match no row: the first query
    comes back empty, the handler looks the user name up once more (for
    its log only) and answers 401 "Invalid username or password",
    whether or not that user exists.  Both statements carry the trimmed
    credentials. *)
Theorem login_wrong_password_unauthorized (req : request)
  (g g' : option handle) (rs rs' : list reply) (h : handle)
  (tr : list effect) (u p : string) (found : list (gmap string jsval)) :
  Index.validateInput parseFloat Date_getTime (prop (body req) "username")
    "string" 50 = VString u ->
  Index.validateInput parseFloat Date_getTime (prop (body req) "password")
    "string" 100 = VString p ->
  u <> EmptyString -> p <> EmptyString ->
  exec Index.getDbConnection g rs
  = Run (Some (Returned (Some h))) g' tr
        (fine (Some []) :: fine (Some found) :: rs') ->
  exec (Index.login parseFloat Date_getTime req) g rs
  = Run (Some (Returned (Json (Response 401 (JObject
           (message "Invalid username or password"))))))
        g'
        (tr ++
         [PoolRequest h
            (DbRequest
               [SqlInput "username" (VarChar (Some 50%nat)) (JStr u);
                SqlInput "password" (VarChar (Some 100%nat)) (JStr p)]
               (Query "SELECT User_Name, User_Password, User_ID FROM Tbl_UserMaster WHERE User_Name = @username AND User_Password = @password"));
          PoolRequest h
            (DbRequest
               [SqlInput "username" (VarChar (Some 50%nat)) (JStr u)]
               (Query "SELECT User_Name, User_Password FROM Tbl_UserMaster WHERE User_Name = @username"))])
        rs'.
Proof.
  intros Eu Ep Hu Hp Hacq. unfold Index.login. rewrite Eu, Ep.
  cbn [validated_truthy bound].
  apply truthy_string in Hu, Hp. rewrite Hu, Hp. cbn [negb orb].
  rewrite exec_try_catch, exec_bind, Hacq. reflexivity.
Qed.

End Login.

(** X6 on a live pool, for the credentials alice / wrong. *)
Lemma login_wrong_password_unauthorized_witness :
  exec (Index.login parseFloat_plain parseFloat_plain
          (bare_request (<["username" := JStr "alice"]>
                           (<["password" := JStr "wrong"]> ∅))))
    (Some 1%nat)
    [fine (Some []); fine (Some []); fine (Some [user_row "alice" "correct"])]
  = Run (Some (Returned (Json (Response 401 (JObject
           (message "Invalid username or password"))))))
        (Some 1%nat)
        ([PoolRequest 1 probe] ++
         [PoolRequest 1
            (DbRequest
               [SqlInput "username" (VarChar (Some 50%nat)) (JStr "alice");
                SqlInput "password" (VarChar (Some 100%nat)) (JStr "wrong")]
               (Query "SELECT User_Name, User_Password, User_ID FROM Tbl_UserMaster WHERE User_Name = @username AND User_Password = @password"));
          PoolRequest 1
            (DbRequest
               [SqlInput "username" (VarChar (Some 50%nat)) (JStr "alice")]
               (Query "SELECT User_Name, User_Password FROM Tbl_UserMaster WHERE User_Name = @username"))])
        [].
Proof.
  refine (@login_wrong_password_unauthorized parseFloat_plain parseFloat_plain
            (bare_request (<["username" := JStr "alice"]>
                             (<["password" := JStr "wrong"]> ∅)))
            (Some 1%nat) (Some 1%nat) _ [] 1%nat [PoolRequest 1 probe]
            "alice" "wrong" [user_row "alice" "correct"] _ _ _ _ _);
    first [reflexivity | discriminate].
Defined.

(** X5 on a user name of white space only, and on alice / wrong. *)
Lemma login_validates_before_database_witness :
  exec (Index.login parseFloat_plain parseFloat_plain
          (bare_request (<["username" := JStr "   "]>
                           (<["password" := JStr "wrong"]> ∅))))
    None []
  = Run (Some (Returned (Json (Response 400 (JObject
           (message "Valid username and password are required"))))))
        None [] []
  /\ no_database_call
       (run_trace
          (exec (Index.login parseFloat_plain parseFloat_plain
                   (bare_request (<["username" := JStr "alice"]>
                                    (<["password" := JStr "wrong"]> ∅))))
             None [])) = false.
Proof.
  split.
  - apply (proj1 (@login_validates_before_database parseFloat_plain
                    parseFloat_plain
                    (bare_request (<["username" := JStr "   "]>
                                     (<["password" := JStr "wrong"]> ∅)))
                    None [])).
    reflexivity.
  - apply (proj2 (@login_validates_before_database parseFloat_plain
                    parseFloat_plain
                    (bare_request (<["username" := JStr "alice"]>
                                     (<["password" := JStr "wrong"]> ∅)))
                    None [])).
    reflexivity.
Defined.

(** X4 on a live pool and a matching row. *)
Lemma login_never_returns_password_witness :
  200%nat = 200%nat
  /\ delete "User_Password" (user_row "alice" "correct") !! "User_Password"
     = None.
Proof.
  apply (@login_never_returns_password parseFloat_plain parseFloat_plain
           (bare_request (<["username" := JStr "alice"]>
                            (<["password" := JStr "correct"]> ∅)))
           (Some 1%nat)
           [fine (Some []); fine (Some [user_row "alice" "correct"])]).
  reflexivity.
Defined.

(** ** The validated report routes of index.js *)

Section Reports.
Variables (parseFloat Date_getTime : jsval -> float).


(** X8.  Every statement that POST /api/login, /api/userright-transfer
    and /api/schemes send binds strings that fit the [VarChar] length
    declared for them, on every run: what [validateInput] bounded at 50,
    100, 10 and 20 characters is bound to columns of those sizes. *)
Theorem validated_inputs_fit_their_columns (req : request)
  (g : option handle) (rs : list reply) :
  inputs_fit (run_trace (exec (Index.login parseFloat Date_getTime req) g rs))
  = true
  /\ inputs_fit
       (run_trace
          (exec (Index.userright_transfer parseFloat Date_getTime req) g rs))
     = true
  /\ inputs_fit
       (run_trace (exec (Index.schemes parseFloat Date_getTime req) g rs))
     = true.
Proof.
  unfold Index.login, Index.userright_transfer, Index.schemes.
  repeat apply conj.
  - destruct (validateInput_string_cases parseFloat Date_getTime
                (prop (body req) "username") 50) as [->|(u & -> & Hu)];
      [reflexivity|].
    destruct (validateInput_string_cases parseFloat Date_getTime
                (prop (body req) "password") 100) as [->|(p & -> & Hp)];
      [cbn; now rewrite orb_true_r|].
    cbn [validated_truthy bound]. destruct (_ || _); [reflexivity|].
    apply Nat.leb_le in Hu, Hp.
    destruct g as [h|]; read_replies; rewrite ?Hu, ?Hp; reflexivity.
  - destruct (validateInput_string_cases parseFloat Date_getTime
                (prop (body req) "user") 10) as [->|(u & -> & Hu)];
      [reflexivity|].
    cbn [validated_truthy bound]. destruct (negb (truthy (JStr u)));
      [reflexivity|].
    destruct (validateInput_string_cases parseFloat Date_getTime
                (prop (body req) "fromDate") 20) as [->|(f & -> & Hf)];
      [reflexivity|].
    destruct (validateInput_string_cases parseFloat Date_getTime
                (prop (body req) "toDate") 20) as [->|(t & -> & Ht)];
      [cbn; now rewrite orb_true_r|].
    cbn [validated_truthy bound]. destruct (_ || _); [reflexivity|].
    apply Nat.leb_le in Hu, Hf, Ht.
    destruct g as [h|]; read_replies; rewrite ?Hu, ?Hf, ?Ht; reflexivity.
  - destruct (validateInput_string_cases parseFloat Date_getTime
                (prop (body req) "section") 50) as [->|(s & -> & Hs)];
      [reflexivity|].
    cbn [validated_truthy bound]. destruct (negb (truthy (JStr s)));
      [reflexivity|].
    apply Nat.leb_le in Hs.
    destruct g as [h|]; read_replies; rewrite ?Hs; reflexivity.
Qed.

End Reports.

(** ** Middleware *)

(** A request carries no token that verifies at [now]. *)
Lemma authenticate_blocks (env : gmap string string) (req : request)
  (now : Z) :
  (forall p,
      Auth.bearer (authorization req)
      = Some (Jws p (HS256 (Auth.JWT_SECRET env) p)) ->
      pl_exp p <= now) ->
  exists r,
    Auth.authenticateToken env req now = Respond r
    /\ (status r = 401%nat \/ status r = 403%nat).
Proof.
  intros Hbad. unfold Auth.authenticateToken.
  destruct (Auth.bearer (authorization req)) as [t|] eqn:Eb;
    [|eexists; split; [reflexivity | now left]].
  destruct (Auth.token_missing (Some t)) eqn:Em;
    [eexists; split; [reflexivity | now left]|].
  rewrite verify_rejects.
  - eexists; split; [reflexivity | now right].
  - intros p ->. now apply Hbad.
Qed.

Lemma authenticate_ignores_user (env : gmap string string) (req : request)
  (now : Z) (u : principal) (r : response) :
  Auth.authenticateToken env req now = Respond r ->
  Auth.authenticateToken env (set_user req u) now = Respond r.
Proof.
  unfold Auth.authenticateToken. cbn [authorization set_user].
  destruct (Auth.bearer (authorization req)) as [t|]; [|auto].
  destruct (Auth.token_missing (Some t)); [auto|].
  destruct (Auth.verifyToken env t now); [discriminate | auto].
Qed.

Lemma authenticate_passes (env : gmap string string) (req : request)
  (now : Z) (p : jwt_payload) :
  Auth.bearer (authorization req)
  = Some (Jws p (HS256 (Auth.JWT_SECRET env) p)) ->
  now < pl_exp p ->
  Auth.authenticateToken env req now = Next (set_user req (Decoded p)).
Proof.
  intros Hb Hlive. unfold Auth.authenticateToken. rewrite Hb.
  cbn [Auth.token_missing].
  unfold Auth.verifyToken, Auth.jwt_verify.
  destruct (decide _) as [_|Hne]; [|congruence].
  apply Z.leb_gt in Hlive. now rewrite Hlive.
Qed.

(** X9.  A route that has [authenticateToken] among its middleware never
    runs its handler for a request without a token that verifies: the
    answer is the 401 or 403 of the middleware, nothing is sent to the
    database and [globalPool] is left as it was.  With a token that
    verifies, a route guarded by [authenticateToken] alone runs its
    handler on the request with the decoded payload as [req.user]. *)
Theorem guarded_route_stops_unverified_requests (env : gmap string string)
  (now : Z) (r : route) (req : request) (g : option handle)
  (rs : list reply) :
  In AuthenticateToken (rt_guards r) ->
  ((forall p,
       Auth.bearer (authorization req)
       = Some (Jws p (HS256 (Auth.JWT_SECRET env) p)) ->
       pl_exp p <= now) ->
   exists answer,
     exec (serve env now r req) g rs
     = Run (Some (Returned answer)) g [] rs
     /\ (status answer = 401%nat \/ status answer = 403%nat))
  /\ (forall p,
        rt_guards r = [AuthenticateToken] ->
        Auth.bearer (authorization req)
        = Some (Jws p (HS256 (Auth.JWT_SECRET env) p)) ->
        now < pl_exp p ->
        serve env now r req = rt_handler r (set_user req (Decoded p))).
Proof.
  intros Hin. split.
  - intros Hbad. destruct (authenticate_blocks Hbad) as (a & Ha & Hs).
    exists a. split; [|exact Hs].
    unfold serve. clear Hbad. revert req Ha.
    induction (rt_guards r) as [|gd gs IH]; [destruct Hin|].
    intros req Ha. cbn [through].
    destruct gd; cbn [run_guard].
    + now rewrite Ha.
    + unfold Auth.optionalAuthForReports.
      destruct Hin as [Hin|Hin]; [discriminate|].
      apply IH; [exact Hin|]. now apply authenticate_ignores_user.
  - intros p Hg Hb Hlive. unfold serve. rewrite Hg.
    cbn [through run_guard].
    now rewrite (authenticate_passes Hb Hlive).
Qed.

(** X10.  [authenticateToken] followed by [requireRole(allowedRoles)]:
    a request without a token that verifies gets the 401 or 403 of the
    first; a request whose token verifies passes exactly when the role in
    the token is one of [allowedRoles], and is answered 403 "Insufficient
    permissions" otherwise, for instance whenever the list is empty. *)
Theorem token_then_role (env : gmap string string) (req : request)
  (now : Z) (allowedRoles : list string) :
  ((forall p,
       Auth.bearer (authorization req)
       = Some (Jws p (HS256 (Auth.JWT_SECRET env) p)) ->
       pl_exp p <= now) ->
   exists r,
     Auth.and_then (Auth.authenticateToken env req now)
       (Auth.requireRole allowedRoles) = Respond r
     /\ (status r = 401%nat \/ status r = 403%nat))
  /\ (forall p,
        Auth.bearer (authorization req)
        = Some (Jws p (HS256 (Auth.JWT_SECRET env) p)) ->
        now < pl_exp p ->
        (In (role (pl_claims p)) allowedRoles ->
         Auth.and_then (Auth.authenticateToken env req now)
           (Auth.requireRole allowedRoles)
         = Next (set_user req (Decoded p)))
        /\ (~ In (role (pl_claims p)) allowedRoles ->
            Auth.and_then (Auth.authenticateToken env req now)
              (Auth.requireRole allowedRoles)
            = Respond (Response 403 (JObject
                [("success", jbool false);
                 ("message", jstr "Insufficient permissions")])))).
Proof.
  split.
  - intros Hbad. destruct (authenticate_blocks Hbad) as (r & -> & Hs).
    now exists r.
  - intros p Hb Hlive. rewrite (authenticate_passes Hb Hlive).
    cbn [Auth.and_then]. unfold Auth.requireRole.
    cbn [user set_user Auth.principal_claims].
    destruct (existsb _ allowedRoles) eqn:E; cbn [negb]; split; intros H;
      try reflexivity.
    + exfalso. apply H. apply existsb_exists in E as (x & Hin & Hx).
      apply String.eqb_eq in Hx. now subst.
    + exfalso. apply not_true_iff_false in E. apply E.
      apply existsb_exists. exists (role (pl_claims p)).
      split; [exact H | apply String.eqb_refl].
Qed.

(** X11.  [optionalAuthForReports] followed by [requireRole]: whatever
    the request carries, it passes as the system identity when "admin" is
    among the allowed roles and is answered 403 when it is not; a role
    check behind the bypass depends on the list alone. *)
Theorem bypass_then_role (req : request) (allowedRoles : list string) :
  (In "admin" allowedRoles ->
   Auth.and_then (Auth.optionalAuthForReports req)
     (Auth.requireRole allowedRoles)
   = Next (set_user req system_identity))
  /\ (~ In "admin" allowedRoles ->
      Auth.and_then (Auth.optionalAuthForReports req)
        (Auth.requireRole allowedRoles)
      = Respond (Response 403 (JObject
          [("success", jbool false);
           ("message", jstr "Insufficient permissions")]))).
Proof.
  unfold Auth.optionalAuthForReports. cbn [Auth.and_then].
  unfold Auth.requireRole.
  cbn [user set_user Auth.principal_claims role system_identity].
  destruct (existsb _ allowedRoles) eqn:E; cbn [negb]; split; intros H;
    try reflexivity.
  - exfalso. apply H. apply existsb_exists in E as (x & Hin & Hx).
    apply String.eqb_eq in Hx. now subst.
  - exfalso. apply not_true_iff_false in E. apply E.
    apply existsb_exists. exists "admin". split; [exact H | reflexivity].
Qed.

(** X12.  [optionalAuth] never answers: it calls [next()] on the request
    [authenticateToken] would pass on when the token verifies, and on the
    request unchanged when [authenticateToken] would refuse it; so behind
    it, [requireRole] answers 401 to a request that came without a user
    and without a token that verifies. *)
Theorem optional_auth_never_blocks (env : gmap string string)
  (req : request) (now : Z) :
  (exists req',
      Auth.optionalAuth env req now = Next req'
      /\ (Auth.authenticateToken env req now = Next req'
          \/ (req' = req
              /\ exists r, Auth.authenticateToken env req now = Respond r)))
  /\ (forall allowedRoles,
        user req = None ->
        (forall p,
            Auth.bearer (authorization req)
            = Some (Jws p (HS256 (Auth.JWT_SECRET env) p)) ->
            pl_exp p <= now) ->
        Auth.and_then (Auth.optionalAuth env req now)
          (Auth.requireRole allowedRoles)
        = Respond (Response 401 (JObject
            [("success", jbool false);
             ("message", jstr "Authentication required")]))).
Proof.
  split.
  - unfold Auth.optionalAuth, Auth.authenticateToken.
    destruct (Auth.bearer (authorization req)) as [t|];
      [|exists req; split; [reflexivity | right; eauto]].
    destruct (Auth.token_missing (Some t));
      [exists req; split; [reflexivity | right; eauto]|].
    destruct (Auth.verifyToken env t now) as [p|e];
      [eexists; split; [reflexivity | now left]|].
    exists req; split; [reflexivity | right; eauto].
  - intros allowedRoles Hu Hbad.
    assert (E : Auth.optionalAuth env req now = Next req).
    { unfold Auth.optionalAuth.
      destruct (Auth.bearer (authorization req)) as [t|] eqn:Eb;
        [|reflexivity].
      destruct (Auth.token_missing (Some t)); [reflexivity|].
      rewrite verify_rejects; [reflexivity|].
      intros p ->. now apply Hbad. }
    rewrite E. cbn [Auth.and_then]. unfold Auth.requireRole. now rewrite Hu.
Qed.

(** ** Connection manager, further *)

(** X13.  What a call of [getDbConnection] leaves behind when it runs
    alone, that is with no other call and no pool "error" event between
    its statements, in both servers and whatever the driver answers: if it
    returns, it returns the handle that [globalPool] then holds; if it
    throws, [globalPool] is empty; it never ends the process.  A call that
    found no handle throws the one error "Database connection not
    available" whatever the driver said.  (With other callers or pool
    events in between, index.js can return [null], as shown below.) *)
Theorem acquire_postcondition (g : option handle) (rs : list reply) :
  match run_outcome (exec Index.getDbConnection g rs) with
  | Some (Returned x) =>
      exists h, x = Some h
                /\ run_pool (exec Index.getDbConnection g rs) = Some h
  | Some (Threw e) =>
      run_pool (exec Index.getDbConnection g rs) = None
      /\ match g with
         | None => e = new_Error "Database connection not available"
         | Some _ => True
         end
  | Some (Exited _) => False
  | None => True
  end
  /\ match run_outcome (exec Server.getDbConnection g rs) with
     | Some (Returned x) =>
         exists h, x = Some h
                   /\ run_pool (exec Server.getDbConnection g rs) = Some h
     | Some (Threw e) =>
         run_pool (exec Server.getDbConnection g rs) = None
         /\ e = new_Error "Database connection not available"
     | Some (Exited _) => False
     | None => True
     end.
Proof.
  split.
  - destruct g as [h|]; read_replies; eauto.
  - destruct g as [h|]; read_replies; eauto.
Qed.

(** X14.  One call of [getDbConnection] never retries: on every run it
    issues at most one [sql.connect] and, in index.js, at most two probe
    queries (one on the handle it found, one on the handle it made);
    server.js sends no statement at all. *)
Theorem acquire_never_retries (g : option handle) (rs : list reply) :
  (connect_attempts (run_trace (exec Index.getDbConnection g rs)) <= 1)%nat
  /\ (request_count (run_trace (exec Index.getDbConnection g rs)) <= 2)%nat
  /\ (connect_attempts (run_trace (exec Server.getDbConnection g rs)) <= 1)%nat
  /\ request_count (run_trace (exec Server.getDbConnection g rs)) = 0%nat.
Proof.
  repeat apply conj; destruct g as [h|]; read_replies;
    unfold connect_attempts, request_count; cbn; lia.
Qed.

(** X15.  [getDbConnection] can hand out [null].  A caller connects from
    a cold start and its pool emits "error" while the test query is in
    flight: the listener empties [globalPool], the query still succeeds,
    and the call returns the variable as it now is.  A handler in that
    position fails on [pool.request()] and answers 500. *)
Theorem acquire_may_return_null (h : handle) (rows : recordset)
  (req : request) :
  List.map finished <$>
    (@sys_tasks (option handle) <$>
       run_events cold
         [Call Index.getDbConnection;
          Settle 0 (Connected (Fulfilled h));
          PoolError h;
          Settle 0 (fine rows)])
  = Some [Some (Returned None)]
  /\ List.map finished <$>
       (@sys_tasks response <$>
          run_events cold
            [Call (Index.users req);
             Settle 0 (Connected (Fulfilled h));
             PoolError h;
             Settle 0 (fine rows)])
     = Some [Some (Returned (Response 500 (JObject
               (message "Failed to fetch users list from database."))))].
Proof.
  split; cbn; rewrite Nat.eqb_refl; reflexivity.
Qed.

(** *** Callers interleaved on the event loop *)

Lemma advance_ends {A : Type} (post : outcome A -> option handle -> Prop)
  (p : prog A) :
  forall g, always_ends post p g ->
            task_ends post (advance p g).1.1 (advance p g).1.2.
Proof.
  induction p as [a|e|c|k IH|g' k IH|h k IH|port k IH|k IH|h r k IH];
    intros g Hp; cbn in *; auto.
  - specialize (IH g Hp). now destruct (advance k g) as [[t g1] tr].
  - specialize (IH g Hp). now destruct (advance k g) as [[t g1] tr].
Qed.

Lemma resume_ends {A : Type} (post : outcome A -> option handle -> Prop)
  (t : task A) (r : reply) (p : prog A) (g : option handle) :
  waiting_ends post t -> resume t r = Some p -> always_ends post p g.
Proof.
  destruct t as [k|k|o], r as [x|x]; cbn; intros Ht [= <-]; apply Ht.
Qed.

Lemma task_ends_waiting {A : Type}
  (post : outcome A -> option handle -> Prop) (t : task A)
  (g : option handle) :
  task_ends post t g -> waiting_ends post t.
Proof. destruct t; cbn; auto. Qed.

Lemma step_ends {A : Type} (post : outcome A -> option handle -> Prop)
  (s s' : sys A) (ev : event A) :
  Forall (waiting_ends post) (sys_tasks s) ->
  (forall p, ev = Call p -> forall g, always_ends post p g) ->
  step s ev = Some s' ->
  Forall (waiting_ends post) (sys_tasks s')
  /\ forall i o,
       sys_tasks s' !! i = Some (Done o) ->
       sys_tasks s !! i <> Some (Done o) ->
       post o (sys_pool s').
Proof.
  intros Hs Hev Hstep. destruct ev as [p|j r|h]; cbn in Hstep.
  - pose proof (@advance_ends _ post p (sys_pool s) (Hev p eq_refl _)) as Ht.
    destruct (advance p (sys_pool s)) as [[t g] tr]. cbn in Ht.
    injection Hstep as <-. cbn. split.
    + apply Forall_app. split; [exact Hs|].
      constructor; [|constructor]. now apply task_ends_waiting with g.
    + intros i o Hi Hne. apply lookup_app_Some in Hi.
      destruct Hi as [Hi | [_ Hi]]; [contradiction|].
      apply list_lookup_singleton_Some in Hi. destruct Hi as [_ ->].
      exact Ht.
  - destruct (sys_tasks s !! j) as [t|] eqn:Ej; [|discriminate].
    destruct (resume t r) as [p|] eqn:Er; [|discriminate].
    assert (Hp : always_ends post p (sys_pool s)).
    { apply resume_ends with t r; [|exact Er].
      exact (proj1 (Forall_lookup _ _) Hs j t Ej). }
    pose proof (@advance_ends _ post p (sys_pool s) Hp) as Ht.
    destruct (advance p (sys_pool s)) as [[t' g] tr]. cbn in Ht.
    injection Hstep as <-. cbn. split.
    + apply Forall_insert; [exact Hs|]. now apply task_ends_waiting with g.
    + intros i o Hi Hne. destruct (decide (i = j)) as [->|Hij].
      * rewrite list_lookup_insert_eq in Hi
          by (now apply lookup_lt_Some with t).
        injection Hi as ->. exact Ht.
      * rewrite list_lookup_insert_ne in Hi by congruence. contradiction.
  - destruct (has_handler h (sys_log s)); [|discriminate].
    injection Hstep as <-. cbn. split; [exact Hs|].
    intros i o Hi Hne. contradiction.
Qed.

Lemma run_events_ends {A : Type} (post : outcome A -> option handle -> Prop)
  (p : prog A) (evs : list (event A)) :
  (forall g, always_ends post p g) ->
  forall s s',
    Forall (waiting_ends post) (sys_tasks s) ->
    calls_only p evs ->
    run_events s evs = Some s' ->
    Forall (waiting_ends post) (sys_tasks s').
Proof.
  intros Hp. induction evs as [|ev evs IH]; intros s s' Hs Hc Hrun.
  - injection Hrun as <-. exact Hs.
  - cbn in Hrun. destruct (step s ev) as [s1|] eqn:E; [|discriminate].
    apply Forall_cons in Hc. destruct Hc as [Hev Hc].
    apply (IH s1 s'); [|exact Hc|exact Hrun].
    refine (proj1 (@step_ends _ post s s1 ev Hs _ E)).
    intros q ->. now subst q.
Qed.

Lemma every_run_ends {A : Type} (post : outcome A -> option handle -> Prop)
  (p : prog A) (evs : list (event A)) (ev : event A) (s0 s s' : sys A)
  (i : nat) (o : outcome A) :
  (forall g, always_ends post p g) ->
  calls_only p (evs ++ [ev]) ->
  sys_tasks s0 = [] ->
  run_events s0 evs = Some s ->
  step s ev = Some s' ->
  sys_tasks s' !! i = Some (Done o) ->
  sys_tasks s !! i <> Some (Done o) ->
  post o (sys_pool s').
Proof.
  intros Hp Hc H0 Hrun Hstep Hi Hne.
  apply Forall_app in Hc. destruct Hc as [Hc Hev].
  apply Forall_cons in Hev. destruct Hev as [Hev _].
  assert (Hs : Forall (waiting_ends post) (sys_tasks s)).
  { apply (@run_events_ends _ post p evs Hp s0 s);
      [rewrite H0; constructor | exact Hc | exact Hrun]. }
  refine (proj2 (@step_ends _ post s s' ev Hs _ Hstep) i o Hi Hne).
  intros q ->. now subst q.
Qed.

Lemma index_acquire_always_ends (g : option handle) :
  always_ends gave_globalPool Index.getDbConnection g.
Proof.
  destruct g as [h|]; cbn.
  - intros [rows|e] g'; cbn; [reflexivity|].
    intros [h'|e'] g''; cbn; [|reflexivity].
    intros [rows|e''] g3; cbn; reflexivity.
  - intros [h|e] g'; cbn; [|reflexivity].
    intros [rows|e'] g''; cbn; reflexivity.
Qed.

Lemma server_acquire_always_ends (g : option handle) :
  always_ends gave_handle Server.getDbConnection g.
Proof.
  destruct g as [h|]; cbn; [eauto|].
  intros [h|e] g'; cbn; eauto.
Qed.

(** X28.  [getDbConnection] on every run of the event loop: starting
    with no call under way, from any [globalPool] (empty, or the handle
    of the start-up), any number of callers, whatever the driver answers
    and in whatever order, and (in index.js) pool "error" events in
    between.  When a call of index.js ends, what it returns is what
    [globalPool] holds at that moment, which may be [null], and when it
    throws [globalPool] is empty.  A call of server.js returns a handle,
    the one [globalPool] holds at that moment, or throws "Database
    connection not available" with [globalPool] empty.  Neither ends the
    process. *)
Theorem acquire_on_every_run (evs : list (event (option handle)))
  (ev : event (option handle)) (s0 s s' : sys (option handle)) (i : nat)
  (o : outcome (option handle)) :
  sys_tasks s0 = [] ->
  run_events s0 evs = Some s ->
  step s ev = Some s' ->
  sys_tasks s' !! i = Some (Done o) ->
  sys_tasks s !! i <> Some (Done o) ->
  (calls_only Index.getDbConnection (evs ++ [ev]) ->
   gave_globalPool o (sys_pool s'))
  /\ (calls_only Server.getDbConnection (evs ++ [ev]) ->
      gave_handle o (sys_pool s')).
Proof.
  intros H0 Hrun Hstep Hi Hne. split; intros Hc.
  - exact (@every_run_ends _ gave_globalPool Index.getDbConnection evs ev
             s0 s s' i o index_acquire_always_ends Hc H0 Hrun Hstep Hi Hne).
  - exact (@every_run_ends _ gave_handle Server.getDbConnection evs ev
             s0 s s' i o server_acquire_always_ends Hc H0 Hrun Hstep Hi Hne).
Qed.

(** X28 on two callers at cold start, the second refused while the test
    query of the first is in flight: the first returns [null], which is
    what [globalPool] then holds. *)
Lemma acquire_on_every_run_witness :
  exists s',
    run_events cold (second_caller_refused ++ [Settle 0 (fine (Some []))])
    = Some s'
    /\ sys_tasks s' !! 0%nat = Some (Done (Returned None))
    /\ gave_globalPool (Returned None) (sys_pool s').
Proof.
  eexists. split; [reflexivity|]. split; [reflexivity|].
  refine (proj1 (@acquire_on_every_run second_caller_refused
                   (Settle 0 (fine (Some []))) cold _ _ 0 (Returned None)
                   eq_refl eq_refl eq_refl eq_refl _) _).
  - discriminate.
  - repeat constructor.
Defined.

(** ** Tokens across the routes *)

(** X16.  [verifyToken] hands on the payload [jwt.verify] returns under
    the configured secret, and whatever [jwt.verify] throws it replaces by
    the one error "Invalid or expired token".  The cause of a refusal
    therefore never reaches a client: every 403 of [authenticateToken] is
    the same document, whatever the request, and so is every 403 of
    [refreshAccessToken] when the configured lifetime is one [jwt.sign]
    can read. *)
Theorem verifyToken_hides_cause (env : gmap string string) (t : token)
  (now : Z) :
  (forall p,
      Auth.verifyToken env t now = Fulfilled p
      <-> Auth.jwt_verify t (Auth.JWT_SECRET env) now = Fulfilled p)
  /\ (forall e,
        Auth.verifyToken env t now = Rejected e ->
        e = new_Error "Invalid or expired token")
  /\ (forall req resp,
        Auth.authenticateToken env req now = Respond resp ->
        status resp = 403%nat ->
        Auth.authenticateToken env req now
        = Respond (Response 403 (JObject
            [("success", jbool false);
             ("message", jstr "Invalid or expired token");
             ("error", jstr "Invalid or expired token")])))
  /\ (forall req millis,
        Auth.ms (Auth.JWT_EXPIRES_IN env) = Some millis ->
        status (Auth.refreshAccessToken env req now) = 403%nat ->
        Auth.refreshAccessToken env req now
        = Response 403 (JObject
            [("success", jbool false);
             ("message", jstr "Invalid refresh token");
             ("error", jstr "Invalid or expired token")])).
Proof.
  split; [|split; [|split]].
  - intros p. unfold Auth.verifyToken.
    destruct (Auth.jwt_verify t (Auth.JWT_SECRET env) now);
      split; congruence.
  - intros e. unfold Auth.verifyToken.
    destruct (Auth.jwt_verify t (Auth.JWT_SECRET env) now); congruence.
  - intros req resp. unfold Auth.authenticateToken, Auth.verifyToken.
    destruct (Auth.bearer (authorization req)) as [tok|];
      [|intros [= <-]; discriminate].
    destruct (Auth.token_missing (Some tok)); [intros [= <-]; discriminate|].
    destruct (Auth.jwt_verify tok (Auth.JWT_SECRET env) now);
      [discriminate|].
    reflexivity.
  - intros req millis Hms.
    unfold Auth.refreshAccessToken, Auth.refresh_with, Auth.verifyToken.
    destruct (body_refreshToken req) as [tok|].
    + destruct (Auth.token_missing (Some tok)); [discriminate|].
      destruct (Auth.jwt_verify tok (Auth.JWT_SECRET env) now) as [p|cause];
        [|reflexivity].
      rewrite (issue_access _ now Hms). discriminate.
    + destruct (truthy (prop (body req) "refreshToken"));
        [reflexivity | discriminate].
Qed.

(** X16 on a token whose expiry has passed, in the header and in the
    body. *)
Lemma verifyToken_hides_cause_witness :
  Auth.authenticateToken ∅
    (with_header [Opaque "Bearer"; signed (Auth.JWT_SECRET ∅) alice 0 10])
    100
  = Respond (Response 403 (JObject
      [("success", jbool false);
       ("message", jstr "Invalid or expired token");
       ("error", jstr "Invalid or expired token")]))
  /\ Auth.refreshAccessToken ∅
       (with_refresh_token (signed (Auth.JWT_SECRET ∅) alice 0 10)) 100
     = Response 403 (JObject
         [("success", jbool false);
          ("message", jstr "Invalid refresh token");
          ("error", jstr "Invalid or expired token")]).
Proof.
  split.
  - eapply (proj1 (proj2 (proj2 (verifyToken_hides_cause ∅ (Opaque "") 100)))
              (with_header
                 [Opaque "Bearer"; signed (Auth.JWT_SECRET ∅) alice 0 10]));
      reflexivity.
  - apply (proj2 (proj2 (proj2 (verifyToken_hides_cause ∅ (Opaque "") 100)))
             (with_refresh_token (signed (Auth.JWT_SECRET ∅) alice 0 10))
             86400000);
      reflexivity.
Defined.

(** X17.  With [JWT_SECRET] unset or empty the secret is the string
    written in the source: a token signed under that string, for any
    claims and any lifetime, passes [authenticateToken] until it expires,
    under any scheme word in the header, and when its role is one of the
    allowed roles it passes [requireRole] behind it. *)
Theorem default_secret_tokens_pass (env : gmap string string)
  (scheme : token) (c : claims) (issued ttl now : Z) (req : request)
  (allowedRoles : list string) :
  env !! "JWT_SECRET" = None \/ env !! "JWT_SECRET" = Some "" ->
  authorization req
  = Some [scheme;
          signed "your-super-secret-jwt-key-change-this-in-production"
            c issued ttl] ->
  now < issued + ttl ->
  Auth.authenticateToken env req now
  = Next (set_user req (Decoded (JwtPayload c issued (issued + ttl))))
  /\ (In (role c) allowedRoles ->
      Auth.and_then (Auth.authenticateToken env req now)
        (Auth.requireRole allowedRoles)
      = Next (set_user req (Decoded (JwtPayload c issued (issued + ttl))))).
Proof.
  intros Henv Hh Hlive.
  assert (Hs : Auth.JWT_SECRET env
               = "your-super-secret-jwt-key-change-this-in-production").
  { unfold Auth.JWT_SECRET, Auth.env_or. now destruct Henv as [-> | ->]. }
  assert (Hpass : Auth.authenticateToken env req now
                  = Next (set_user req
                            (Decoded (JwtPayload c issued (issued + ttl))))).
  { apply authenticate_passes; [|exact Hlive].
    rewrite Hh, Hs. unfold Auth.bearer. cbn [head List.length Nat.leb].
    rewrite andb_false_r. reflexivity. }
  split; [exact Hpass|].
  intros Hin. rewrite Hpass. cbn [Auth.and_then]. unfold Auth.requireRole.
  cbn [user set_user Auth.principal_claims pl_claims].
  replace (existsb _ allowedRoles) with true; [reflexivity|].
  symmetry. apply existsb_exists. exists (role c).
  split; [exact Hin | apply String.eqb_refl].
Qed.

Lemma default_secret_tokens_pass_witness :
  Auth.authenticateToken env_database_only
    (with_header [Opaque "Anything";
                  signed "your-super-secret-jwt-key-change-this-in-production"
                    (Claims 1 "mallory" "admin") 0 1000000]) 500
  = Next (set_user
            (with_header
               [Opaque "Anything";
                signed "your-super-secret-jwt-key-change-this-in-production"
                  (Claims 1 "mallory" "admin") 0 1000000])
            (Decoded (JwtPayload (Claims 1 "mallory" "admin") 0
                        (0 + 1000000)))).
Proof.
  refine (proj1 (@default_secret_tokens_pass env_database_only
                   (Opaque "Anything") (Claims 1 "mallory" "admin")
                   0 1000000 500 _ ["admin"] _ _ _));
    [left; reflexivity | reflexivity | reflexivity].
Defined.

(** X18.  POST /api/auth/refresh reads the token from the cookie first:
    when the cookie holds a token, nothing else of the request is looked
    at, so a cookie that does not verify is answered 403 even if the body
    carries a token that would.  Without a cookie (or with an empty one)
    the route answers as [refreshAccessToken] does on the body: 401 when
    [req.body.refreshToken] is absent or falsy (the empty string, [null],
    [0], [false]), and 403 when it is a truthy value that is not a
    string, such as the number 5. *)
Theorem refresh_prefers_cookie (env : gmap string string) (req : request)
  (now : Z) (t : token) :
  Auth.token_missing (Some t) = false ->
  (forall other,
      Index.auth_refresh env (Some t) other now
      = Index.auth_refresh env (Some t) req now)
  /\ ((forall p, t = Jws p (HS256 (Auth.JWT_SECRET env) p) ->
                 pl_exp p <= now) ->
      Index.auth_refresh env (Some t) req now
      = Response 403 (JObject
          [("success", jbool false);
           ("message", jstr "Invalid refresh token");
           ("error", jstr "Invalid or expired token")]))
  /\ Index.auth_refresh env None req now = Auth.refreshAccessToken env req now
  /\ Index.auth_refresh env (Some (Opaque "")) req now
     = Auth.refreshAccessToken env req now
  /\ (body_refreshToken req = Some (Opaque "")
      \/ (body_refreshToken req = None
          /\ truthy (prop (body req) "refreshToken") = false) ->
      Index.auth_refresh env None req now
      = Response 401 (JObject
          [("success", jbool false);
           ("message", jstr "Refresh token required")]))
  /\ (body_refreshToken req = None ->
      truthy (prop (body req) "refreshToken") = true ->
      Index.auth_refresh env None req now
      = Response 403 (JObject
          [("success", jbool false);
           ("message", jstr "Invalid refresh token");
           ("error", jstr "Invalid or expired token")])).
Proof.
  intros Ht.
  assert (Hcookie : forall r,
             Index.auth_refresh env (Some t) r now
             = match Auth.refresh_with env t now with
               | Fulfilled resp => resp
               | Rejected error =>
                   Response 403 (JObject
                     [("success", jbool false);
                      ("message", jstr "Invalid refresh token");
                      ("error", jstr (err_message error))])
               end).
  { intros r. unfold Index.auth_refresh. rewrite Ht.
    unfold Auth.refreshToken_missing, Auth.refreshAccessToken.
    cbn [body_refreshToken set_body_refreshToken]. rewrite Ht.
    reflexivity. }
  assert (Hbody : forall cookie,
             Auth.token_missing cookie = true ->
             Index.auth_refresh env cookie req now
             = Auth.refreshAccessToken env req now).
  { intros cookie Hc. unfold Index.auth_refresh. rewrite Hc.
    unfold Auth.refreshToken_missing, Auth.refreshAccessToken.
    cbn [body_refreshToken set_body_refreshToken body].
    destruct (body_refreshToken req) as [b|].
    - now destruct (Auth.token_missing (Some b)).
    - now destruct (truthy (prop (body req) "refreshToken")). }
  split; [|split; [|split; [|split; [|split]]]].
  - intros other. now rewrite !Hcookie.
  - intros Hbad. rewrite Hcookie. unfold Auth.refresh_with.
    now rewrite (verify_rejects Hbad).
  - now apply Hbody.
  - now apply Hbody.
  - intros Hb. rewrite Hbody by reflexivity. unfold Auth.refreshAccessToken.
    destruct Hb as [-> | [-> ->]]; reflexivity.
  - intros Hb Hv. rewrite Hbody by reflexivity.
    unfold Auth.refreshAccessToken. rewrite Hb, Hv. reflexivity.
Qed.

(** X18 with a stale cookie beside a body token that would verify, and
    with the number 5 in the body and no cookie. *)
Lemma refresh_prefers_cookie_witness :
  Index.auth_refresh ∅ (Some (signed (Auth.JWT_SECRET ∅) alice 0 10))
    (with_refresh_token (signed (Auth.JWT_SECRET ∅) alice 0 86400)) 100
  = Response 403 (JObject
      [("success", jbool false);
       ("message", jstr "Invalid refresh token");
       ("error", jstr "Invalid or expired token")])
  /\ Index.auth_refresh ∅ None
       (bare_request (<["refreshToken" := JNum 5%float]> ∅)) 100
     = Response 403 (JObject
         [("success", jbool false);
          ("message", jstr "Invalid refresh token");
          ("error", jstr "Invalid or expired token")]).
Proof.
  split.
  - refine (proj1 (proj2 (@refresh_prefers_cookie ∅
                            (with_refresh_token
                               (signed (Auth.JWT_SECRET ∅) alice 0 86400))
                            100 (signed (Auth.JWT_SECRET ∅) alice 0 10) _)) _).
    + reflexivity.
    + intros p [= <- _]. cbn. lia.
  - refine (proj2 (proj2 (proj2 (proj2 (proj2
              (@refresh_prefers_cookie ∅
                 (bare_request (<["refreshToken" := JNum 5%float]> ∅))
                 100 (signed (Auth.JWT_SECRET ∅) alice 0 10) _))))) _ _);
      reflexivity.
Defined.

(** ** POST /api/auth/login *)

Lemma refresh_signed (env : gmap string string) (req : request)
  (c : claims) (issued ttl now millis : Z) :
  body_refreshToken req = Some (signed (Auth.JWT_SECRET env) c issued ttl) ->
  now < issued + ttl ->
  Auth.ms (Auth.JWT_EXPIRES_IN env) = Some millis ->
  Auth.refreshAccessToken env req now
  = Response 200 (JObject
      [("success", jbool true);
       ("message", jstr "Token refreshed successfully");
       ("data", JObject
          [("accessToken",
            JTok (signed (Auth.JWT_SECRET env) c now (millis / 1000)));
           ("user", JObject
              [("userId", JInt (userId c));
               ("username", jstr (username c));
               ("role", jstr (role c))])])]).
Proof.
  intros Hreq Hlive Hms.
  unfold Auth.refreshAccessToken, Auth.refresh_with. rewrite Hreq.
  cbn [Auth.token_missing signed].
  fold (signed (Auth.JWT_SECRET env) c issued ttl).
  rewrite (verify_signed_live env c Hlive). cbn [pl_claims].
  destruct c as [uid uname urole]. cbn [userId username role].
  rewrite (issue_access (Claims uid uname urole) now Hms).
  reflexivity.
Qed.

(** X19.  POST /api/auth/login checks only that both credentials are
    truthy.  If one is missing, empty, zero or false the answer is 400 and
    nothing reaches the database.  A user name that is truthy but not a
    string (a number, [true], an array) passes that check; the handler
    then acquires a connection, fails on [username.trim()] before any
    statement of its own, and answers 500 without setting a cookie. *)
Theorem auth_login_credentials (env : gmap string string) (now : Z)
  (req : request) (g : option handle) (rs : list reply) :
  (truthy (prop (body req) "username")
   && truthy (prop (body req) "password") = false ->
   exec (Index.auth_login env now req) g rs
   = Run (Some (Returned (Index.LoginAnswer
            (Response 400 (JObject
               [("success", jbool false);
                ("message", jstr "Username and password are required")]))
            None))) g [] rs)
  /\ (forall h g' tr rs',
        truthy (prop (body req) "username") = true ->
        (forall s, prop (body req) "username" <> JStr s) ->
        truthy (prop (body req) "password") = true ->
        exec Index.getDbConnection g rs
        = Run (Some (Returned (Some h))) g' tr rs' ->
        exec (Index.auth_login env now req) g rs
        = Run (Some (Returned (Index.LoginAnswer
                 (Response 500 (JObject
                    [("success", jbool false);
                     ("message", jstr "Internal server error")]))
                 None))) g' tr rs').
Proof.
  split.
  - intros H. unfold Index.auth_login. rewrite <- negb_andb, H. reflexivity.
  - intros h g' tr rs' Hu Hns Hp Hacq. unfold Index.auth_login.
    rewrite Hp.
    destruct (prop (body req) "username") as [| |b|x|s|xs];
      try discriminate Hu; try (now destruct (Hns s));
      rewrite Hu; cbn [negb orb];
      rewrite exec_try_catch, exec_bind, Hacq; cbn; unfold emit; cbn;
      now rewrite !app_nil_r.
Qed.

Lemma auth_login_credentials_witness :
  exec (Index.auth_login ∅ 0
          (bare_request (<["username" := JStr "alice"]> ∅))) None []
  = Run (Some (Returned (Index.LoginAnswer
           (Response 400 (JObject
              [("success", jbool false);
               ("message", jstr "Username and password are required")]))
           None))) None [] []
  /\ exec (Index.auth_login ∅ 0
             (bare_request (<["username" := JNum 5%float]>
                              (<["password" := JStr "x"]> ∅))))
       (Some 1%nat) [fine (Some [])]
     = Run (Some (Returned (Index.LoginAnswer
              (Response 500 (JObject
                 [("success", jbool false);
                  ("message", jstr "Internal server error")]))
              None))) (Some 1%nat) [PoolRequest 1 probe] [].
Proof.
  split.
  - apply (proj1 (auth_login_credentials ∅ 0
                    (bare_request (<["username" := JStr "alice"]> ∅))
                    None [])).
    reflexivity.
  - refine (proj2 (auth_login_credentials ∅ 0
                     (bare_request (<["username" := JNum 5%float]>
                                      (<["password" := JStr "x"]> ∅)))
                     (Some 1%nat) [fine (Some [])])
              1%nat (Some 1%nat) [PoolRequest 1 probe] [] _ _ _ _);
      try reflexivity.
    intros s Hs. discriminate Hs.
Defined.

(** X20.  POST /api/auth/login answers a user name that is not in the
    table and a password that differs from the stored one in the same
    way: 401 "Invalid username or password", no cookie, after the one
    look-up by trimmed user name.  The password is compared as sent, with
    [===]. *)
Theorem auth_login_same_refusal (env : gmap string string) (now : Z)
  (req : request) (g g' : option handle) (rs rs' : list reply)
  (h : handle) (tr : list effect) (u : string)
  (found : list (gmap string jsval)) :
  prop (body req) "username" = JStr u ->
  u <> EmptyString ->
  truthy (prop (body req) "password") = true ->
  exec Index.getDbConnection g rs
  = Run (Some (Returned (Some h))) g' tr (fine (Some found) :: rs') ->
  match found with
  | [] => True
  | user :: _ =>
      strict_eq (prop (body req) "password") (prop user "User_Password")
      = false
  end ->
  exec (Index.auth_login env now req) g rs
  = Run (Some (Returned (Index.LoginAnswer Index.invalid_credentials None)))
        g' (tr ++ [PoolRequest h (login_query (trim u))]) rs'.
Proof.
  intros Hu Hne Hp Hacq Hfound. unfold Index.auth_login.
  rewrite Hu, Hp. apply truthy_string in Hne. rewrite Hne. cbn [negb orb].
  rewrite exec_try_catch, exec_bind, Hacq.
  destruct found as [|user more]; [reflexivity|].
  cbn -[strict_eq prop]. rewrite Hfound. reflexivity.
Qed.

Lemma auth_login_same_refusal_witness :
  exec (Index.auth_login ∅ 0
          (bare_request (<["username" := JStr " alice"]>
                           (<["password" := JStr "wrong"]> ∅))))
    (Some 1%nat) [fine (Some []); fine (Some [user_row "alice" "correct"])]
  = Run (Some (Returned (Index.LoginAnswer Index.invalid_credentials None)))
        (Some 1%nat)
        ([PoolRequest 1 probe] ++ [PoolRequest 1 (login_query (trim " alice"))])
        []
  /\ exec (Index.auth_login ∅ 0
             (bare_request (<["username" := JStr "nobody"]>
                              (<["password" := JStr "wrong"]> ∅))))
       (Some 1%nat) [fine (Some []); fine (Some [])]
     = Run (Some (Returned (Index.LoginAnswer Index.invalid_credentials None)))
           (Some 1%nat)
           ([PoolRequest 1 probe]
              ++ [PoolRequest 1 (login_query (trim "nobody"))])
           [].
Proof.
  split.
  - refine (@auth_login_same_refusal ∅ 0
              (bare_request (<["username" := JStr " alice"]>
                               (<["password" := JStr "wrong"]> ∅)))
              (Some 1%nat) (Some 1%nat) _ [] 1%nat [PoolRequest 1 probe]
              " alice" [user_row "alice" "correct"] _ _ _ _ _);
      first [reflexivity | discriminate].
  - refine (@auth_login_same_refusal ∅ 0
              (bare_request (<["username" := JStr "nobody"]>
                               (<["password" := JStr "wrong"]> ∅)))
              (Some 1%nat) (Some 1%nat) _ [] 1%nat [PoolRequest 1 probe]
              "nobody" [] _ _ _ _ _);
      first [reflexivity | discriminate | exact I].
Defined.

(** X21.  A successful POST /api/auth/login and what its tokens are good
    for.  For a row of the table's column types whose stored password is
    the one sent, the answer is 200 with an access token and a
    "refreshToken" cookie (http-only, same-site strict, seven days), both
    signed for the user's id, name and role, the role being "user" when
    the column is empty.  Until it expires the access token passes
    [authenticateToken], which sets [req.user] to those claims; until it
    expires the cookie passes POST /api/auth/refresh, which answers with a
    fresh access token for the same claims. *)
Theorem auth_login_issues_working_tokens (env : gmap string string)
  (now : Z) (req : request) (g g' : option handle) (rs rs' : list reply)
  (h : handle) (tr : list effect) (u : string) (user : gmap string jsval)
  (more : list (gmap string jsval)) (c : claims) (amillis rmillis : Z) :
  prop (body req) "username" = JStr u ->
  u <> EmptyString ->
  truthy (prop (body req) "password") = true ->
  exec Index.getDbConnection g rs
  = Run (Some (Returned (Some h))) g' tr (fine (Some (user :: more)) :: rs') ->
  strict_eq (prop (body req) "password") (prop user "User_Password") = true ->
  Index.token_payload user = Some c ->
  Auth.ms (Auth.JWT_EXPIRES_IN env) = Some amillis ->
  Auth.ms (Auth.JWT_REFRESH_EXPIRES_IN env) = Some rmillis ->
  exec (Index.auth_login env now req) g rs
  = Run (Some (Returned (Index.LoginAnswer
           (Response 200 (JObject
              [("success", jbool true);
               ("message", jstr "Login successful");
               ("data", JObject
                  [("accessToken",
                    JTok (signed (Auth.JWT_SECRET env) c now
                            (amillis / 1000)));
                   ("user", JObject
                      [("userId", JVal (prop user "User_ID"));
                       ("username", JVal (prop user "User_Name"));
                       ("role", JVal (js_or (prop user "Role")
                                        (JStr "user")))])])]))
           (Some (Cookie "refreshToken"
                    (signed (Auth.JWT_SECRET env) c now (rmillis / 1000))
                    true
                    (strict_eq (getenv env "NODE_ENV") (JStr "production"))
                    "strict" 604800000)))))
        g' (tr ++ [PoolRequest h (login_query (trim u))]) rs'
  /\ (prop user "Role" = JNull -> role c = "user")
  /\ (forall later scheme req',
        later < now + amillis / 1000 ->
        authorization req'
        = Some [scheme;
                signed (Auth.JWT_SECRET env) c now (amillis / 1000)] ->
        Auth.authenticateToken env req' later
        = Next (set_user req'
                  (Decoded (JwtPayload c now (now + amillis / 1000)))))
  /\ (forall later req',
        later < now + rmillis / 1000 ->
        Index.auth_refresh env
          (Some (signed (Auth.JWT_SECRET env) c now (rmillis / 1000)))
          req' later
        = Response 200 (JObject
            [("success", jbool true);
             ("message", jstr "Token refreshed successfully");
             ("data", JObject
                [("accessToken",
                  JTok (signed (Auth.JWT_SECRET env) c later
                          (amillis / 1000)));
                 ("user", JObject
                    [("userId", JInt (userId c));
                     ("username", jstr (username c));
                     ("role", jstr (role c))])])])).
Proof.
  intros Hu Hne Hp Hacq Hpw Hc Ham Hrm. repeat apply conj.
  - unfold Index.auth_login.
    rewrite Hu, Hp. apply truthy_string in Hne. rewrite Hne. cbn [negb orb].
    rewrite exec_try_catch, exec_bind, Hacq.
    cbn -[strict_eq prop Index.token_payload Auth.generateAccessToken
          Auth.generateRefreshToken Z.mul].
    rewrite Hpw, Hc. cbn [negb].
    rewrite (issue_access c now Ham), (issue_refresh c now Hrm).
    reflexivity.
  - intros Hrole. unfold Index.token_payload in Hc. rewrite Hrole in Hc.
    cbn [js_or truthy] in Hc.
    destruct (prop user "User_ID"); try discriminate.
    destruct (prop user "User_Name"); try discriminate.
    destruct (integer_of_float x); [|discriminate].
    injection Hc as <-. reflexivity.
  - intros later scheme req' Hlive Hh. apply authenticate_passes.
    + rewrite Hh. unfold Auth.bearer. cbn [head List.length Nat.leb].
      rewrite andb_false_r. reflexivity.
    + exact Hlive.
  - intros later req' Hlive. unfold Index.auth_refresh.
    cbn [Auth.token_missing signed].
    fold (signed (Auth.JWT_SECRET env) c now (rmillis / 1000)).
    now apply refresh_signed with (issued := now) (ttl := rmillis / 1000).
Qed.

Lemma auth_login_issues_working_tokens_witness :
  Auth.authenticateToken ∅
    (with_header [Opaque "Bearer";
                  signed (Auth.JWT_SECRET ∅) (Claims 7 "alice" "admin") 0
                    (86400000 / 1000)]) 3600
  = Next (set_user
            (with_header [Opaque "Bearer";
                          signed (Auth.JWT_SECRET ∅)
                            (Claims 7 "alice" "admin") 0 (86400000 / 1000)])
            (Decoded (JwtPayload (Claims 7 "alice" "admin") 0
                        (0 + 86400000 / 1000)))).
Proof.
  refine (proj1 (proj2 (proj2
            (@auth_login_issues_working_tokens ∅ 0
               (bare_request (<["username" := JStr "alice"]>
                                (<["password" := JStr "correct"]> ∅)))
               (Some 1%nat) (Some 1%nat)
               [fine (Some []); fine (Some [user_row "alice" "correct"])] []
               1%nat [PoolRequest 1 probe] "alice"
               (user_row "alice" "correct") [] (Claims 7 "alice" "admin")
               86400000 604800000 _ _ _ _ _ _ _ _)))
            3600 (Opaque "Bearer") _ _ _);
    first [reflexivity | discriminate].
Defined.

(** ** Routes that use [globalPool] directly *)

(** X22.  GET /api/keywords works on [globalPool] as it is.  With no
    handle it answers 500 "Database connection not available" and makes
    no attempt to connect; with a handle it sends its one statement
    without a probe: the unfiltered query when [search] is missing or
    blank, the filtered one with the trimmed term between percent signs
    otherwise.  A [search] that is truthy but not a string (a repeated
    query parameter) is answered 500 before any statement is sent. *)
Theorem keywords_uses_pool_as_is (req : request) (rs : list reply) :
  (forall search,
      exec (Index.keywords search req) None rs
      = Run (Some (Returned (Response 500 (JObject
               [("message",
                 jstr "Failed to fetch keywords. Please try again later.");
                ("error", jstr "Database connection not available")]))))
            None [] rs)
  /\ (forall h search rows,
        truthy search = false \/ (exists s, search = JStr s /\ blank s = true) ->
        exec (Index.keywords search req) (Some h) (fine (Some rows) :: rs)
        = Run (Some (Returned (Response 200 (JObject
                 [("success", jbool true);
                  ("keywords",
                   JVal (JArr (List.map (fun row => prop row "Keyword")
                                 rows)));
                  ("count", JInt (Z.of_nat (List.length rows)))]))))
              (Some h) [PoolRequest h unfiltered_keywords] rs)
  /\ (forall h s rows,
        blank s = false ->
        exec (Index.keywords (JStr s) req) (Some h) (fine (Some rows) :: rs)
        = Run (Some (Returned (Response 200 (JObject
                 [("success", jbool true);
                  ("keywords",
                   JVal (JArr (List.map (fun row => prop row "Keyword")
                                 rows)));
                  ("count", JInt (Z.of_nat (List.length rows)))]))))
              (Some h) [PoolRequest h (filtered_keywords (trim s))] rs)
  /\ (forall h search,
        truthy search = true ->
        (forall s, search <> JStr s) ->
        exec (Index.keywords search req) (Some h) rs
        = Run (Some (Returned (Response 500 (JObject
                 [("message",
                   jstr "Failed to fetch keywords. Please try again later.");
                  ("error", jstr "search.trim is not a function")]))))
              (Some h) [] rs).
Proof.
  repeat apply conj.
  - intros search. reflexivity.
  - intros h search rows [Hf|(s & -> & Hb)]; unfold Index.keywords.
    + cbn. rewrite Hf. cbn. rewrite length_map. reflexivity.
    + pose proof (proj2 (trim_blank s) Hb) as Ht.
      cbn -[trim]. destruct (negb (String.eqb s "")); cbn -[trim];
        rewrite ?Ht; cbn; rewrite length_map; reflexivity.
  - intros h s rows Hb. unfold Index.keywords.
    assert (Hs : truthy (JStr s) = true).
    { apply truthy_string. intros ->. discriminate Hb. }
    assert (Ht : truthy (JStr (trim s)) = true).
    { apply truthy_string. intros E. apply trim_blank in E. congruence. }
    cbn -[trim truthy]. rewrite Hs. cbn -[trim truthy]. rewrite Ht.
    cbn -[trim]. rewrite length_map. reflexivity.
  - intros h search Ht Hns. unfold Index.keywords.
    destruct search as [| |b|x|s|xs]; try discriminate Ht;
      try (now destruct (Hns s)); cbn -[truthy]; rewrite Ht; reflexivity.
Qed.

Lemma keywords_uses_pool_as_is_witness :
  exec (Index.keywords (JStr "  tax ") (bare_request ∅)) (Some 1%nat)
    [fine (Some [])]
  = Run (Some (Returned (Response 200 (JObject
           [("success", jbool true);
            ("keywords", JVal (JArr (List.map (fun row => prop row "Keyword")
                                       [])));
            ("count", JInt (Z.of_nat (List.length (@nil (gmap string jsval)))))]))))
        (Some 1%nat) [PoolRequest 1 (filtered_keywords (trim "  tax "))] []
  /\ exec (Index.keywords (JArr [JStr "a"; JStr "b"]) (bare_request ∅))
       (Some 1%nat) []
     = Run (Some (Returned (Response 500 (JObject
              [("message",
                jstr "Failed to fetch keywords. Please try again later.");
               ("error", jstr "search.trim is not a function")]))))
           (Some 1%nat) [] [].
Proof.
  split.
  - apply (proj1 (proj2 (proj2
             (keywords_uses_pool_as_is (bare_request ∅) [])))
             1%nat "  tax " []).
    reflexivity.
  - apply (proj2 (proj2 (proj2
             (keywords_uses_pool_as_is (bare_request ∅) [])))
             1%nat (JArr [JStr "a"; JStr "b"])); [reflexivity|].
    intros s Hs. discriminate Hs.
Defined.

(** ** CORS origins of server.js *)

Lemma split_char_free (sep : ascii) (s : string) :
  free_of sep s = true -> split_char sep s = [s].
Proof.
  induction s as [|a s IH]; cbn [split_char free_of]; [reflexivity|].
  intros H. apply andb_true_iff in H as [Ha Hs].
  apply negb_true_iff in Ha. rewrite Ha, (IH Hs). reflexivity.
Qed.

Lemma split_char_app (sep : ascii) (s t : string) :
  free_of sep s = true ->
  split_char sep (s ++ String sep t) = s :: split_char sep t.
Proof.
  induction s as [|a s IH]; intros H.
  - change (split_char sep (String sep t) = "" :: split_char sep t)%string.
    cbn [split_char]. now rewrite Ascii.eqb_refl.
  - change (split_char sep (String a (s ++ String sep t))
            = String a s :: split_char sep t)%string.
    cbn [split_char free_of] in *.
    apply andb_true_iff in H as [Ha Hs].
    apply negb_true_iff in Ha. rewrite Ha, (IH Hs). reflexivity.
Qed.

Lemma split_concat (sep : ascii) (l : list string) :
  l <> [] ->
  forallb (free_of sep) l = true ->
  split_char sep (String.concat (String sep EmptyString) l) = l.
Proof.
  induction l as [|x l IH]; [congruence|].
  intros _ H. cbn [forallb] in H. apply andb_true_iff in H as [Hx Hl].
  destruct l as [|y l].
  - cbn. now apply split_char_free.
  - change (String.concat (String sep "") (x :: y :: l))
      with (x ++ String sep (String.concat (String sep "") (y :: l)))%string.
    rewrite (split_char_app _ Hx). f_equal. apply IH; [discriminate | exact Hl].
Qed.

(** X23.  The CORS check of server.js lets a request through exactly when
    it has no [Origin] (or an empty one) or its origin is, character for
    character, one of the pieces of [CORS_ORIGIN] between commas.  Written
    as a comma-joined list of origins, [CORS_ORIGIN] allows exactly that
    list; unset or empty, it allows http://localhost:5173 only. *)
Theorem cors_allows_exactly_listed (env : gmap string string)
  (origin : string) :
  Server.cors_origin env None = Fulfilled true
  /\ (Server.cors_origin env (Some origin) = Fulfilled true
      <-> origin = EmptyString \/ In origin (Server.allowedOrigins env))
  /\ (env !! "CORS_ORIGIN" = None \/ env !! "CORS_ORIGIN" = Some "" ->
      Server.allowedOrigins env = ["http://localhost:5173"])
  /\ (forall l,
        l <> [] ->
        forallb (free_of ","%char) l = true ->
        String.concat "," l <> EmptyString ->
        env !! "CORS_ORIGIN" = Some (String.concat "," l) ->
        Server.allowedOrigins env = l).
Proof.
  split; [|split; [|split]].
  - reflexivity.
  - unfold Server.cors_origin.
    destruct (String.eqb_spec origin "") as [->|Hne].
    + cbn. tauto.
    + assert (Ht : truthy (JStr origin) = true) by now apply truthy_string.
      rewrite Ht. cbn [negb].
      destruct (existsb _ _) eqn:E; cbn [negb].
      * split; [intros _|reflexivity]. right.
        apply existsb_exists in E as (x & Hin & Hx).
        apply String.eqb_eq in Hx. now subst.
      * split; [discriminate|]. intros [H|H]; [contradiction|].
        apply not_true_iff_false in E. exfalso. apply E.
        apply existsb_exists. exists origin.
        split; [exact H | apply String.eqb_refl].
  - unfold Server.allowedOrigins, getenv. now intros [-> | ->].
  - intros l Hl Hfree Hne Henv. unfold Server.allowedOrigins, getenv.
    rewrite Henv. apply truthy_string in Hne. rewrite Hne.
    now apply split_concat.
Qed.

Lemma cors_allows_exactly_listed_witness :
  Server.allowedOrigins
    (<["CORS_ORIGIN" :=
         String.concat "," ["https://a.example"; "https://b.example"]]> ∅)
  = ["https://a.example"; "https://b.example"].
Proof.
  refine (proj2 (proj2 (proj2 (cors_allows_exactly_listed
            (<["CORS_ORIGIN" :=
                 String.concat "," ["https://a.example"; "https://b.example"]]>
               ∅) ""))) _ _ _ _ _);
    first [reflexivity | discriminate].
Defined.

(** ** Dates of the high-value report *)

(** X24.  POST /api/high-value-trans bounds the three names but not the
    dates: a request that passes every check goes to the database with
    [fromDate] and [toDate] as they came, so a date string longer than
    the 20 characters of its [VarChar] is bound all the same. *)
Theorem high_value_dates_unbounded (parseFloat : jsval -> float)
  (req : request) (h : handle) (rs : list reply) (rows : recordset)
  (d : string) :
  report_request_invalid parseFloat (body req) = false ->
  prop (body req) "fromDate" = JStr d \/ prop (body req) "toDate" = JStr d ->
  (20 < String.length d)%nat ->
  inputs_fit
    (run_trace (exec (Index.high_value_trans parseFloat req) (Some h)
                  (fine rows :: rs))) = false.
Proof.
  unfold report_request_invalid, fields_malformed, amounts_inverted, missing,
    Index.high_value_trans.
  intros H Hd Hlen. split_orb_false.
  repeat match goal with
         | E : _ = false |- _ => rewrite E; clear E
         end.
  cbn [orb]. apply Nat.ltb_lt in Hlen. unfold Nat.ltb in Hlen.
  assert (Hn : Nat.leb (String.length d) 20 = false).
  { apply Nat.leb_gt. apply Nat.leb_le in Hlen. lia. }
  destruct rs as [|[x|[r|e]] rs]; cbn -[Nat.leb String.length];
    destruct Hd as [-> | ->]; cbn -[Nat.leb String.length]; rewrite Hn;
    rewrite ?andb_false_r; reflexivity.
Qed.

(** ** Startup, then requests *)

(** X25.  Startup and the first request compose.  With the four database
    variables set and the database answering, the script of index.js ends
    listening on [PORT] (4000 when unset) with the new handle in
    [globalPool]; the first [getDbConnection] after that sends one probe
    to that handle and returns it, without connecting again. *)
Theorem startup_then_first_request (env : gmap string string) (h : handle)
  (test answer : recordset) (rs : list reply) :
  (forall v, In v Index.requiredEnvVars -> truthy (getenv env v) = true) ->
  exec (Index.main env) None (Connected (Fulfilled h) :: fine test :: rs)
  = Run (Some (Returned tt)) (Some h)
        [SqlConnect; PoolOnError h; PoolRequest h probe;
         AppListen (PORT env)] rs
  /\ exec (Index.main env;; Index.getDbConnection) None
       (Connected (Fulfilled h) :: fine test :: fine answer :: rs)
     = Run (Some (Returned (Some h))) (Some h)
           [SqlConnect; PoolOnError h; PoolRequest h probe;
            AppListen (PORT env); PoolRequest h probe] rs.
Proof.
  intros Hall.
  assert (Hmain : forall rs',
             exec (Index.main env) None
               (Connected (Fulfilled h) :: fine test :: rs')
             = Run (Some (Returned tt)) (Some h)
                   [SqlConnect; PoolOnError h; PoolRequest h probe;
                    AppListen (PORT env)] rs').
  { intros rs'. unfold Index.main.
    rewrite exec_bind, check_required_spec.
    replace (forallb _ Index.requiredEnvVars) with true; [reflexivity|].
    symmetry. apply forallb_forall. exact Hall. }
  split; [apply Hmain|].
  rewrite exec_bind, Hmain. reflexivity.
Qed.

Lemma startup_then_first_request_witness :
  exec (Index.main env_database_only;; Index.getDbConnection) None
    (Connected (Fulfilled 1%nat) :: fine (Some []) :: fine (Some []) :: [])
  = Run (Some (Returned (Some 1%nat))) (Some 1%nat)
        [SqlConnect; PoolOnError 1; PoolRequest 1 probe;
         AppListen (PORT env_database_only); PoolRequest 1 probe] [].
Proof.
  refine (proj2 (@startup_then_first_request env_database_only 1%nat
                   (Some []) (Some []) [] _)).
  intros v [<-|[<-|[<-|[<-|[]]]]]; reflexivity.
Defined.

(** ** How the handlers report database errors *)

Lemma prefix_app (needle post : string) :
  String.prefix needle (needle ++ post) = true.
Proof.
  induction needle as [|a n IH]; [now destruct post|].
  change (String.prefix (String a n) (String a (n ++ post)) = true)%string.
  cbn [String.prefix]. destruct (ascii_dec a a); [exact IH | congruence].
Qed.

Lemma includes_app (needle pre post : string) :
  includes needle (pre ++ needle ++ post) = true.
Proof.
  induction pre as [|a pre IH].
  - change (includes needle (needle ++ post) = true)%string.
    destruct (needle ++ post)%string eqn:E; cbn [includes];
      rewrite <- E, prefix_app; reflexivity.
  - change (includes needle (String a (pre ++ needle ++ post)) = true)%string.
    cbn [includes]. rewrite IH. apply orb_true_r.
Qed.

Lemma prefix_inv (needle s : string) :
  String.prefix needle s = true -> exists post, s = (needle ++ post)%string.
Proof.
  revert s. induction needle as [|a n IH]; intros s H.
  - now exists s.
  - destruct s as [|b s]; [discriminate|]. cbn [String.prefix] in H.
    destruct (ascii_dec a b) as [->|]; [|discriminate].
    destruct (IH s H) as (post & ->). now exists post.
Qed.

Lemma includes_contains (needle s : string) :
  includes needle s = true <-> contains needle s.
Proof.
  split.
  - induction s as [|a s IH]; cbn [includes]; intros H.
    + rewrite orb_false_r in H. apply prefix_inv in H as (post & ->).
      now exists EmptyString, post.
    + apply orb_true_iff in H as [H|H].
      * apply prefix_inv in H as (post & ->). now exists EmptyString, post.
      * destruct (IH H) as (pre & post & ->).
        now exists (String a pre), post.
  - intros (pre & post & ->). apply includes_app.
Qed.

(** X26.  When the procedure of POST /api/high-value-trans fails, the
    answer is always 500 and repeats the text of the database error in
    its [error] field; the [message] says that the stored procedure was
    not found when that text contains "Could not find stored procedure",
    that the parameters do not match when it does not but contains
    "parameter", and is the general one otherwise. *)
Theorem high_value_error_classified (parseFloat : jsval -> float)
  (req : request) (g g' : option handle) (rs rs' : list reply)
  (h : handle) (tr : list effect) (e : jserror) :
  report_request_invalid parseFloat (body req) = false ->
  exec Index.getDbConnection g rs
  = Run (Some (Returned (Some h))) g' tr (Answered (Rejected e) :: rs') ->
  exists msg,
    run_outcome (exec (Index.high_value_trans parseFloat req) g rs)
    = Some (Returned (Response 500 (JObject
              [("message", jstr msg); ("error", jstr (err_message e))])))
    /\ (contains "Could not find stored procedure" (err_message e) ->
        msg = "Stored procedure 'AuditHVTranRpt_Sp' not found in database.")
    /\ (~ contains "Could not find stored procedure" (err_message e) ->
        contains "parameter" (err_message e) ->
        msg = "Parameter mismatch in stored procedure call.")
    /\ (~ contains "Could not find stored procedure" (err_message e) ->
        ~ contains "parameter" (err_message e) ->
        msg = "Failed to fetch high value transactions report data.").
Proof.
  unfold report_request_invalid, fields_malformed, amounts_inverted, missing,
    Index.high_value_trans.
  intros H Hacq. split_orb_false.
  repeat match goal with
         | E : _ = false |- _ => rewrite E; clear E
         end.
  cbn [orb]. rewrite exec_try_catch, exec_bind, Hacq.
  cbn -[includes].
  destruct (includes "Could not find stored procedure" (err_message e))
    eqn:E1; [|destruct (includes "parameter" (err_message e)) eqn:E2];
    cbn -[includes]; eexists; (split; [reflexivity|]).
  - apply includes_contains in E1. repeat split; intros; tauto.
  - apply includes_contains in E2.
    repeat split; intros Hc; try tauto.
    apply includes_contains in Hc. congruence.
  - repeat split; intros Hc; try tauto.
    + apply includes_contains in Hc. congruence.
    + intros Hp. apply includes_contains in Hp. congruence.
Qed.

Lemma high_value_error_classified_witness :
  exists msg,
    run_outcome
      (exec (Index.high_value_trans parseFloat_plain valid_amounts_index)
         (Some 1%nat)
         [fine (Some []);
          Answered (Rejected (JsError "RequestError"
            "Could not find stored procedure 'AuditHVTranRpt_Sp'."))])
    = Some (Returned (Response 500 (JObject
              [("message", jstr msg);
               ("error",
                jstr (err_message (JsError "RequestError"
                  "Could not find stored procedure 'AuditHVTranRpt_Sp'.")))])))
    /\ (contains "Could not find stored procedure"
          (err_message (JsError "RequestError"
             "Could not find stored procedure 'AuditHVTranRpt_Sp'.")) ->
        msg = "Stored procedure 'AuditHVTranRpt_Sp' not found in database.")
    /\ (~ contains "Could not find stored procedure"
            (err_message (JsError "RequestError"
               "Could not find stored procedure 'AuditHVTranRpt_Sp'.")) ->
        contains "parameter"
          (err_message (JsError "RequestError"
             "Could not find stored procedure 'AuditHVTranRpt_Sp'.")) ->
        msg = "Parameter mismatch in stored procedure call.")
    /\ (~ contains "Could not find stored procedure"
            (err_message (JsError "RequestError"
               "Could not find stored procedure 'AuditHVTranRpt_Sp'.")) ->
        ~ contains "parameter"
            (err_message (JsError "RequestError"
               "Could not find stored procedure 'AuditHVTranRpt_Sp'.")) ->
        msg = "Failed to fetch high value transactions report data.").
Proof.
  refine (@high_value_error_classified parseFloat_plain valid_amounts_index
            (Some 1%nat) (Some 1%nat) _ [] 1%nat [PoolRequest 1 probe]
            (JsError "RequestError"
               "Could not find stored procedure 'AuditHVTranRpt_Sp'.") _ _);
    vm_compute; reflexivity.
Defined.

(** X24 on a date of 26 characters. *)
Lemma high_value_dates_unbounded_witness :
  inputs_fit
    (run_trace
       (exec (Index.high_value_trans parseFloat_plain long_date_index)
          (Some 1%nat) (fine (Some []) :: [fine (Some [])]))) = false.
Proof.
  refine (@high_value_dates_unbounded parseFloat_plain long_date_index 1%nat
            [fine (Some [])] (Some []) "2024-01-01T00:00:00.000000" _ _ _).
  - vm_compute. reflexivity.
  - left. reflexivity.
  - cbn. lia.
Defined.

(** ** The user look-up route, other outcomes *)

(** X27.  GET /api/test/user/:username when there is nothing to show: a
    user name with no row is answered 200 with [success: false] and the
    name echoed back, not 404; a query that fails is answered 500 with the
    text of the database error in [error]. *)
Theorem test_user_not_found_or_failed (req : request) (g g' : option handle)
  (rs rs' : list reply) (h : handle) (tr : list effect)
  (answer : result recordset) :
  exec Index.getDbConnection g rs
  = Run (Some (Returned (Some h))) g' tr (Answered answer :: rs') ->
  (answer = Fulfilled (Some []) ->
   run_outcome (exec (Index.test_user req) g rs)
   = Some (Returned (Response 200 (JObject
             [("success", jbool false);
              ("message", jstr "User not found");
              ("username",
               jstr (default "" (params req !! "username")))]))))
  /\ (forall e,
        answer = Rejected e ->
        run_outcome (exec (Index.test_user req) g rs)
        = Some (Returned (Response 500 (JObject
                  [("success", jbool false);
                   ("message", jstr "Error fetching user");
                   ("error", jstr (err_message e))])))).
Proof.
  intros Hacq. unfold Index.test_user.
  rewrite exec_try_catch, exec_bind, Hacq.
  split; [intros -> | intros e ->]; reflexivity.
Qed.

Lemma test_user_not_found_or_failed_witness :
  run_outcome (exec (Index.test_user (lookup_user "nobody")) (Some 1%nat)
                 [fine (Some []); fine (Some [])])
  = Some (Returned (Response 200 (JObject
            [("success", jbool false);
             ("message", jstr "User not found");
             ("username",
              jstr (default ""
                      (params (lookup_user "nobody") !! "username")))])))
  /\ run_outcome (exec (Index.test_user (lookup_user "nobody")) (Some 1%nat)
                    [fine (Some []); Answered (Rejected connection_closed)])
     = Some (Returned (Response 500 (JObject
               [("success", jbool false);
                ("message", jstr "Error fetching user");
                ("error", jstr (err_message connection_closed))]))).
Proof.
  split.
  - refine (proj1 (@test_user_not_found_or_failed (lookup_user "nobody")
                     (Some 1%nat) (Some 1%nat) _ [] 1%nat
                     [PoolRequest 1 probe] (Fulfilled (Some [])) _) _);
      reflexivity.
  - refine (proj2 (@test_user_not_found_or_failed (lookup_user "nobody")
                     (Some 1%nat) (Some 1%nat) _ [] 1%nat
                     [PoolRequest 1 probe] (Rejected connection_closed) _)
              connection_closed _); reflexivity.
Defined.

(** ** Instances *)


(** X9 on GET /api/Users with a garbage token, and with a token that
    verifies. *)
Lemma guarded_route_stops_unverified_requests_witness :
  (exists answer,
      exec (serve ∅ 100
              (Route "GET" "/api/Users" [AuthenticateToken] Index.users)
              (with_header [Opaque "Bearer"; Opaque "garbage"]))
        None []
      = Run (Some (Returned answer)) None [] []
      /\ (status answer = 401%nat \/ status answer = 403%nat))
  /\ serve ∅ 100 (Route "GET" "/api/Users" [AuthenticateToken] Index.users)
       (with_header [Opaque "Bearer";
                     signed (Auth.JWT_SECRET ∅) alice 0 86400])
     = Index.users
         (set_user
            (with_header [Opaque "Bearer";
                          signed (Auth.JWT_SECRET ∅) alice 0 86400])
            (Decoded (JwtPayload alice 0 86400))).
Proof.
  split.
  - apply (proj1 (@guarded_route_stops_unverified_requests ∅ 100
                    (Route "GET" "/api/Users" [AuthenticateToken] Index.users)
                    (with_header [Opaque "Bearer"; Opaque "garbage"])
                    None [] (or_introl eq_refl))).
    intros p Hp. discriminate Hp.
  - refine (proj2 (@guarded_route_stops_unverified_requests ∅ 100
                     (Route "GET" "/api/Users" [AuthenticateToken]
                        Index.users)
                     (with_header [Opaque "Bearer";
                                   signed (Auth.JWT_SECRET ∅) alice 0 86400])
                     None [] (or_introl eq_refl))
              (JwtPayload alice 0 86400) _ _ _); reflexivity.
Defined.

(** X10 on a token of role "user", where "admin" is asked for and where
    "user" is allowed. *)
Lemma token_then_role_witness :
  Auth.and_then
    (Auth.authenticateToken ∅
       (with_header [Opaque "Bearer";
                     signed (Auth.JWT_SECRET ∅) alice 0 86400]) 100)
    (Auth.requireRole ["admin"])
  = Respond (Response 403 (JObject
      [("success", jbool false);
       ("message", jstr "Insufficient permissions")]))
  /\ Auth.and_then
       (Auth.authenticateToken ∅
          (with_header [Opaque "Bearer";
                        signed (Auth.JWT_SECRET ∅) alice 0 86400]) 100)
       (Auth.requireRole ["admin"; "user"])
     = Next (set_user
               (with_header [Opaque "Bearer";
                             signed (Auth.JWT_SECRET ∅) alice 0 86400])
               (Decoded (JwtPayload alice 0 86400))).
Proof.
  split.
  - refine (proj2 (proj2 (token_then_role ∅
              (with_header [Opaque "Bearer";
                            signed (Auth.JWT_SECRET ∅) alice 0 86400])
              100 ["admin"]) (JwtPayload alice 0 86400) _ _) _);
      try reflexivity.
    cbn. intros [H|[]]. discriminate H.
  - refine (proj1 (proj2 (token_then_role ∅
              (with_header [Opaque "Bearer";
                            signed (Auth.JWT_SECRET ∅) alice 0 86400])
              100 ["admin"; "user"]) (JwtPayload alice 0 86400) _ _) _);
      try reflexivity.
    cbn. tauto.
Defined.

(** X11 with "admin" allowed, and with only "auditor" allowed. *)
Lemma bypass_then_role_witness :
  Auth.and_then
    (Auth.optionalAuthForReports (with_header [Opaque "Bearer"]))
    (Auth.requireRole ["admin"])
  = Next (set_user (with_header [Opaque "Bearer"]) system_identity)
  /\ Auth.and_then
       (Auth.optionalAuthForReports (with_header [Opaque "Bearer"]))
       (Auth.requireRole ["auditor"])
     = Respond (Response 403 (JObject
         [("success", jbool false);
          ("message", jstr "Insufficient permissions")])).
Proof.
  split.
  - apply (proj1 (bypass_then_role (with_header [Opaque "Bearer"])
                    ["admin"])).
    cbn. tauto.
  - apply (proj2 (bypass_then_role (with_header [Opaque "Bearer"])
                    ["auditor"])).
    cbn. intros [H|[]]. discriminate H.
Defined.

(** X12 on a request with a garbage token and no user. *)
Lemma optional_auth_never_blocks_witness :
  Auth.and_then
    (Auth.optionalAuth ∅ (with_header [Opaque "Bearer"; Opaque "garbage"])
       100)
    (Auth.requireRole ["admin"])
  = Respond (Response 401 (JObject
      [("success", jbool false);
       ("message", jstr "Authentication required")])).
Proof.
  apply (proj2 (optional_auth_never_blocks ∅
                  (with_header [Opaque "Bearer"; Opaque "garbage"]) 100)
           ["admin"]); [reflexivity|].
  intros p Hp. discriminate Hp.
Defined.
